(** * Expense tracker API: route handlers over an in-memory document store

    A shallow embedding of the Express route handlers of
    [backend/routes/users.js] (profile) and of the expense router that
    follows it in the same file, together with the Mongoose schema of
    [models/Expense.js].

    - A collection is a finite map from [_id] to the stored fields.
    - A handler is a function from the request and the collection to a
      response and the collection afterwards; what the driver throws is
      an explicit [Throw], which the handler's [catch] turns into 500.
    - Numbers are exact rationals ([Qc]); dates are milliseconds since
      the epoch ([Z]).  A double is a rational, and comparing, storing
      and returning one is exact; adding doubles rounds, and that
      rounding is not represented: no property below states the value
      of a sum of amounts as a fact of the code.
    - Strings are sequences of bytes.  [Js.trim] strips the white space
      of ASCII, which is what [trim] strips from ASCII text; properties
      that state a trimmed value are stated for ASCII text.
    - What the platform supplies (regular expressions, date and number
      parsing, validator.js predicates, lower-casing, the cast of an
      id, the local time zone) is a [Platform] the handlers are
      parametric in. *)

From Stdlib Require Import QArith Qcanon ZArith Ascii.
From stdpp Require Import base option sorting gmap strings numbers list.

Local Open Scope Z_scope.

Abbreviation ObjectId := N.

(** ** JavaScript values of the shapes the handlers meet *)

Module Js.

(** A request field is [None] when it is [undefined] (left out) and
    [Some s] when it is present; [""] is the one falsy string. *)
Definition truthy (s : string) : bool := negb (String.eqb s "").

(** [a || b] for a string field [a] and a definite fallback [b]. *)
Definition or_else (a : option string) (b : string) : string :=
  match a with
  | Some s => if truthy s then s else b
  | None => b
  end.

(** [a !== undefined ? a : b]. *)
Definition defined_or {A} (a : option A) (b : A) : A :=
  match a with Some x => x | None => b end.

(** A query-string parameter counts as supplied when it is truthy. *)
Definition supplied (a : option string) : option string :=
  match a with
  | Some s => if truthy s then Some s else None
  | None => None
  end.

Definition is_space (c : ascii) : bool :=
  let n := nat_of_ascii c in
  (Nat.eqb n 32 || (Nat.leb 9 n && Nat.leb n 13))%bool.

Fixpoint trim_start (s : string) : string :=
  match s with
  | EmptyString => EmptyString
  | String c s' => if is_space c then trim_start s' else s
  end.

Fixpoint trim_end (s : string) : string :=
  match s with
  | EmptyString => EmptyString
  | String c s' =>
      let t := trim_end s' in
      if (is_space c && String.eqb t "")%bool then EmptyString else String c t
  end.

(** [String.prototype.trim] on the ASCII white space. *)
Definition trim (s : string) : string := trim_end (trim_start s).

Definition lower_ascii (c : ascii) : ascii :=
  let n := nat_of_ascii c in
  if (Nat.leb 65 n && Nat.leb n 90)%bool then ascii_of_nat (n + 32) else c.

Fixpoint toLowerCase (s : string) : string :=
  match s with
  | EmptyString => EmptyString
  | String c s' => String (lower_ascii c) (toLowerCase s')
  end.

Fixpoint startsWith (p s : string) : bool :=
  match p, s with
  | EmptyString, _ => true
  | String a p', String b s' => (Ascii.eqb a b && startsWith p' s')%bool
  | String _ _, EmptyString => false
  end.

(** [s.includes(p)]. *)
Fixpoint includes (p s : string) : bool :=
  (startsWith p s ||
   match s with
   | EmptyString => false
   | String _ s' => includes p s'
   end)%bool.

End Js.

(** ** Calendar fields of a time value (ECMAScript, proleptic Gregorian) *)

Module Calendar.

Definition msPerDay : Z := 86400000.

Definition Day (t : Z) : Z := t `div` msPerDay.
Definition TimeWithinDay (t : Z) : Z := t `mod` msPerDay.

(** Day number of the civil date [y]-[m]-[d] ([m] in 1..12), counted
    from 1970-01-01. *)
Definition days_from_civil (y m d : Z) : Z :=
  let y' := if m <=? 2 then y - 1 else y in
  let era := y' `div` 400 in
  let yoe := y' - era * 400 in
  let mp := if 2 <? m then m - 3 else m + 9 in
  let doy := (153 * mp + 2) `div` 5 + d - 1 in
  let doe := yoe * 365 + yoe `div` 4 - yoe `div` 100 + doy in
  era * 146097 + doe - 719468.

(** The civil date (year, month 1..12, day of month) of a day number. *)
Definition civil_from_days (z : Z) : Z * Z * Z :=
  let z' := z + 719468 in
  let era := z' `div` 146097 in
  let doe := z' - era * 146097 in
  let yoe := (doe - doe `div` 1460 + doe `div` 36524 - doe `div` 146096) `div` 365 in
  let doy := doe - (365 * yoe + yoe `div` 4 - yoe `div` 100) in
  let mp := (5 * doy + 2) `div` 153 in
  let d := doy - (153 * mp + 2) `div` 5 + 1 in
  let m := if mp <? 10 then mp + 3 else mp - 9 in
  let y := yoe + era * 400 in
  (if m <=? 2 then y + 1 else y, m, d).

Definition YearFromTime (t : Z) : Z := (civil_from_days (Day t)).1.1.
(** 0-based, as [getMonth] returns it. *)
Definition MonthFromTime (t : Z) : Z := (civil_from_days (Day t)).1.2 - 1.
Definition DateFromTime (t : Z) : Z := (civil_from_days (Day t)).2.

(** [MakeDay(year, month, date)]: the month may lie outside 0..11 and
    the date outside the month; both carry over. *)
Definition MakeDay (year month date : Z) : Z :=
  let ym := year + month `div` 12 in
  let mn := month `mod` 12 in
  days_from_civil ym (mn + 1) 1 + date - 1.

Definition MakeDate (day time : Z) : Z := day * msPerDay + time.

(** [LocalTime(t)] and [UTC(t)].  [tza t isUTC] is [LocalTZA(t, isUTC)]:
    the offset of local time from UTC in milliseconds that is in force
    at the UTC time [t] ([isUTC = true]) or at the local time [t]
    ([isUTC = false]); it changes with daylight saving time. *)
Definition LocalTime (tza : Z → bool → Z) (t : Z) : Z := t + tza t true.
Definition UTC (tza : Z → bool → Z) (t : Z) : Z := t - tza t false.

(** [d.setMonth(m)] on the time value [t], in local time. *)
Definition setMonth (tza : Z → bool → Z) (t m : Z) : Z :=
  let lt := LocalTime tza t in
  UTC tza (MakeDate (MakeDay (YearFromTime lt) m (DateFromTime lt)) (TimeWithinDay lt)).

(** [d.getMonth()] in local time. *)
Definition getMonth (tza : Z → bool → Z) (t : Z) : Z := MonthFromTime (LocalTime tza t).

(** The aggregation operators [$year] and [$month] (UTC, month 1..12). *)
Definition agg_year (t : Z) : Z := YearFromTime t.
Definition agg_month (t : Z) : Z := MonthFromTime t + 1.

(** [Date.UTC]-style constructor used to write test dates. *)
Definition utc (y m d : Z) : Z := days_from_civil y m d * msPerDay.

End Calendar.

(** ** What the platform supplies *)

(** Library functions the handlers call and whose code is not part of
    the repository.  [None] stands for the library's failure value:
    a pattern the server rejects, [Invalid Date], [NaN]. *)
Class Platform := {
  (** MongoDB's [$regex] with [$options: 'i']: the compiled matcher. *)
  regex_i : string → option (string → bool);
  (** validator.js [isISO8601] and [isEmail]. *)
  isISO8601 : string → bool;
  isEmail : string → bool;
  (** [new Date(s)]. *)
  new_Date : string → option Z;
  (** Mongoose's cast of a string to a [Date] path. *)
  castDate : string → option Z;
  (** [parseFloat(s)]. *)
  parseFloat : string → option Qc;
  (** [String.prototype.toLowerCase]. *)
  toLowerCase : string → string;
  (** Mongoose's cast of a string to an [ObjectId]. *)
  castObjectId : string → option ObjectId;
  (** [LocalTZA(t, isUTC)] of the server: the offset of its local time
      from UTC in milliseconds, at the UTC time [t] ([isUTC = true]) or
      at the local time [t] ([isUTC = false]). *)
  localTZA : Z → bool → Z;
}.

(** ** JSON responses *)

#[warnings="-register-all"] Inductive json :=
| JNull
| JNum (q : Qc)
| JStr (s : string)
| JId (i : ObjectId)
| JDate (t : Z)
| JArr (l : list json)
| JObj (fields : list (string * json)).

Definition json_keys (j : json) : list string :=
  match j with JObj fs => fs.*1 | _ => [] end.

Fixpoint assoc (k : string) (fs : list (string * json)) : option json :=
  match fs with
  | [] => None
  | (k', v) :: fs' => if String.eqb k k' then Some v else assoc k fs'
  end.

Definition json_get (k : string) (j : json) : option json :=
  match j with JObj fs => assoc k fs | _ => None end.

(** An object literal whose [undefined] members [JSON.stringify] drops. *)
Definition opt_field (k : string) (v : option string) : list (string * json) :=
  match v with Some s => [(k, JStr s)] | None => [] end.

Record Response := mkResponse { status : Z; body : json }.

(** [res.status(c).json({ message })]. *)
Definition message (c : Z) (m : string) : Response :=
  mkResponse c (JObj [("message", JStr m)]).

(** [res.status(400).json({ errors: errors.array() })]; of each error
    only its [msg] is kept. *)
Definition validation_failed (msgs : list string) : Response :=
  mkResponse 400 (JObj [("errors", JArr ((λ m, JObj [("msg", JStr m)]) <$> msgs))]).

(** ** The document store *)

Inductive Exn := CastError | ValidationError | MongoServerError.

Inductive result (A : Type) :=
| Ok (a : A)
| Throw (e : Exn).
Arguments Ok {A} a.
Arguments Throw {A} e.

#[global] Instance result_ret : MRet result := λ A a, Ok a.
#[global] Instance result_bind : MBind result := λ A B f m,
  match m with Ok a => f a | Throw e => Throw e end.

Definition require {A} (e : Exn) (o : option A) : result A :=
  match o with Some a => Ok a | None => Throw e end.

Definition check (e : Exn) (b : bool) : result unit :=
  if b then Ok () else Throw e.

(** *** Expense schema ([models/Expense.js]) *)

Record Expense := mkExpense {
  userId : ObjectId;
  amount : Qc;
  category : string;
  description : string;
  date : Z;
  paymentMethod : string;
}.

(** A document: the [_id] and the stored fields.  The bookkeeping
    fields of [timestamps: true] and [__v] are not represented. *)
Abbreviation ExpenseDoc := (ObjectId * Expense)%type.

Definition categories : list string :=
  ["Food & Dining"; "Transportation"; "Shopping"; "Entertainment";
   "Bills & Utilities"; "Healthcare"; "Education"; "Travel"; "Personal"; "Other"].

Definition paymentMethods : list string :=
  ["Cash"; "Credit Card"; "Debit Card"; "UPI"; "Net Banking"; "Other"].

(** What is assigned to a [Date] path: a string still to be cast, or a
    time value ([Date.now()], or the [Date] already stored). *)
Inductive DateArg := DateOfString (s : string) | DateOfTime (t : Z).

(** The values assigned to the paths of a document before validation. *)
Record ExpenseArgs := mkArgs {
  a_userId : option ObjectId;
  a_amount : option Qc;
  a_category : option string;
  a_description : option string;
  a_date : option DateArg;
  a_paymentMethod : option string;
}.

Definition enum (allowed : list string) (s : string) : bool :=
  bool_decide (s ∈ allowed).

(** [{ $gte, $lte }]; a bound is absent, or present with the value the
    handler computed, which may be [Invalid Date] or [NaN] ([None]). *)
Record Bounds (A : Type) := mkBounds { b_gte : option (option A); b_lte : option (option A) }.
Arguments mkBounds {A}.
Arguments b_gte {A}.
Arguments b_lte {A}.

Record Filter := mkFilter {
  f_userId : ObjectId;
  f_description : option string;
  f_category : option string;
  f_date : option (Bounds Z);
  f_amount : option (Bounds Qc);
}.

Section Store.
Context `{Platform}.

Definition cast_date_arg (a : DateArg) : result Z :=
  match a with
  | DateOfString s => require CastError (castDate s)
  | DateOfTime t => Ok t
  end.

(** Setters, casts, defaults and validators of [expenseSchema], run on
    the whole document as [save] and [create] do. *)
Definition expenseSchema (now : Z) (a : ExpenseArgs) : result Expense :=
  u ← require ValidationError (a_userId a);
  x ← require ValidationError (a_amount a);
  _ ← check ValidationError (bool_decide (0 ≤ x)%Qc);
  c ← require ValidationError (a_category a);
  _ ← check ValidationError (enum categories c);
  d0 ← require ValidationError (a_description a);
  let d := Js.trim d0 in
  _ ← check ValidationError (Js.truthy d);
  t ← match a_date a with
      | Some v => cast_date_arg v
      | None => Ok now
      end;
  p ← require ValidationError (a_paymentMethod a);
  _ ← check ValidationError (enum paymentMethods p);
  Ok (mkExpense u x c d t p).

(** [Expense.findById(id)] for an id that is an [ObjectId].  A path
    segment is cast first, and the call throws when the cast fails:
    [findById_param] below. *)
Definition findById (id : ObjectId) (coll : gmap ObjectId Expense) : option Expense :=
  coll !! id.

(** [Expense.create(args)] with the [_id] the driver generates. *)
Definition create (now : Z) (newId : ObjectId) (a : ExpenseArgs)
    (coll : gmap ObjectId Expense) : result (ExpenseDoc * gmap ObjectId Expense) :=
  e ← expenseSchema now a;
  match coll !! newId with
  | Some _ => Throw MongoServerError
  | None => Ok ((newId, e), <[newId := e]> coll)
  end.

(** [doc.save()] of a document loaded under [id]. *)
Definition save (now : Z) (id : ObjectId) (a : ExpenseArgs)
    (coll : gmap ObjectId Expense) : result (ExpenseDoc * gmap ObjectId Expense) :=
  e ← expenseSchema now a;
  Ok ((id, e), <[id := e]> coll).

(** [doc.deleteOne()]. *)
Definition deleteOne (id : ObjectId) (coll : gmap ObjectId Expense) : gmap ObjectId Expense :=
  delete id coll.

(** *** Query filters *)

Definition cast_bound {A} (b : option (option A)) : result (option A) :=
  match b with
  | None => Ok None
  | Some None => Throw CastError
  | Some (Some x) => Ok (Some x)
  end.

Definition cast_bounds {A} (b : option (Bounds A)) : result (option A * option A) :=
  match b with
  | None => Ok (None, None)
  | Some r => lo ← cast_bound (b_gte r); hi ← cast_bound (b_lte r); Ok (lo, hi)
  end.

Definition compile_regex (p : option string) : result (option (string → bool)) :=
  match p with
  | None => Ok None
  | Some s => m ← require MongoServerError (regex_i s); Ok (Some m)
  end.

Definition opt_test {A} (o : option A) (f : A → bool) : bool :=
  match o with Some a => f a | None => true end.

(** Whether a document satisfies a filter whose parts have been cast. *)
Definition matches (u : ObjectId) (re : option (string → bool)) (cat : option string)
    (dt : option Z * option Z) (am : option Qc * option Qc) (d : ExpenseDoc) : bool :=
  bool_decide (userId d.2 = u)
  && opt_test re (λ m, m (description d.2))
  && opt_test cat (λ c, String.eqb (category d.2) c)
  && opt_test dt.1 (λ lo, bool_decide (lo ≤ date d.2))
  && opt_test dt.2 (λ hi, bool_decide (date d.2 ≤ hi))
  && opt_test am.1 (λ lo, bool_decide (lo ≤ amount d.2)%Qc)
  && opt_test am.2 (λ hi, bool_decide (amount d.2 ≤ hi)%Qc).

(** [Expense.find(filter)]. *)
Definition find (f : Filter) (coll : gmap ObjectId Expense) : result (list ExpenseDoc) :=
  re ← compile_regex (f_description f);
  dt ← cast_bounds (f_date f);
  am ← cast_bounds (f_amount f);
  Ok (filter (λ d, matches (f_userId f) re (f_category f) dt am d) (map_to_list coll)).

(** [.sort({ date: -1 })]. *)
Definition date_desc (a b : ExpenseDoc) : Prop := date b.2 ≤ date a.2.
#[global] Instance date_desc_dec : RelDecision date_desc :=
  λ a b, decide (date b.2 ≤ date a.2).
Definition sort_date_desc (l : list ExpenseDoc) : list ExpenseDoc :=
  merge_sort date_desc l.

End Store.

(** *** Aggregation stages *)

(** The output document of a [$group] stage that accumulates
    [total: { $sum: '$amount' }] and [count: { $sum: 1 }]. *)
Record Group (K : Type) := mkGroup { g_id : K; g_total : Qc; g_count : nat }.
Arguments mkGroup {K}.
Arguments g_id {K}.
Arguments g_total {K}.
Arguments g_count {K}.

Section Aggregate.
Context {K : Type} `{EqDecision K}.

(** Feed one document with group key [k] and amount [x] to the groups. *)
Fixpoint group_add (k : K) (x : Qc) (gs : list (Group K)) : list (Group K) :=
  match gs with
  | [] => [mkGroup k x 1]
  | g :: gs' =>
      if decide (g_id g = k)
      then mkGroup k (g_total g + x)%Qc (S (g_count g)) :: gs'
      else g :: group_add k x gs'
  end.

(** [{ $group: { _id: key, total: ..., count: ... } }]. *)
Definition group_stage (key : ExpenseDoc → K) (docs : list ExpenseDoc) : list (Group K) :=
  foldl (λ gs d, group_add (key d) (amount d.2) gs) [] docs.
End Aggregate.

(** [{ $sort: { total: -1 } }]. *)
Definition total_desc {K} (a b : Group K) : Prop := (g_total b ≤ g_total a)%Qc.
#[global] Instance total_desc_dec {K} : RelDecision (@total_desc K) :=
  λ a b, decide (g_total b ≤ g_total a)%Qc.

(** [{ $sort: { '_id.year': 1, '_id.month': 1 } }]. *)
Definition ym_le (a b : Z * Z) : Prop := a.1 < b.1 ∨ (a.1 = b.1 ∧ a.2 ≤ b.2).
Definition ym_asc (a b : Group (Z * Z)) : Prop := ym_le (g_id a) (g_id b).
#[global] Instance ym_asc_dec : RelDecision ym_asc :=
  λ a b, decide ((g_id a).1 < (g_id b).1 ∨ ((g_id a).1 = (g_id b).1 ∧ (g_id a).2 ≤ (g_id b).2)).

(** [{ $match: { userId } }]. *)
Definition match_user (uid : ObjectId) (docs : list ExpenseDoc) : list ExpenseDoc :=
  filter (λ d, userId d.2 = uid) docs.

(** [{ $match: { userId, date: { $gte: since } } }]. *)
Definition match_user_since (uid : ObjectId) (since : Z) (docs : list ExpenseDoc) : list ExpenseDoc :=
  filter (λ d, userId d.2 = uid ∧ since ≤ date d.2) docs.

Definition month_key (d : ExpenseDoc) : Z * Z :=
  (Calendar.agg_year (date d.2), Calendar.agg_month (date d.2)).

Definition agg_total (uid : ObjectId) (docs : list ExpenseDoc) : list (Group ()) :=
  group_stage (λ _, ()) (match_user uid docs).

Definition agg_byCategory (uid : ObjectId) (docs : list ExpenseDoc) : list (Group string) :=
  merge_sort total_desc (group_stage (λ d, category d.2) (match_user uid docs)).

Definition agg_monthly (uid : ObjectId) (since : Z) (docs : list ExpenseDoc) : list (Group (Z * Z)) :=
  merge_sort ym_asc (group_stage month_key (match_user_since uid since docs)).

(** [totalExpenses[0]?.total || 0]. *)
Definition first_total (gs : list (Group ())) : Qc :=
  match head gs with
  | Some g => if decide (g_total g = 0%Qc) then 0%Qc else g_total g
  | None => 0%Qc
  end.

(** ** Serialisation of documents *)

Definition expense_json (d : ExpenseDoc) : json :=
  JObj [("_id", JId d.1); ("userId", JId (userId d.2)); ("amount", JNum (amount d.2));
        ("category", JStr (category d.2)); ("description", JStr (description d.2));
        ("date", JDate (date d.2)); ("paymentMethod", JStr (paymentMethod d.2))].

Definition count_json (n : nat) : json := JNum (Qc_of_Z (Z.of_nat n)).

Definition category_group_json (g : Group string) : json :=
  JObj [("_id", JStr (g_id g)); ("total", JNum (g_total g)); ("count", count_json (g_count g))].

Definition month_group_json (g : Group (Z * Z)) : json :=
  JObj [("_id", JObj [("year", JNum (Qc_of_Z (g_id g).1)); ("month", JNum (Qc_of_Z (g_id g).2))]);
        ("total", JNum (g_total g)); ("count", count_json (g_count g))].

Definition stats_json (total : Qc) (byCategory : list (Group string))
    (monthly : list (Group (Z * Z))) : json :=
  JObj [("totalExpenses", JNum total);
        ("byCategory", JArr (category_group_json <$> byCategory));
        ("monthlyExpenses", JArr (month_group_json <$> monthly))].

(** ** The expense router *)

(** The body of POST and PUT, as the JSON object of strings and a number
    the client sends; [b_userId] is a member no handler reads. *)
Record ExpenseBody := mkBody {
  b_userId : option ObjectId;
  b_amount : option Qc;
  b_category : option string;
  b_description : option string;
  b_date : option string;
  b_paymentMethod : option string;
}.

(** The query string of GET /api/expenses. *)
Record ListParams := mkParams {
  q_search : option string;
  q_category : option string;
  q_startDate : option string;
  q_endDate : option string;
  q_minAmount : option string;
  q_maxAmount : option string;
}.

Definition server_error : Response := message 500 "Server error".

(** [try { ... } catch (error) { res.status(500).json(...) }]: nothing
    was written when the body threw. *)
Definition catching {S} (coll : S) (r : result (Response * S)) : Response * S :=
  match r with
  | Ok x => x
  | Throw _ => (server_error, coll)
  end.

(** One validation chain: its message when the test fails. *)
Definition rule (ok : bool) (msg : string) : list string :=
  if ok then [] else [msg].

(** [.optional()]: the chain is skipped for an [undefined] field. *)
Definition optional {A} (v : option A) (test : A → bool) : bool :=
  match v with Some x => test x | None => true end.

(** A chain without [.optional()]: an [undefined] field fails it. *)
Definition mandatory {A} (v : option A) (test : A → bool) : bool :=
  match v with Some x => test x | None => false end.

(** [isFloat({ min: 0 })]. *)
Definition isFloat_min0 (x : Qc) : bool := bool_decide (0 ≤ x)%Qc.

(** [notEmpty()]. *)
Definition notEmpty (s : string) : bool := Js.truthy s.

Section ExpenseRoutes.
Context `{Platform}.

(** *** GET /api/expenses *)

(** [if (lo || hi) { f = {}; if (lo) f.$gte = parse(lo); if (hi) f.$lte = parse(hi) }]. *)
Definition range {A} (parse : string → option A) (lo hi : option string) : option (Bounds A) :=
  match Js.supplied lo, Js.supplied hi with
  | None, None => None
  | l, h => Some (mkBounds (parse <$> l) (parse <$> h))
  end.

Definition date_bounds (startDate endDate : option string) : option (Bounds Z) :=
  range new_Date startDate endDate.

Definition amount_bounds (minAmount maxAmount : option string) : option (Bounds Qc) :=
  range parseFloat minAmount maxAmount.

Definition build_query (uid : ObjectId) (q : ListParams) : Filter :=
  {| f_userId := uid;
     f_description := Js.supplied (q_search q);
     f_category := Js.supplied (q_category q);
     f_date := date_bounds (q_startDate q) (q_endDate q);
     f_amount := amount_bounds (q_minAmount q) (q_maxAmount q) |}.

Definition list_expenses (uid : ObjectId) (q : ListParams)
    (coll : gmap ObjectId Expense) : Response * gmap ObjectId Expense :=
  catching coll (
    expenses ← find (build_query uid q) coll;
    Ok (mkResponse 200 (JArr (expense_json <$> sort_date_desc expenses)), coll)).

(** *** GET /api/expenses/stats *)

(** [new Date()] moved back by [setMonth(getMonth() - 6)]. *)
Definition sixMonthsAgo (now : Z) : Z :=
  Calendar.setMonth localTZA now (Calendar.getMonth localTZA now - 6).

Definition expense_stats (uid : ObjectId) (now : Z)
    (coll : gmap ObjectId Expense) : Response * gmap ObjectId Expense :=
  catching coll (
    let docs := map_to_list coll in
    let totalExpenses := agg_total uid docs in
    let byCategory := agg_byCategory uid docs in
    let monthlyExpenses := agg_monthly uid (sixMonthsAgo now) docs in
    Ok (mkResponse 200 (stats_json (first_total totalExpenses) byCategory monthlyExpenses),
        coll)).

(** *** POST /api/expenses *)

Definition validate_create (b : ExpenseBody) : list string :=
  rule (mandatory (b_amount b) isFloat_min0) "Amount must be a positive number"
  ++ rule (mandatory (b_category b) notEmpty) "Category is required"
  ++ rule (mandatory (Js.trim <$> b_description b) notEmpty) "Description is required"
  ++ rule (optional (b_date b) isISO8601) "Invalid date format"
  ++ rule (mandatory (b_paymentMethod b) notEmpty) "Payment method is required".

(** The body after the chain's sanitizer [trim()] on [description]. *)
Definition sanitize (b : ExpenseBody) : ExpenseBody :=
  mkBody (b_userId b) (b_amount b) (b_category b) (Js.trim <$> b_description b)
         (b_date b) (b_paymentMethod b).

Definition create_expense (uid : ObjectId) (now : Z) (newId : ObjectId) (b : ExpenseBody)
    (coll : gmap ObjectId Expense) : Response * gmap ObjectId Expense :=
  match validate_create b with
  | (_ :: _) as errors => (validation_failed errors, coll)
  | [] =>
      let b := sanitize b in
      catching coll (
        '(expense, coll') ← create now newId
          {| a_userId := Some uid;
             a_amount := b_amount b;
             a_category := b_category b;
             a_description := b_description b;
             a_date := Some (match Js.supplied (b_date b) with
                             | Some s => DateOfString s
                             | None => DateOfTime now
                             end);
             a_paymentMethod := b_paymentMethod b |} coll;
        Ok (mkResponse 201 (expense_json expense), coll'))
  end.

(** *** GET /api/expenses/:id *)

Definition get_expense (uid : ObjectId) (id : ObjectId)
    (coll : gmap ObjectId Expense) : Response * gmap ObjectId Expense :=
  catching coll (
    match findById id coll with
    | None => Ok (message 404 "Expense not found", coll)
    | Some expense =>
        if decide (userId expense ≠ uid)
        then Ok (message 401 "Not authorized", coll)
        else Ok (mkResponse 200 (expense_json (id, expense)), coll)
    end).

(** *** PUT /api/expenses/:id *)

Definition validate_update (b : ExpenseBody) : list string :=
  rule (optional (b_amount b) isFloat_min0) "Amount must be a positive number"
  ++ rule (optional (Js.trim <$> b_description b) notEmpty) "Description cannot be empty"
  ++ rule (optional (b_date b) isISO8601) "Invalid date format".

(** The five assignments to the loaded document. *)
Definition assign (expense : Expense) (b : ExpenseBody) : ExpenseArgs :=
  {| a_userId := Some (userId expense);
     a_amount := Some (Js.defined_or (b_amount b) (amount expense));
     a_category := Some (Js.or_else (b_category b) (category expense));
     a_description := Some (Js.or_else (b_description b) (description expense));
     a_date := Some (match Js.supplied (b_date b) with
                     | Some s => DateOfString s
                     | None => DateOfTime (date expense)
                     end);
     a_paymentMethod := Some (Js.or_else (b_paymentMethod b) (paymentMethod expense)) |}.

Definition update_expense (uid : ObjectId) (now : Z) (id : ObjectId) (b : ExpenseBody)
    (coll : gmap ObjectId Expense) : Response * gmap ObjectId Expense :=
  match validate_update b with
  | (_ :: _) as errors => (validation_failed errors, coll)
  | [] =>
      let b := sanitize b in
      catching coll (
        match findById id coll with
        | None => Ok (message 404 "Expense not found", coll)
        | Some expense =>
            if decide (userId expense ≠ uid)
            then Ok (message 401 "Not authorized", coll)
            else
              '(updatedExpense, coll') ← save now id (assign expense b) coll;
              Ok (mkResponse 200 (expense_json updatedExpense), coll')
        end)
  end.

(** *** DELETE /api/expenses/:id *)

Definition delete_expense (uid : ObjectId) (id : ObjectId)
    (coll : gmap ObjectId Expense) : Response * gmap ObjectId Expense :=
  catching coll (
    match findById id coll with
    | None => Ok (message 404 "Expense not found", coll)
    | Some expense =>
        if decide (userId expense ≠ uid)
        then Ok (message 401 "Not authorized", coll)
        else Ok (message 200 "Expense removed", deleteOne id coll)
    end).

End ExpenseRoutes.

(** The three routes that take an [:id]. *)
Inductive IdRequest :=
| GET_id
| PUT_id (now : Z) (b : ExpenseBody)
| DELETE_id.

Definition by_id `{Platform} (r : IdRequest) (uid id : ObjectId)
    (coll : gmap ObjectId Expense) : Response * gmap ObjectId Expense :=
  match r with
  | GET_id => get_expense uid id coll
  | PUT_id now b => update_expense uid now id b coll
  | DELETE_id => delete_expense uid id coll
  end.

(** *** The [:id] segment of the path

    [req.params.id] is a string.  [findById] casts it to an [ObjectId]
    and throws a [CastError] when it is not one; the handlers above are
    the routes for an id that has been cast. *)

Section Params.
Context `{Platform}.

(** [Expense.findById(req.params.id)]. *)
Definition findById_param (param : string)
    (coll : gmap ObjectId Expense) : result (option ExpenseDoc) :=
  id ← require CastError (castObjectId param);
  Ok ((λ expense, (id, expense)) <$> findById id coll).

Definition get_expense_at (uid : ObjectId) (param : string)
    (coll : gmap ObjectId Expense) : Response * gmap ObjectId Expense :=
  catching coll (
    found ← findById_param param coll;
    match found with
    | None => Ok (message 404 "Expense not found", coll)
    | Some (id, expense) =>
        if decide (userId expense ≠ uid)
        then Ok (message 401 "Not authorized", coll)
        else Ok (mkResponse 200 (expense_json (id, expense)), coll)
    end).

Definition update_expense_at (uid : ObjectId) (now : Z) (param : string) (b : ExpenseBody)
    (coll : gmap ObjectId Expense) : Response * gmap ObjectId Expense :=
  match validate_update b with
  | (_ :: _) as errors => (validation_failed errors, coll)
  | [] =>
      let b := sanitize b in
      catching coll (
        found ← findById_param param coll;
        match found with
        | None => Ok (message 404 "Expense not found", coll)
        | Some (id, expense) =>
            if decide (userId expense ≠ uid)
            then Ok (message 401 "Not authorized", coll)
            else
              '(updatedExpense, coll') ← save now id (assign expense b) coll;
              Ok (mkResponse 200 (expense_json updatedExpense), coll')
        end)
  end.

Definition delete_expense_at (uid : ObjectId) (param : string)
    (coll : gmap ObjectId Expense) : Response * gmap ObjectId Expense :=
  catching coll (
    found ← findById_param param coll;
    match found with
    | None => Ok (message 404 "Expense not found", coll)
    | Some (id, expense) =>
        if decide (userId expense ≠ uid)
        then Ok (message 401 "Not authorized", coll)
        else Ok (message 200 "Expense removed", deleteOne id coll)
    end).

Definition at_path (r : IdRequest) (uid : ObjectId) (param : string)
    (coll : gmap ObjectId Expense) : Response * gmap ObjectId Expense :=
  match r with
  | GET_id => get_expense_at uid param coll
  | PUT_id now b => update_expense_at uid now param b coll
  | DELETE_id => delete_expense_at uid param coll
  end.

End Params.

(** ** The profile router ([backend/routes/users.js]) *)

(** Modelled from the spec: the User schema ([models/User.js]) is not in
    the sources at hand; the spec gives it name, email (unique, lower
    case), password (the hash), and the optional strings bio, phone and
    avatar.  Time stamps are not represented. *)
Record User := mkUser {
  name : string;
  email : string;
  password : string;
  bio : option string;
  phone : option string;
  avatar : option string;
}.

Abbreviation UserDoc := (ObjectId * User)%type.

(** [res.json(user)]: every stored path of the document. *)
Definition user_json (d : UserDoc) : json :=
  JObj ([("_id", JId d.1); ("name", JStr (name d.2)); ("email", JStr (email d.2));
         ("password", JStr (password d.2))]
        ++ opt_field "bio" (bio d.2) ++ opt_field "phone" (phone d.2)
        ++ opt_field "avatar" (avatar d.2)).

(** The object literal the update handler answers with. *)
Definition profile_json (d : UserDoc) : json :=
  JObj ([("_id", JId d.1); ("name", JStr (name d.2)); ("email", JStr (email d.2))]
        ++ opt_field "bio" (bio d.2) ++ opt_field "phone" (phone d.2)
        ++ opt_field "avatar" (avatar d.2)).

Record ProfileBody := mkProfileBody {
  p_name : option string;
  p_email : option string;
  p_bio : option string;
  p_phone : option string;
  p_avatar : option string;
}.

Section ProfileRoutes.
Context `{Platform}.

(** Modelled from the spec: [User.findOne({ email })] under a schema
    whose email path is lower case; the filter is cast as a value of
    the path is, so the look-up is by the lower-cased string. *)
Definition findOne_email (e : string) (users : gmap ObjectId User) : option UserDoc :=
  head (filter (λ d : UserDoc, email d.2 = toLowerCase e) (map_to_list users)).

(** Modelled from the spec: [user.save()] under a schema whose email
    path is lower-cased when set and carries a unique index. *)
Definition save_user (id : ObjectId) (u : User)
    (users : gmap ObjectId User) : result (UserDoc * gmap ObjectId User) :=
  let u' := mkUser (name u) (toLowerCase (email u)) (password u) (bio u) (phone u) (avatar u) in
  match filter (λ d : UserDoc, d.1 ≠ id ∧ email d.2 = email u') (map_to_list users) with
  | _ :: _ => Throw MongoServerError
  | [] => Ok ((id, u'), <[id := u']> users)
  end.

(** *** GET /api/users/profile *)

Definition get_profile (uid : ObjectId)
    (users : gmap ObjectId User) : Response * gmap ObjectId User :=
  catching users (
    let user := users !! uid in
    Ok (mkResponse 200 (match user with Some u => user_json (uid, u) | None => JNull end),
        users)).

(** *** PUT /api/users/profile *)

Definition validate_profile (b : ProfileBody) : list string :=
  rule (optional (Js.trim <$> p_name b) notEmpty) "Name cannot be empty"
  ++ rule (optional (p_email b) isEmail) "Please provide a valid email".

Definition sanitize_profile (b : ProfileBody) : ProfileBody :=
  mkProfileBody (Js.trim <$> p_name b) (p_email b) (Js.trim <$> p_bio b)
                (Js.trim <$> p_phone b) (p_avatar b).

Definition assign_profile (user : User) (b : ProfileBody) : User :=
  {| name := Js.or_else (p_name b) (name user);
     email := Js.or_else (p_email b) (email user);
     password := password user;
     bio := match p_bio b with Some s => Some s | None => bio user end;
     phone := match p_phone b with Some s => Some s | None => phone user end;
     avatar := match p_avatar b with Some s => Some s | None => avatar user end |}.

(** [email && email !== user.email], then the look-up. *)
Definition email_taken (b : ProfileBody) (user : User) (users : gmap ObjectId User) : bool :=
  match Js.supplied (p_email b) with
  | Some e =>
      if decide (e ≠ email user)
      then bool_decide (is_Some (findOne_email e users))
      else false
  | None => false
  end.

Definition update_profile (uid : ObjectId) (b : ProfileBody)
    (users : gmap ObjectId User) : Response * gmap ObjectId User :=
  match validate_profile b with
  | (_ :: _) as errors => (validation_failed errors, users)
  | [] =>
      let b := sanitize_profile b in
      catching users (
        match users !! uid with
        | None => Ok (message 404 "User not found", users)
        | Some user =>
            if email_taken b user users
            then Ok (message 400 "Email already in use", users)
            else
              '(updatedUser, users') ← save_user uid (assign_profile user b) users;
              Ok (mkResponse 200 (profile_json updatedUser), users')
        end)
  end.

End ProfileRoutes.

(** ** Regular expression patterns *)

(** The characters with a meaning of their own in a pattern. *)
Definition metacharacters : list ascii :=
  String.list_ascii_of_string "\^$.|?*+()[]{}".

Definition is_meta (c : ascii) : bool := existsb (Ascii.eqb c) metacharacters.

(** A pattern without metacharacters. *)
Definition literal (p : string) : bool :=
  forallb (λ c, negb (is_meta c)) (String.list_ascii_of_string p).

(** ** A reference platform

    An executable [Platform] on which requests can be run.  It answers
    as Node.js, validator.js and MongoDB do on the inputs it covers:
    calendar dates written [YYYY-MM-DD], unsigned decimal integers, and
    patterns whose only operator is [.], identifiers of 24 hexadecimal
    digits, ASCII letters, and a server clock on UTC; everything else
    it rejects or leaves as it is. *)

Module Ref.

Definition is_digit (c : ascii) : bool :=
  let n := nat_of_ascii c in (Nat.leb 48 n && Nat.leb n 57)%bool.

Fixpoint digits (acc : Z) (s : string) : option Z :=
  match s with
  | EmptyString => Some acc
  | String c s' =>
      if is_digit c then digits (10 * acc + (Z.of_nat (nat_of_ascii c) - 48)) s' else None
  end.

Definition number (s : string) : option Z :=
  if Js.truthy s then digits 0 s else None.

(** [YYYY-MM-DD] naming a day of the calendar, as midnight UTC. *)
Definition date (s : string) : option Z :=
  if (Nat.eqb (String.length s) 10
      && String.eqb (String.substring 4 1 s) "-"
      && String.eqb (String.substring 7 1 s) "-")%bool
  then
    y ← number (String.substring 0 4 s);
    m ← number (String.substring 5 2 s);
    d ← number (String.substring 8 2 s);
    if decide (Calendar.civil_from_days (Calendar.days_from_civil y m d) = (y, m, d))
    then Some (Calendar.utc y m d) else None
  else None.

Definition dot : ascii := "."%char.
Definition newline : ascii := ascii_of_nat 10.

(** Whether the pattern of literals and [.] matches at the start. *)
Fixpoint match_here (p s : string) : bool :=
  match p, s with
  | EmptyString, _ => true
  | String a p', String b s' =>
      ((if Ascii.eqb a dot then negb (Ascii.eqb b newline)
        else Ascii.eqb (Js.lower_ascii a) (Js.lower_ascii b))
       && match_here p' s')%bool
  | String _ _, EmptyString => false
  end.

(** Unanchored search. *)
Fixpoint search (p s : string) : bool :=
  (match_here p s ||
   match s with
   | EmptyString => false
   | String _ s' => search p s'
   end)%bool.

Definition regex (p : string) : option (string → bool) :=
  if forallb (λ c, negb (is_meta c) || Ascii.eqb c dot)%bool (String.list_ascii_of_string p)
  then Some (search p) else None.

Definition email (s : string) : bool :=
  (Js.includes "@" s && negb (Js.startsWith "@" s))%bool.

Definition hex_digit (c : ascii) : option N :=
  let n := N_of_ascii c in
  if ((48 <=? n) && (n <=? 57))%N then Some (n - 48)%N
  else if ((97 <=? n) && (n <=? 102))%N then Some (n - 87)%N
  else if ((65 <=? n) && (n <=? 70))%N then Some (n - 55)%N
  else None.

Fixpoint hex (acc : N) (s : string) : option N :=
  match s with
  | EmptyString => Some acc
  | String c s' => d ← hex_digit c; hex (16 * acc + d)%N s'
  end.

(** The twelve bytes of an [ObjectId] written as 24 hexadecimal digits. *)
Definition objectId (s : string) : option ObjectId :=
  if Nat.eqb (String.length s) 24 then hex 0 s else None.

Definition platform : Platform :=
  {| regex_i := regex;
     isISO8601 := λ s, bool_decide (is_Some (date s));
     isEmail := email;
     new_Date := date;
     castDate := date;
     parseFloat := λ s, Qc_of_Z <$> number s;
     toLowerCase := Js.toLowerCase;
     castObjectId := objectId;
     localTZA := λ _ _, 0 |}.

End Ref.

(** ** Notions the properties are stated with *)

(** The sum of the [amount] members of a list of documents. *)
Definition sum_amounts (docs : list ExpenseDoc) : Qc :=
  foldr (λ d acc, amount d.2 + acc)%Qc 0%Qc docs.

(** The documents of a list that a [$group] stage puts under key [k]. *)
Definition bucket {K} `{EqDecision K} (key : ExpenseDoc → K) (k : K)
    (docs : list ExpenseDoc) : list ExpenseDoc :=
  filter (λ d, key d = k) docs.

(** The group with [_id] [k] among the output of a [$group] stage. *)
Fixpoint glookup {K} `{EqDecision K} (k : K) (gs : list (Group K)) : option (Group K) :=
  match gs with
  | [] => None
  | g :: gs' => if decide (g_id g = k) then Some g else glookup k gs'
  end.

(** The documents of a collection that belong to a user. *)
Definition owned_by (uid : ObjectId) (coll : gmap ObjectId Expense) (d : ExpenseDoc) : Prop :=
  coll !! d.1 = Some d.2 ∧ userId d.2 = uid.

(** A stored expense that satisfies its schema, as every document
    written through [create] and [save] does. *)
Definition schema_ok (e : Expense) : Prop :=
  (0 ≤ amount e)%Qc
  ∧ category e ∈ categories
  ∧ Js.trim (description e) = description e ∧ description e ≠ ""
  ∧ paymentMethod e ∈ paymentMethods.

(** The engine treats a pattern without metacharacters as the text to
    look for, the case of the letters A to Z aside. *)
Definition literal_patterns_search `{Platform} : Prop :=
  ∀ p, literal p = true →
    ∃ m, regex_i p = Some m
         ∧ ∀ s, m s = Js.includes (Js.toLowerCase p) (Js.toLowerCase s).

(** The filters of GET /api/expenses as the interface describes them:
    text looked for in the description, a category, and inclusive
    bounds on the date and on the amount. *)
Record Criteria := mkCriteria {
  c_search : option string;
  c_category : option string;
  c_from : option Z;
  c_to : option Z;
  c_min : option Qc;
  c_max : option Qc;
}.

Definition satisfies (c : Criteria) (d : ExpenseDoc) : Prop :=
  (∀ s, c_search c = Some s →
        Js.includes (Js.toLowerCase s) (Js.toLowerCase (description d.2)) = true)
  ∧ (∀ x, c_category c = Some x → category d.2 = x)
  ∧ (∀ t, c_from c = Some t → t ≤ date d.2)
  ∧ (∀ t, c_to c = Some t → date d.2 ≤ t)
  ∧ (∀ a, c_min c = Some a → (a ≤ amount d.2)%Qc)
  ∧ (∀ a, c_max c = Some a → (amount d.2 ≤ a)%Qc).

(** The criteria a query string asks for. *)
Definition criteria `{Platform} (q : ListParams) : Criteria :=
  {| c_search := Js.supplied (q_search q);
     c_category := Js.supplied (q_category q);
     c_from := Js.supplied (q_startDate q) ≫= new_Date;
     c_to := Js.supplied (q_endDate q) ≫= new_Date;
     c_min := Js.supplied (q_minAmount q) ≫= parseFloat;
     c_max := Js.supplied (q_maxAmount q) ≫= parseFloat |}.

(** A query string whose search text has no metacharacter and whose
    bounds are dates and numbers. *)
Definition well_formed `{Platform} (q : ListParams) : Prop :=
  (∀ s, Js.supplied (q_search q) = Some s → literal s = true)
  ∧ (∀ s, Js.supplied (q_startDate q) = Some s → is_Some (new_Date s))
  ∧ (∀ s, Js.supplied (q_endDate q) = Some s → is_Some (new_Date s))
  ∧ (∀ s, Js.supplied (q_minAmount q) = Some s → is_Some (parseFloat s))
  ∧ (∀ s, Js.supplied (q_maxAmount q) = Some s → is_Some (parseFloat s)).

(** A collection all of whose documents satisfy the schema. *)
Definition store_ok (coll : gmap ObjectId Expense) : Prop :=
  ∀ id e, coll !! id = Some e → schema_ok e.

(** The body of a PUT that passes the chains of the route. *)
Definition passes_validation `{Platform} (r : IdRequest) : Prop :=
  match r with
  | PUT_id _ b => validate_update b = []
  | _ => True
  end.

Definition no_filters : ListParams := mkParams None None None None None None.

Definition with_userId (u : option ObjectId) (b : ExpenseBody) : ExpenseBody :=
  mkBody u (b_amount b) (b_category b) (b_description b) (b_date b) (b_paymentMethod b).

Definition with_category (c : option string) (b : ExpenseBody) : ExpenseBody :=
  mkBody (b_userId b) (b_amount b) c (b_description b) (b_date b) (b_paymentMethod b).

Definition with_paymentMethod (p : option string) (b : ExpenseBody) : ExpenseBody :=
  mkBody (b_userId b) (b_amount b) (b_category b) (b_description b) (b_date b) p.

Definition with_description (d : option string) (b : ExpenseBody) : ExpenseBody :=
  mkBody (b_userId b) (b_amount b) (b_category b) d (b_date b) (b_paymentMethod b).

Definition with_date (d : option string) (b : ExpenseBody) : ExpenseBody :=
  mkBody (b_userId b) (b_amount b) (b_category b) (b_description b) d (b_paymentMethod b).

(** Text of ASCII characters only.  On such text [Js.trim] is
    [String.prototype.trim] and the [trim()] sanitizer of the chains:
    the white space and line terminators of ECMAScript below U+0080 are
    the six characters of [Js.is_space]. *)
Definition ascii_text (s : string) : Prop :=
  Forall (λ c, (N_of_ascii c < 128)%N) (String.list_ascii_of_string s).

(** The stored emails are lower case, as the schema writes them. *)
Definition emails_lower `{Platform} (users : gmap ObjectId User) : Prop :=
  ∀ o u, users !! o = Some u → toLowerCase (email u) = email u.

(** The path segment does not name a stored expense. *)
Definition names_no_expense `{Platform} (param : string)
    (coll : gmap ObjectId Expense) : Prop :=
  ∀ id, castObjectId param = Some id → coll !! id = None.

(** A query string the server can answer: the search pattern compiles
    and every bound that is supplied parses. *)
Definition answerable `{Platform} (q : ListParams) : Prop :=
  (∀ p, Js.supplied (q_search q) = Some p → is_Some (regex_i p))
  ∧ (∀ s, Js.supplied (q_startDate q) = Some s → is_Some (new_Date s))
  ∧ (∀ s, Js.supplied (q_endDate q) = Some s → is_Some (new_Date s))
  ∧ (∀ s, Js.supplied (q_minAmount q) = Some s → is_Some (parseFloat s))
  ∧ (∀ s, Js.supplied (q_maxAmount q) = Some s → is_Some (parseFloat s)).

(** What a query string asks of a document: the compiled pattern
    matches the description, the category is the one named, and the
    date and the amount lie within the inclusive bounds. *)
Definition asked_for `{Platform} (q : ListParams) (d : ExpenseDoc) : Prop :=
  (∀ p m, Js.supplied (q_search q) = Some p → regex_i p = Some m →
          m (description d.2) = true)
  ∧ (∀ x, Js.supplied (q_category q) = Some x → category d.2 = x)
  ∧ (∀ s t, Js.supplied (q_startDate q) = Some s → new_Date s = Some t → t ≤ date d.2)
  ∧ (∀ s t, Js.supplied (q_endDate q) = Some s → new_Date s = Some t → date d.2 ≤ t)
  ∧ (∀ s a, Js.supplied (q_minAmount q) = Some s → parseFloat s = Some a →
            (a ≤ amount d.2)%Qc)
  ∧ (∀ s a, Js.supplied (q_maxAmount q) = Some s → parseFloat s = Some a →
            (amount d.2 ≤ a)%Qc).

(** ** Sample data *)

Module Sample.

Definition lunch : Expense :=
  mkExpense 1 (Qc_of_Z 50) "Food & Dining" "Lunch" (Calendar.utc 2024 5 20) "Cash".

Definition taxi : Expense :=
  mkExpense 2 (Qc_of_Z 30) "Transportation" "Taxi" (Calendar.utc 2024 6 1) "UPI".

Definition books : Expense :=
  mkExpense 1 (Qc_of_Z 20) "Education" "abc" (Calendar.utc 2024 4 2) "Cash".

(** Dated after the request time used below. *)
Definition flight : Expense :=
  mkExpense 1 (Qc_of_Z 400) "Travel" "Flight" (Calendar.utc 2025 1 10) "Credit Card".

Definition expenses : gmap ObjectId Expense :=
  <[7%N := lunch]> (<[8%N := taxi]> ∅).

Definition now : Z := Calendar.utc 2024 6 15.

(** A time zone one hour ahead of UTC, and two from April to
    September. *)
Definition summer_time (t : Z) (isUTC : bool) : Z :=
  let m := Calendar.MonthFromTime t in
  if ((3 <=? m) && (m <=? 8))%bool then 7200000 else 3600000.

Definition alice : User := mkUser "Alice" "alice@example.com" "$2a$10$hash" None None None.
Definition bob : User := mkUser "Bob" "bob@example.com" "$2a$10$other" (Some "hi") None None.

Definition users : gmap ObjectId User := <[1%N := alice]> (<[2%N := bob]> ∅).

(** A PUT body whose amount fails [isFloat({ min: 0 })]. *)
Definition negative_amount : ExpenseBody :=
  mkBody None (Some (Qc_of_Z (-5))) None None None None.

(** A body that carries another user's id, sent by user 1. *)
Definition forged_owner : ExpenseBody :=
  mkBody (Some 2%N) (Some (Qc_of_Z 50)) (Some "Food & Dining") (Some "  Lunch ")
         None (Some "Cash").

(** A profile update by Alice that asks for Bob's email and carries a
    name of blanks only. *)
Definition blank_name_taken_email : ProfileBody :=
  mkProfileBody (Some "  ") (Some "bob@example.com") None None None.

Definition taken_email : ProfileBody :=
  mkProfileBody None (Some "bob@example.com") None None None.

(** A profile update by Alice that asks for her own email in capitals. *)
Definition own_email_upper : ProfileBody :=
  mkProfileBody None (Some "ALICE@example.com") None None None.

Definition new_bio : ProfileBody :=
  mkProfileBody (Some " Alice A. ") None (Some "hello") None None.

(** [?search=.] *)
Definition search_dot : ListParams := mkParams (Some ".") None None None None None.

(** [?search=LUN&category=Food & Dining&startDate=2024-01-01&minAmount=10] *)
Definition search_lunch : ListParams :=
  mkParams (Some "LUN") (Some "Food & Dining") (Some "2024-01-01") None (Some "10") None.

(** A PUT body that carries the amount only. *)
Definition amount_only : ExpenseBody :=
  mkBody None (Some (Qc_of_Z 75)) None None None None.

(** A PUT body with amount 0 and the empty string in the other fields
    that the validation chains let through. *)
Definition zero_and_empty : ExpenseBody :=
  mkBody None (Some 0%Qc) (Some "") None None (Some "").

(** A complete POST body. *)
Definition dinner : ExpenseBody :=
  mkBody None (Some (Qc_of_Z 80)) (Some "Food & Dining") (Some " Dinner ") None (Some "UPI").

(** A POST body whose description is blanks and a tab. *)
Definition blank_description : ExpenseBody :=
  mkBody None (Some (Qc_of_Z 80)) (Some "Food & Dining")
         (Some (String " " (String (ascii_of_nat 9) " "))) None (Some "UPI").

(** A POST body whose category is not one of the schema's. *)
Definition odd_category : ExpenseBody :=
  mkBody None (Some (Qc_of_Z 80)) (Some "Groceries") (Some "Milk") None (Some "UPI").

(** A PUT body with a new amount and an empty description. *)
Definition empty_description : ExpenseBody :=
  mkBody None (Some (Qc_of_Z 75)) None (Some "") None None.

(** A PUT body with a new amount and an empty date. *)
Definition empty_date : ExpenseBody :=
  mkBody None (Some (Qc_of_Z 75)) None None (Some "") None.

(** The path segments for the ids 7 and 9, and one that is no id. *)
Definition path_7 : string := "000000000000000000000007".
Definition path_9 : string := "000000000000000000000009".
Definition path_abc : string := "abc".

(** A PUT body that changes every field. *)
Definition full_update : ExpenseBody :=
  mkBody None (Some (Qc_of_Z 12)) (Some "Travel") (Some " Bus ") (Some "2024-06-02")
         (Some "Debit Card").

End Sample.

(** ** The client: Expenses page and Dashboard

    The pages keep the list that GET /api/expenses answered with in
    their state.  An entry is the JSON object of a document; its [date]
    member is read back with [new Date(exp.date)], which is the time
    value here.  The [Platform] of this part is the browser's. *)

(** The [filters] state of the Expenses page; [""] is a filter not set. *)
Record Filters := mkFilters {
  fl_search : string;
  fl_category : string;
  fl_startDate : string;
  fl_endDate : string;
}.

Section Client.
Context `{Platform}.

(** [new Date(exp.date) >= new Date(s)]; a comparison with
    [Invalid Date] is false. *)
Definition on_or_after (s : string) (exp : ExpenseDoc) : bool :=
  match new_Date s with
  | Some t => bool_decide (t ≤ date exp.2)
  | None => false
  end.

(** [new Date(exp.date) <= new Date(s)]. *)
Definition on_or_before (s : string) (exp : ExpenseDoc) : bool :=
  match new_Date s with
  | Some t => bool_decide (date exp.2 ≤ t)
  | None => false
  end.

(** [applyFilters] of the Expenses page: the value it passes to
    [setFilteredExpenses]. *)
Definition applyFilters (filters : Filters) (expenses : list ExpenseDoc) : list ExpenseDoc :=
  let filtered := expenses in
  let filtered :=
    if Js.truthy (fl_search filters)
    then filter (λ exp, Js.includes (toLowerCase (fl_search filters))
                          (toLowerCase (description exp.2))) filtered
    else filtered in
  let filtered :=
    if Js.truthy (fl_category filters)
    then filter (λ exp, String.eqb (category exp.2) (fl_category filters)) filtered
    else filtered in
  let filtered :=
    if Js.truthy (fl_startDate filters)
    then filter (λ exp, on_or_after (fl_startDate filters) exp) filtered
    else filtered in
  let filtered :=
    if Js.truthy (fl_endDate filters)
    then filter (λ exp, on_or_before (fl_endDate filters) exp) filtered
    else filtered in
  filtered.

End Client.

(** [handleAddExpense]: [setExpenses([data, ...expenses])]. *)
Definition added (data : ExpenseDoc) (expenses : list ExpenseDoc) : list ExpenseDoc :=
  data :: expenses.

(** [handleEditExpense]:
    [expenses.map((exp) => (exp._id === data._id ? data : exp))]. *)
Definition edited (data : ExpenseDoc) (expenses : list ExpenseDoc) : list ExpenseDoc :=
  (λ exp : ExpenseDoc, if decide (exp.1 = data.1) then data else exp) <$> expenses.

(** [handleDeleteExpense]: [expenses.filter((exp) => exp._id !== id)]. *)
Definition removed (id : ObjectId) (expenses : list ExpenseDoc) : list ExpenseDoc :=
  filter (λ exp : ExpenseDoc, exp.1 ≠ id) expenses.

(** The Dashboard: [expensesRes.data.slice(0, 5)]. *)
Definition recentExpenses (data : list ExpenseDoc) : list ExpenseDoc :=
  take 5 data.

(** ** Further notions *)

(** The sum of the [count] members of groups. *)
Definition groups_count {K} (gs : list (Group K)) : nat :=
  foldr (λ g acc, g_count g + acc)%nat 0%nat gs.

(** Whether an entry passes every filter of the page that is set. *)
Definition kept `{Platform} (f : Filters) (exp : ExpenseDoc) : bool :=
  (negb (Js.truthy (fl_endDate f)) || on_or_before (fl_endDate f) exp)
  && ((negb (Js.truthy (fl_startDate f)) || on_or_after (fl_startDate f) exp)
      && ((negb (Js.truthy (fl_category f)) || String.eqb (category exp.2) (fl_category f))
          && (negb (Js.truthy (fl_search f))
              || Js.includes (toLowerCase (fl_search f))
                   (toLowerCase (description exp.2))))).

(** The list a page holds shows the requester's stored expenses, each
    once. *)
Definition mirrors (uid : ObjectId) (coll : gmap ObjectId Expense)
    (expenses : list ExpenseDoc) : Prop :=
  NoDup expenses.*1 ∧ ∀ d, d ∈ expenses ↔ owned_by uid coll d.

(** The document a POST answered 201 stores for a body. *)
Definition created `{Platform} (uid : ObjectId) (now : Z) (b : ExpenseBody)
    (a : Qc) (c d p : string) (t : Z) : Prop :=
  b_amount b = Some a ∧ b_category b = Some c ∧ b_description b = Some d
  ∧ b_paymentMethod b = Some p
  ∧ match Js.supplied (b_date b) with
    | Some s => castDate s = Some t
    | None => t = now
    end.

(** The sample collection with a third expense. *)
Definition three_expenses : gmap ObjectId Expense := <[9%N := Sample.books]> Sample.expenses.

(** The list the page of user 1 holds for [Sample.expenses]. *)
Definition page_of_user_1 : list ExpenseDoc := [(7%N, Sample.lunch)].

(** * Properties *)

(** Noon UTC on 2024-06-15 is 14:00 in the zone of [Sample.summer_time];
    [setMonth(getMonth() - 6)] moves it to 14:00 on 2023-12-15 there,
    which is 13:00 UTC. *)
Example calendar_check_summer_time :
  Calendar.setMonth Sample.summer_time (Calendar.utc 2024 6 15 + 12 * 3600000)
    (Calendar.getMonth Sample.summer_time (Calendar.utc 2024 6 15 + 12 * 3600000) - 6)
  = Calendar.utc 2023 12 15 + 13 * 3600000.
Proof. by vm_compute. Qed.

Example calendar_check :
  Calendar.civil_from_days (Calendar.days_from_civil 2024 2 29) = (2024, 2, 29)
  ∧ Calendar.agg_year (Calendar.utc 2024 6 15) = 2024
  ∧ Calendar.agg_month (Calendar.utc 2024 6 15) = 6
  ∧ Calendar.utc 1970 1 1 = 0
  ∧ Calendar.utc 2024 6 15 = 1718409600000
  ∧ Calendar.setMonth (λ _ _, 0) (Calendar.utc 2024 6 15) (Calendar.getMonth (λ _ _, 0) (Calendar.utc 2024 6 15) - 6)
    = Calendar.utc 2023 12 15
  ∧ Calendar.setMonth (λ _ _, 0) (Calendar.utc 2024 8 31) (Calendar.getMonth (λ _ _, 0) (Calendar.utc 2024 8 31) - 6)
    = Calendar.utc 2024 3 2
  ∧ Calendar.setMonth (λ _ _, 0) (Calendar.utc 2024 2 15) (Calendar.getMonth (λ _ _, 0) (Calendar.utc 2024 2 15) - 6)
    = Calendar.utc 2023 8 15
  ∧ Calendar.civil_from_days (-1) = (1969, 12, 31)
  ∧ Calendar.civil_from_days 11016 = (2000, 2, 29)
  ∧ Calendar.civil_from_days (Calendar.days_from_civil 1900 3 1 - 1) = (1900, 2, 28)
  ∧ Calendar.setMonth (λ _ _, 19800000) (Calendar.utc 2024 6 15) 11 = Calendar.utc 2024 12 15.
Proof. vm_compute. repeat split. Qed.

Ltac unfold_result :=
  unfold catching, mbind, result_bind, mret, result_ret, require, check in *.

(** ** Validation chains *)

Lemma rule_nil ok msg : rule ok msg = [] ↔ ok = true.
Proof. destruct ok; simpl; split; congruence. Qed.

Section Chains.
Context `{Platform}.

Lemma update_rejected uid now id b coll :
  validate_update b ≠ [] →
  update_expense uid now id b coll = (validation_failed (validate_update b), coll).
Proof. unfold update_expense. by destruct (validate_update b). Qed.

Lemma update_accepted uid now id b coll :
  validate_update b = [] →
  update_expense uid now id b coll =
    catching coll (
      match findById id coll with
      | None => Ok (message 404 "Expense not found", coll)
      | Some expense =>
          if decide (userId expense ≠ uid)
          then Ok (message 401 "Not authorized", coll)
          else
            '(updatedExpense, coll') ← save now id (assign expense (sanitize b)) coll;
            Ok (mkResponse 200 (expense_json updatedExpense), coll')
      end).
Proof. unfold update_expense. by intros ->. Qed.

Lemma validate_update_dec b : {validate_update b = [] } + {validate_update b ≠ [] }.
Proof. destruct (validate_update b); [by left | by right]. Qed.

Lemma validation_failed_status msgs : status (validation_failed msgs) = 400.
Proof. done. Qed.

End Chains.

(** ** Routes that take an id *)

Section ById.
Context `{Platform}.

(** C1 (as amended).  When the expense under [:id] exists and belongs
    to somebody else, GET, PUT and DELETE leave the collection as it
    was; the answer is 401 "Not authorized", except that a PUT whose
    body fails the validation chains is answered 400 before the
    expense is looked up. *)
Theorem foreign_expense_untouched (r : IdRequest) (uid id : ObjectId)
    (coll : gmap ObjectId Expense) (e : Expense) :
  coll !! id = Some e →
  userId e ≠ uid →
  (by_id r uid id coll).2 = coll
  ∧ (passes_validation r → (by_id r uid id coll).1 = message 401 "Not authorized")
  ∧ (¬ passes_validation r → status (by_id r uid id coll).1 = 400).
Proof.
  intros Hid Hne. destruct r as [|now b|]; simpl.
  - unfold get_expense, findById. rewrite Hid. rewrite decide_True by done.
    simpl. split_and!; [done|done|by intros Hn; destruct Hn].
  - destruct (validate_update_dec b) as [Hv|Hv].
    + rewrite update_accepted by done. unfold findById. rewrite Hid.
      rewrite decide_True by done. simpl. split_and!; [done|done|by intros Hn; destruct Hn].
    + rewrite update_rejected by done. simpl. split_and!; done.
  - unfold delete_expense, findById. rewrite Hid. rewrite decide_True by done.
    simpl. split_and!; [done|done|by intros Hn; destruct Hn].
Qed.

Lemma at_path_cast (r : IdRequest) (uid : ObjectId) (param : string) (id : ObjectId)
    (coll : gmap ObjectId Expense) :
  castObjectId param = Some id → at_path r uid param coll = by_id r uid id coll.
Proof.
  intros Hc. destruct r as [|now b|]; simpl.
  - unfold get_expense_at, get_expense, findById_param. rewrite Hc. simpl.
    by destruct (findById id coll).
  - unfold update_expense_at, update_expense, findById_param. rewrite Hc. simpl.
    destruct (validate_update b); [|done]. by destruct (findById id coll).
  - unfold delete_expense_at, delete_expense, findById_param. rewrite Hc. simpl.
    by destruct (findById id coll).
Qed.

Lemma at_path_no_cast (r : IdRequest) (uid : ObjectId) (param : string)
    (coll : gmap ObjectId Expense) :
  castObjectId param = None →
  (at_path r uid param coll).2 = coll
  ∧ (passes_validation r → (at_path r uid param coll).1 = server_error)
  ∧ (¬ passes_validation r → status (at_path r uid param coll).1 = 400).
Proof.
  intros Hc. destruct r as [|now b|]; simpl.
  - unfold get_expense_at, findById_param. rewrite Hc. simpl.
    split_and!; [done|done|by intros Hn; destruct Hn].
  - unfold update_expense_at, findById_param. rewrite Hc.
    destruct (validate_update b) eqn:Hv; simpl.
    + split_and!; [done|done|by intros Hn; destruct Hn].
    + split_and!; done.
  - unfold delete_expense_at, findById_param. rewrite Hc. simpl.
    split_and!; [done|done|by intros Hn; destruct Hn].
Qed.

Lemma missing_id_404 (r : IdRequest) (uid id : ObjectId) (coll : gmap ObjectId Expense) :
  coll !! id = None →
  (by_id r uid id coll).2 = coll
  ∧ (passes_validation r → (by_id r uid id coll).1 = message 404 "Expense not found")
  ∧ (¬ passes_validation r → status (by_id r uid id coll).1 = 400).
Proof.
  intros Hid. destruct r as [|now b|]; simpl.
  - unfold get_expense, findById. rewrite Hid. simpl.
    split_and!; [done|done|by intros Hn; destruct Hn].
  - destruct (validate_update_dec b) as [Hv|Hv].
    + rewrite update_accepted by done. unfold findById. rewrite Hid. simpl.
      split_and!; [done|done|by intros Hn; destruct Hn].
    + rewrite update_rejected by done. simpl. split_and!; done.
  - unfold delete_expense, findById. rewrite Hid. simpl.
    split_and!; [done|done|by intros Hn; destruct Hn].
Qed.

(** C7 (as amended).  The [:id] of the path is the string [param].
    When it names no stored expense, GET, PUT and DELETE leave the
    collection as it was; a PUT whose body fails the validation chains
    is answered 400; otherwise the answer is 404 "Expense not found"
    when [param] is an ObjectId, and 500 "Server error" when it is not
    one and [findById] throws.  A DELETE of an expense the requester
    owns removes that record, and only that one, and answers
    "Expense removed". *)
Theorem missing_expense_and_delete (r : IdRequest) (uid : ObjectId) (param : string)
    (coll : gmap ObjectId Expense) :
  (names_no_expense param coll →
     (at_path r uid param coll).2 = coll
     ∧ (passes_validation r → is_Some (castObjectId param) →
        (at_path r uid param coll).1 = message 404 "Expense not found")
     ∧ (passes_validation r → castObjectId param = None →
        (at_path r uid param coll).1 = message 500 "Server error")
     ∧ (¬ passes_validation r → status (at_path r uid param coll).1 = 400))
  ∧ (∀ id e, castObjectId param = Some id → coll !! id = Some e → userId e = uid →
       ∃ coll', at_path DELETE_id uid param coll = (message 200 "Expense removed", coll')
                ∧ coll' !! id = None
                ∧ ∀ j, j ≠ id → coll' !! j = coll !! j).
Proof.
  split.
  - intros Hno. destruct (castObjectId param) as [id|] eqn:Hc.
    + rewrite (at_path_cast r uid param id coll Hc).
      destruct (missing_id_404 r uid id coll (Hno id Hc)) as (Hsame & H404 & H400).
      split_and!; [done|by intros Hv _; apply H404|done|done].
    + destruct (at_path_no_cast r uid param coll Hc) as (Hsame & H500 & H400).
      split_and!; [done|by intros _ [? ?]|by intros Hv _; apply H500|done].
  - intros id e Hc Hid Hu. exists (delete id coll).
    rewrite (at_path_cast DELETE_id uid param id coll Hc). simpl.
    unfold delete_expense, findById, deleteOne. rewrite Hid.
    rewrite decide_False by (intros ?; done). simpl.
    split_and!; [done|apply lookup_delete_eq|].
    intros j Hj. by apply lookup_delete_ne.
Qed.

End ById.

(** C1 as stated fails: a PUT on another user's expense is answered 400,
    not 401, when its body fails validation.  Here user 1 sends a
    negative amount for the taxi ride of user 2. *)
Lemma foreign_put_invalid_body_400 :
  Sample.expenses !! 8%N = Some Sample.taxi
  ∧ userId Sample.taxi ≠ 1%N
  ∧ status (@by_id Ref.platform (PUT_id Sample.now Sample.negative_amount) 1 8 Sample.expenses).1 = 400
  ∧ status (@by_id Ref.platform (PUT_id Sample.now Sample.negative_amount) 1 8 Sample.expenses).1 ≠ 401.
Proof. split_and!; [done|done|by vm_compute|by vm_compute]. Qed.

Lemma foreign_expense_untouched_witness :
  Sample.expenses !! 8%N = Some Sample.taxi
  ∧ userId Sample.taxi ≠ 1%N
  ∧ @passes_validation Ref.platform (PUT_id Sample.now Sample.amount_only)
  ∧ (@by_id Ref.platform (PUT_id Sample.now Sample.amount_only) 1 8 Sample.expenses).2
    = Sample.expenses
  ∧ (@by_id Ref.platform (PUT_id Sample.now Sample.amount_only) 1 8 Sample.expenses).1
    = message 401 "Not authorized".
Proof.
  assert (Sample.expenses !! 8%N = Some Sample.taxi) as Hid by reflexivity.
  assert (userId Sample.taxi ≠ 1%N) as Hne by (by vm_compute).
  assert (@passes_validation Ref.platform (PUT_id Sample.now Sample.amount_only)) as Hv
    by (by vm_compute).
  destruct (@foreign_expense_untouched Ref.platform (PUT_id Sample.now Sample.amount_only)
              1 8 Sample.expenses Sample.taxi Hid Hne) as (Hsame & H401 & _).
  split_and!; [exact Hid | exact Hne | exact Hv | exact Hsame | exact (H401 Hv)].
Defined.

(** C7 as stated fails twice over.  No expense is stored under id 9,
    and a PUT to it whose body fails validation is answered 400; the
    segment "abc" is no ObjectId, so no expense has it as id, and a
    GET of it is answered 500.  Neither answer is 404. *)
Lemma absent_id_not_always_404 :
  @names_no_expense Ref.platform Sample.path_9 Sample.expenses
  ∧ (@at_path Ref.platform (PUT_id Sample.now Sample.negative_amount) 1 Sample.path_9
       Sample.expenses).1
    = validation_failed ["Amount must be a positive number"]
  ∧ @names_no_expense Ref.platform Sample.path_abc Sample.expenses
  ∧ (@at_path Ref.platform GET_id 1 Sample.path_abc Sample.expenses).1
    = message 500 "Server error".
Proof.
  split_and!.
  - intros id Hc. vm_compute in Hc. by injection Hc as <-.
  - by vm_compute.
  - intros id Hc. vm_compute in Hc. discriminate.
  - by vm_compute.
Qed.

Lemma missing_expense_and_delete_witness :
  @names_no_expense Ref.platform Sample.path_9 Sample.expenses
  ∧ (@at_path Ref.platform GET_id 1 Sample.path_9 Sample.expenses).2 = Sample.expenses
  ∧ (@at_path Ref.platform GET_id 1 Sample.path_9 Sample.expenses).1
    = message 404 "Expense not found"
  ∧ @names_no_expense Ref.platform Sample.path_abc Sample.expenses
  ∧ (@at_path Ref.platform DELETE_id 1 Sample.path_abc Sample.expenses).2 = Sample.expenses
  ∧ (@at_path Ref.platform DELETE_id 1 Sample.path_abc Sample.expenses).1
    = message 500 "Server error"
  ∧ @castObjectId Ref.platform Sample.path_7 = Some 7%N
  ∧ Sample.expenses !! 7%N = Some Sample.lunch
  ∧ userId Sample.lunch = 1%N
  ∧ ∃ coll', @at_path Ref.platform DELETE_id 1 Sample.path_7 Sample.expenses
               = (message 200 "Expense removed", coll')
             ∧ coll' !! 7%N = None
             ∧ ∀ j, j ≠ 7%N → coll' !! j = Sample.expenses !! j.
Proof.
  assert (@names_no_expense Ref.platform Sample.path_9 Sample.expenses) as Hno9.
  { intros id Hc. vm_compute in Hc. by injection Hc as <-. }
  assert (@names_no_expense Ref.platform Sample.path_abc Sample.expenses) as Hnoabc.
  { intros id Hc. vm_compute in Hc. discriminate. }
  assert (@castObjectId Ref.platform Sample.path_9 = Some 9%N) as Hc9 by (by vm_compute).
  assert (@castObjectId Ref.platform Sample.path_abc = None) as Hcabc by (by vm_compute).
  assert (@castObjectId Ref.platform Sample.path_7 = Some 7%N) as Hc7 by (by vm_compute).
  assert (Sample.expenses !! 7%N = Some Sample.lunch) as Hid by reflexivity.
  assert (userId Sample.lunch = 1%N) as Hu by reflexivity.
  destruct (@missing_expense_and_delete Ref.platform GET_id 1 Sample.path_9 Sample.expenses)
    as [Hmiss _].
  destruct (Hmiss Hno9) as (Hsame & H404 & _ & _).
  destruct (@missing_expense_and_delete Ref.platform DELETE_id 1 Sample.path_abc
              Sample.expenses) as [Hbad _].
  destruct (Hbad Hnoabc) as (Hsame' & _ & H500 & _).
  destruct (@missing_expense_and_delete Ref.platform GET_id 1 Sample.path_7 Sample.expenses)
    as [_ Hdel].
  split_and!;
    [exact Hno9 | exact Hsame | exact (H404 I (ex_intro _ _ Hc9)) | exact Hnoabc
    | exact Hsame' | exact (H500 I Hcabc) | exact Hc7 | exact Hid | exact Hu
    | exact (Hdel 7%N Sample.lunch Hc7 Hid Hu)].
Defined.

(** ** The schema *)

Lemma trim_start_idem s : Js.trim_start (Js.trim_start s) = Js.trim_start s.
Proof.
  induction s as [|c s IH]; [done|]. simpl.
  destruct (Js.is_space c) eqn:Hc; [done|]. simpl. by rewrite Hc.
Qed.

Lemma trim_end_idem s : Js.trim_end (Js.trim_end s) = Js.trim_end s.
Proof.
  induction s as [|c s IH]; [done|]. simpl.
  destruct (Js.is_space c && String.eqb (Js.trim_end s) "")%bool eqn:Hc; [done|].
  simpl. by rewrite IH, Hc.
Qed.

Lemma trim_start_trim_end s :
  Js.trim_start s = s → Js.trim_start (Js.trim_end s) = Js.trim_end s.
Proof.
  destruct s as [|c s]; [done|]. simpl.
  destruct (Js.is_space c) eqn:Hc.
  - intros Hs. exfalso.
    assert (∀ t, String.length (Js.trim_start t) ≤ String.length t)%nat as Hlen.
    { induction t as [|a t IHt]; simpl; [lia|]. destruct (Js.is_space a); simpl; lia. }
    specialize (Hlen s). rewrite Hs in Hlen. simpl in Hlen. lia.
  - intros _. simpl. by rewrite Hc.
Qed.

Lemma trim_idem s : Js.trim (Js.trim s) = Js.trim s.
Proof.
  unfold Js.trim.
  rewrite (trim_start_trim_end (Js.trim_start s)) by apply trim_start_idem.
  apply trim_end_idem.
Qed.

Lemma truthy_ne s : Js.truthy s = true ↔ s ≠ "".
Proof.
  unfold Js.truthy. destruct (String.eqb_spec s ""); simpl; split; congruence.
Qed.

Lemma enum_elem allowed s : enum allowed s = true ↔ s ∈ allowed.
Proof. unfold enum. apply bool_decide_eq_true. Qed.

Section Schema.
Context `{Platform}.

(** What a document that passed [expenseSchema] is made of. *)
Lemma expenseSchema_inv now a e :
  expenseSchema now a = Ok e →
  a_userId a = Some (userId e)
  ∧ a_amount a = Some (amount e)
  ∧ a_category a = Some (category e)
  ∧ (∃ d, a_description a = Some d ∧ description e = Js.trim d)
  ∧ match a_date a with
    | Some v => cast_date_arg v = Ok (date e)
    | None => date e = now
    end
  ∧ a_paymentMethod a = Some (paymentMethod e)
  ∧ schema_ok e.
Proof.
  unfold expenseSchema. unfold_result.
  destruct (a_userId a) as [u|]; [|done].
  destruct (a_amount a) as [x|]; [|done].
  destruct (bool_decide (0 ≤ x)%Qc) eqn:Hx; [|done].
  destruct (a_category a) as [c|]; [|done].
  destruct (enum categories c) eqn:Hc; [|done].
  destruct (a_description a) as [d|]; [|done].
  destruct (Js.truthy (Js.trim d)) eqn:Hd; [|done].
  destruct (a_date a) as [v|].
  - destruct (cast_date_arg v) as [t|] eqn:Hv; [|done].
    destruct (a_paymentMethod a) as [p|]; [|done].
    destruct (enum paymentMethods p) eqn:Hp; [|done].
    intros [= <-]. simpl. split_and!; try done; [by exists d|].
    unfold schema_ok. simpl. split_and!.
    + by apply bool_decide_eq_true in Hx.
    + by apply enum_elem.
    + apply trim_idem.
    + by apply truthy_ne.
    + by apply enum_elem.
  - destruct (a_paymentMethod a) as [p|]; [|done].
    destruct (enum paymentMethods p) eqn:Hp; [|done].
    intros [= <-]. simpl. split_and!; try done; [by exists d|].
    unfold schema_ok. simpl. split_and!.
    + by apply bool_decide_eq_true in Hx.
    + by apply enum_elem.
    + apply trim_idem.
    + by apply truthy_ne.
    + by apply enum_elem.
Qed.

Lemma create_inv now newId a coll doc coll' :
  create now newId a coll = Ok (doc, coll') →
  ∃ e, expenseSchema now a = Ok e ∧ coll !! newId = None
       ∧ doc = (newId, e) ∧ coll' = <[newId := e]> coll.
Proof.
  unfold create. unfold_result.
  destruct (expenseSchema now a) as [e|]; [|done].
  destruct (coll !! newId) eqn:Hn; [done|].
  intros [= <- <-]. by exists e.
Qed.

Lemma save_inv now id a coll doc coll' :
  save now id a coll = Ok (doc, coll') →
  ∃ e, expenseSchema now a = Ok e ∧ doc = (id, e) ∧ coll' = <[id := e]> coll.
Proof.
  unfold save. unfold_result.
  destruct (expenseSchema now a) as [e|]; [|done].
  intros [= <- <-]. by exists e.
Qed.

End Schema.

(** ** POST /api/expenses *)

Section Create.
Context `{Platform}.

(** C2.  A POST that is answered 201 has stored, under the fresh id,
    and returned an expense whose [userId] is the caller's id; any
    other answer leaves the collection as it was; and a [userId]
    member of the body changes nothing of this. *)
Theorem created_expense_belongs_to_caller (uid : ObjectId) (now : Z) (newId : ObjectId)
    (b : ExpenseBody) (coll : gmap ObjectId Expense)
    (resp : Response) (coll' : gmap ObjectId Expense) :
  create_expense uid now newId b coll = (resp, coll') →
  (status resp = 201 →
     ∃ e, userId e = uid
          ∧ resp = mkResponse 201 (expense_json (newId, e))
          ∧ json_get "userId" (body resp) = Some (JId uid)
          ∧ coll !! newId = None
          ∧ coll' = <[newId := e]> coll)
  ∧ (status resp ≠ 201 → coll' = coll)
  ∧ (∀ u, create_expense uid now newId (with_userId u b) coll = (resp, coll')).
Proof.
  intros Hrun. split_and!.
  - revert Hrun. unfold create_expense.
    destruct (validate_create b); [|by intros [= <- <-]].
    match goal with |- context [create ?n ?i ?a ?c] =>
      destruct (create n i a c) as [[doc coll'']|] eqn:Hc end;
      simpl; [|by intros [= <- <-]].
    intros [= <- <-] _.
    apply create_inv in Hc as (e & He & Hfree & -> & ->).
    apply expenseSchema_inv in He as (Hu & _). simpl in Hu.
    injection Hu as ->. exists e. by split_and!.
  - revert Hrun. unfold create_expense.
    destruct (validate_create b); [|by intros [= <- <-]].
    match goal with |- context [create ?n ?i ?a ?c] =>
      destruct (create n i a c) as [[doc coll'']|] eqn:Hc end;
      simpl; [|by intros [= <- <-]].
    by intros [= <- <-].
  - intros u. by rewrite <-Hrun.
Qed.

End Create.

Lemma created_expense_belongs_to_caller_witness :
  ∃ e, @create_expense Ref.platform 1 Sample.now 9 Sample.forged_owner Sample.expenses
         = (mkResponse 201 (expense_json (9%N, e)), <[9%N := e]> Sample.expenses)
       ∧ userId e = 1%N.
Proof.
  destruct (@create_expense Ref.platform 1 Sample.now 9 Sample.forged_owner Sample.expenses)
    as [resp coll'] eqn:Hrun.
  destruct (@created_expense_belongs_to_caller Ref.platform 1 Sample.now 9 Sample.forged_owner
              Sample.expenses resp coll' Hrun) as (H201 & _ & _).
  assert (status resp = 201) as Hs.
  { apply (f_equal (λ x, status x.1)) in Hrun. simpl in Hrun. rewrite <-Hrun.
    by vm_compute. }
  destruct (H201 Hs) as (e & Hu & -> & _ & _ & ->).
  by exists e.
Defined.

(** ** PUT /api/expenses/:id *)

Section Update.
Context `{Platform}.

(** A 200 answer comes from a successful [save] of the document with
    the assignments applied. *)
Lemma update_200 uid now id b coll resp coll' :
  update_expense uid now id b coll = (resp, coll') →
  status resp = 200 →
  ∃ e e', coll !! id = Some e ∧ userId e = uid ∧ validate_update b = []
          ∧ expenseSchema now (assign e (sanitize b)) = Ok e'
          ∧ resp = mkResponse 200 (expense_json (id, e'))
          ∧ coll' = <[id := e']> coll.
Proof.
  destruct (validate_update_dec b) as [Hv|Hv].
  - rewrite update_accepted by done. unfold findById.
    destruct (coll !! id) as [e|] eqn:Hid; simpl; [|by intros [= <- <-]].
    destruct (decide (userId e ≠ uid)) as [Hne|Hu]; simpl; [by intros [= <- <-]|].
    destruct (save now id (assign e (sanitize b)) coll) as [[doc coll'']|] eqn:Hs;
      simpl; [|by intros [= <- <-]].
    intros [= <- <-] _.
    apply save_inv in Hs as (e' & He' & -> & ->).
    exists e, e'. split_and!; try done. by apply dec_stable.
  - rewrite update_rejected by done. by intros [= <- <-].
Qed.

(** Every other answer leaves the collection as it was. *)
Lemma update_not_200 uid now id b coll resp coll' :
  update_expense uid now id b coll = (resp, coll') →
  status resp ≠ 200 →
  coll' = coll.
Proof.
  destruct (validate_update_dec b) as [Hv|Hv].
  - rewrite update_accepted by done. unfold findById.
    destruct (coll !! id) as [e|] eqn:Hid; simpl; [|by intros [= <- <-]].
    destruct (decide (userId e ≠ uid)) as [Hne|Hu]; simpl; [by intros [= <- <-]|].
    destruct (save now id (assign e (sanitize b)) coll) as [[doc coll'']|] eqn:Hs;
      simpl; [|by intros [= <- <-]].
    by intros [= <- <-].
  - rewrite update_rejected by done. by intros [= <- <-].
Qed.

(** What [save] stores after the assignments of the handler. *)
Lemma assign_saved now e b e' :
  expenseSchema now (assign e b) = Ok e' →
  userId e' = userId e
  ∧ amount e' = Js.defined_or (b_amount b) (amount e)
  ∧ category e' = Js.or_else (b_category b) (category e)
  ∧ description e' = Js.trim (Js.or_else (b_description b) (description e))
  ∧ cast_date_arg (match Js.supplied (b_date b) with
                   | Some s => DateOfString s
                   | None => DateOfTime (date e)
                   end) = Ok (date e')
  ∧ paymentMethod e' = Js.or_else (b_paymentMethod b) (paymentMethod e).
Proof.
  intros (Hu & Ha & Hc & (d & Hd & Hd') & Ht & Hp & _)%expenseSchema_inv.
  simpl in *. simplify_eq. by rewrite Hd'.
Qed.

(** C3.  A PUT answered 200 on an expense the requester owns stores a
    document in which every field the body leaves out has exactly the
    value it had, and changes no other record.  The collection is one
    whose documents satisfy the schema, as every document written by
    the handlers does. *)
Theorem update_keeps_omitted_fields (uid : ObjectId) (now : Z) (id : ObjectId)
    (b : ExpenseBody) (coll : gmap ObjectId Expense) (e : Expense)
    (resp : Response) (coll' : gmap ObjectId Expense) :
  store_ok coll →
  coll !! id = Some e →
  userId e = uid →
  update_expense uid now id b coll = (resp, coll') →
  status resp = 200 →
  ∃ e', coll' = <[id := e']> coll
        ∧ body resp = expense_json (id, e')
        ∧ userId e' = userId e
        ∧ (b_amount b = None → amount e' = amount e)
        ∧ (b_category b = None → category e' = category e)
        ∧ (b_description b = None → description e' = description e)
        ∧ (b_date b = None → date e' = date e)
        ∧ (b_paymentMethod b = None → paymentMethod e' = paymentMethod e).
Proof.
  intros Hok Hid Hu Hrun H200.
  destruct (Hok id e Hid) as (_ & _ & Htrim & _).
  destruct (update_200 _ _ _ _ _ _ _ Hrun H200)
    as (e0 & e' & Hid0 & _ & _ & He' & -> & ->).
  rewrite Hid in Hid0. injection Hid0 as <-.
  apply assign_saved in He' as (Hu' & Ha & Hc & Hd & Ht & Hp). simpl in *.
  exists e'. split_and!; try done.
  - intros Hb. by rewrite Ha, Hb.
  - intros Hb. by rewrite Hc, Hb.
  - intros Hb. by rewrite Hd, Hb.
  - intros Hb. rewrite Hb in Ht. simpl in Ht. by injection Ht.
  - intros Hb. by rewrite Hp, Hb.
Qed.

End Update.

Lemma sample_store_ok : store_ok Sample.expenses.
Proof.
  intros id e. unfold Sample.expenses.
  rewrite lookup_insert. case_decide.
  { intros [= <-]. unfold schema_ok. simpl.
    split_and!; [by apply (bool_decide_unpack _) | by apply (bool_decide_unpack _)
                | done | done | by apply (bool_decide_unpack _)]. }
  rewrite lookup_insert. case_decide.
  { intros [= <-]. unfold schema_ok. simpl.
    split_and!; [by apply (bool_decide_unpack _) | by apply (bool_decide_unpack _)
                | done | done | by apply (bool_decide_unpack _)]. }
  by rewrite lookup_empty.
Defined.

Lemma update_keeps_omitted_fields_witness :
  store_ok Sample.expenses
  ∧ Sample.expenses !! 7%N = Some Sample.lunch
  ∧ ∃ e', (@update_expense Ref.platform 1 Sample.now 7 Sample.amount_only Sample.expenses).2
            = <[7%N := e']> Sample.expenses
          ∧ userId e' = 1%N
          ∧ category e' = "Food & Dining"
          ∧ description e' = "Lunch"
          ∧ date e' = Calendar.utc 2024 5 20
          ∧ paymentMethod e' = "Cash".
Proof.
  assert (Sample.expenses !! 7%N = Some Sample.lunch) as Hid by reflexivity.
  split; [exact sample_store_ok|]. split; [exact Hid|].
  destruct (@update_expense Ref.platform 1 Sample.now 7 Sample.amount_only Sample.expenses)
    as [resp coll'] eqn:Hrun.
  assert (status resp = 200) as Hs.
  { apply (f_equal (λ x, status x.1)) in Hrun. simpl in Hrun. rewrite <-Hrun.
    by vm_compute. }
  destruct (@update_keeps_omitted_fields Ref.platform 1 Sample.now 7 Sample.amount_only
              Sample.expenses Sample.lunch resp coll' sample_store_ok Hid eq_refl Hrun Hs)
    as (e' & -> & _ & Hu & _ & Hc & Hd & Ht & Hp).
  exists e'. simpl.
  split_and!; [done | by rewrite Hu | by rewrite Hc | by rewrite Hd | by rewrite Ht
              | by rewrite Hp].
Defined.

Section UpdateFalsy.
Context `{Platform}.

Lemma update_ignores_empty_category uid now id b coll :
  b_category b = Some "" →
  update_expense uid now id (with_category None b) coll = update_expense uid now id b coll.
Proof.
  intros Hb. unfold update_expense.
  change (validate_update (with_category None b)) with (validate_update b).
  destruct (validate_update b); [|done].
  unfold findById. destruct (coll !! id) as [e|]; [|done].
  assert (assign e (sanitize (with_category None b)) = assign e (sanitize b)) as ->; [|done].
  unfold assign. simpl. by rewrite Hb.
Qed.

Lemma update_ignores_empty_paymentMethod uid now id b coll :
  b_paymentMethod b = Some "" →
  update_expense uid now id (with_paymentMethod None b) coll
  = update_expense uid now id b coll.
Proof.
  intros Hb. unfold update_expense.
  change (validate_update (with_paymentMethod None b)) with (validate_update b).
  destruct (validate_update b); [|done].
  unfold findById. destruct (coll !! id) as [e|]; [|done].
  assert (assign e (sanitize (with_paymentMethod None b)) = assign e (sanitize b)) as ->;
    [|done].
  unfold assign. simpl. by rewrite Hb.
Qed.

Lemma empty_description_rejected b :
  b_description b = Some "" → validate_update b ≠ [].
Proof.
  intros Hb Hv. unfold validate_update in Hv. rewrite Hb in Hv.
  apply app_eq_nil in Hv as [_ Hv]. by apply app_eq_nil in Hv as [Hv _].
Qed.

Lemma empty_date_rejected b :
  b_date b = Some "" → isISO8601 "" = false → validate_update b ≠ [].
Proof.
  intros Hb Hiso Hv. unfold validate_update in Hv. rewrite Hb in Hv. simpl in Hv.
  rewrite Hiso in Hv.
  apply app_eq_nil in Hv as [_ Hv]. by apply app_eq_nil in Hv as [_ Hv].
Qed.

(** C10 (as amended).  On an expense the requester owns: a PUT that
    carries amount 0 and is answered 200 has stored amount 0.  A
    category or payment method that is present but empty is ignored:
    the stored value stays and the request runs exactly as if the
    member had been left out.  An empty description is not ignored:
    the request is answered 400 with the errors of the chains and
    nothing of its body is applied; so is an empty date, since
    [isISO8601] rejects the empty string.  In no case does the empty
    string replace the stored value. *)
Theorem update_zero_amount_and_empty_members (uid : ObjectId) (now : Z) (id : ObjectId)
    (b : ExpenseBody) (coll : gmap ObjectId Expense) (e : Expense)
    (resp : Response) (coll' : gmap ObjectId Expense) :
  coll !! id = Some e →
  userId e = uid →
  update_expense uid now id b coll = (resp, coll') →
  ∃ e', coll' !! id = Some e'
    ∧ (b_amount b = Some 0%Qc → status resp = 200 → amount e' = 0%Qc)
    ∧ (b_category b = Some "" →
         category e' = category e
         ∧ update_expense uid now id (with_category None b) coll = (resp, coll'))
    ∧ (b_paymentMethod b = Some "" →
         paymentMethod e' = paymentMethod e
         ∧ update_expense uid now id (with_paymentMethod None b) coll = (resp, coll'))
    ∧ (b_description b = Some "" →
         description e' = description e
         ∧ resp = validation_failed (validate_update b) ∧ status resp = 400
         ∧ "Description cannot be empty" ∈ validate_update b
         ∧ coll' = coll)
    ∧ (b_date b = Some "" →
         date e' = date e
         ∧ (isISO8601 "" = false →
              resp = validation_failed (validate_update b) ∧ status resp = 400
              ∧ "Invalid date format" ∈ validate_update b
              ∧ coll' = coll)).
Proof.
  intros Hid Hu Hrun.
  destruct (decide (status resp = 200)) as [H200|Hn200].
  - destruct (update_200 _ _ _ _ _ _ _ Hrun H200)
      as (e0 & e' & Hid0 & _ & Hv & He' & -> & ->).
    rewrite Hid in Hid0. injection Hid0 as <-.
    apply assign_saved in He' as (Hu' & Ha & Hc & Hd & Ht & Hp). simpl in *.
    exists e'. split_and!.
    + apply lookup_insert_eq.
    + intros Hb _. by rewrite Ha, Hb.
    + intros Hb. split; [by rewrite Hc, Hb|].
      by rewrite update_ignores_empty_category.
    + intros Hb. split; [by rewrite Hp, Hb|].
      by rewrite update_ignores_empty_paymentMethod.
    + intros Hb. by destruct (empty_description_rejected b Hb).
    + intros Hb. split.
      * rewrite Hb in Ht. simpl in Ht. by injection Ht.
      * intros Hiso. by destruct (empty_date_rejected b Hb Hiso).
  - assert (coll' = coll) as -> by (by eapply update_not_200).
    exists e. split_and!; try done.
    + intros Hb. split; [done|]. by rewrite update_ignores_empty_category.
    + intros Hb. split; [done|]. by rewrite update_ignores_empty_paymentMethod.
    + intros Hb. pose proof (empty_description_rejected b Hb) as Hv.
      rewrite (update_rejected uid now id b coll Hv) in Hrun. injection Hrun as <-.
      split_and!; try done.
      unfold validate_update. rewrite Hb, !elem_of_app. right. left.
      by apply list_elem_of_singleton.
    + intros Hb. split; [done|]. intros Hiso.
      pose proof (empty_date_rejected b Hb Hiso) as Hv.
      rewrite (update_rejected uid now id b coll Hv) in Hrun. injection Hrun as <-.
      split_and!; try done.
      unfold validate_update. rewrite Hb, !elem_of_app. right. right.
      simpl. rewrite Hiso. by apply list_elem_of_singleton.
Qed.

(** The handlers keep the collection within the schema. *)
Lemma update_preserves_store_ok uid now id b coll resp coll' :
  store_ok coll →
  update_expense uid now id b coll = (resp, coll') →
  store_ok coll'.
Proof.
  intros Hok Hrun.
  destruct (decide (status resp = 200)) as [H200|Hn200].
  - destruct (update_200 _ _ _ _ _ _ _ Hrun H200)
      as (e0 & e' & _ & _ & _ & He' & _ & ->).
    apply expenseSchema_inv in He' as (_ & _ & _ & _ & _ & _ & He').
    intros j ej. rewrite lookup_insert. case_decide; [by intros [= <-]|]. apply Hok.
  - by rewrite (update_not_200 _ _ _ _ _ _ _ Hrun Hn200).
Qed.

Lemma create_preserves_store_ok uid now newId b coll resp coll' :
  store_ok coll →
  create_expense uid now newId b coll = (resp, coll') →
  store_ok coll'.
Proof.
  intros Hok. unfold create_expense.
  destruct (validate_create b); [|by intros [= _ <-]].
  match goal with |- context [create ?n ?i ?a ?c] =>
    destruct (create n i a c) as [[doc coll'']|] eqn:Hc end;
    simpl; [|by intros [= _ <-]].
  intros [= _ <-].
  apply create_inv in Hc as (e & He & _ & _ & ->).
  apply expenseSchema_inv in He as (_ & _ & _ & _ & _ & _ & He).
  intros j ej. rewrite lookup_insert. case_decide; [by intros [= <-]|]. apply Hok.
Qed.

Lemma delete_preserves_store_ok uid id coll :
  store_ok coll → store_ok (delete_expense uid id coll).2.
Proof.
  intros Hok. unfold delete_expense, findById, deleteOne.
  destruct (coll !! id) as [e|]; simpl; [|done].
  destruct (decide (userId e ≠ uid)); simpl; [done|].
  intros j ej [_ Hj]%lookup_delete_Some. by eapply Hok.
Qed.

End UpdateFalsy.

(** C10 as stated fails: an empty description is not ignored.  User 1
    sends amount 75 with an empty description for the lunch of 50: the
    answer is 400 and the amount stays 50, while the same body without
    the description is answered 200 and stores 75.  The same holds for
    an empty date. *)
Lemma empty_description_not_ignored :
  @update_expense Ref.platform 1 Sample.now 7 Sample.empty_description Sample.expenses
  = (validation_failed ["Description cannot be empty"], Sample.expenses)
  ∧ amount <$> Sample.expenses !! 7%N = Some (Qc_of_Z 50)
  ∧ status (@update_expense Ref.platform 1 Sample.now 7
              (with_description None Sample.empty_description) Sample.expenses).1 = 200
  ∧ amount <$> (@update_expense Ref.platform 1 Sample.now 7
                  (with_description None Sample.empty_description) Sample.expenses).2 !! 7%N
    = Some (Qc_of_Z 75)
  ∧ @update_expense Ref.platform 1 Sample.now 7 Sample.empty_date Sample.expenses
    = (validation_failed ["Invalid date format"], Sample.expenses)
  ∧ amount <$> (@update_expense Ref.platform 1 Sample.now 7
                  (with_date None Sample.empty_date) Sample.expenses).2 !! 7%N
    = Some (Qc_of_Z 75).
Proof. split_and!; by vm_compute. Qed.

Lemma update_zero_amount_and_empty_members_witness :
  Sample.expenses !! 7%N = Some Sample.lunch
  ∧ status (@update_expense Ref.platform 1 Sample.now 7 Sample.zero_and_empty
              Sample.expenses).1 = 200
  ∧ (∃ e', (@update_expense Ref.platform 1 Sample.now 7 Sample.zero_and_empty
              Sample.expenses).2 !! 7%N = Some e'
           ∧ amount e' = 0%Qc
           ∧ category e' = "Food & Dining"
           ∧ paymentMethod e' = "Cash")
  ∧ status (@update_expense Ref.platform 1 Sample.now 7 Sample.empty_description
              Sample.expenses).1 = 400
  ∧ (@update_expense Ref.platform 1 Sample.now 7 Sample.empty_description
       Sample.expenses).2 = Sample.expenses.
Proof.
  assert (Sample.expenses !! 7%N = Some Sample.lunch) as Hid by reflexivity.
  split; [exact Hid|].
  destruct (@update_expense Ref.platform 1 Sample.now 7 Sample.zero_and_empty Sample.expenses)
    as [resp coll'] eqn:Hrun.
  assert (status resp = 200) as Hs.
  { apply (f_equal (λ x, status x.1)) in Hrun. simpl in Hrun. rewrite <-Hrun.
    by vm_compute. }
  split; [exact Hs|].
  destruct (@update_zero_amount_and_empty_members Ref.platform 1 Sample.now 7
              Sample.zero_and_empty Sample.expenses Sample.lunch resp coll' Hid eq_refl Hrun)
    as (e' & Hl & Ha & Hc & Hp & _ & _).
  split.
  { exists e'. simpl.
    split_and!; [done | exact (Ha eq_refl Hs) | exact (proj1 (Hc eq_refl))
                | exact (proj1 (Hp eq_refl))]. }
  destruct (@update_expense Ref.platform 1 Sample.now 7 Sample.empty_description
              Sample.expenses) as [resp2 coll2] eqn:Hrun2.
  destruct (@update_zero_amount_and_empty_members Ref.platform 1 Sample.now 7
              Sample.empty_description Sample.expenses Sample.lunch resp2 coll2
              Hid eq_refl Hrun2)
    as (e2 & _ & _ & _ & _ & Hd & _).
  destruct (Hd eq_refl) as (_ & _ & H400 & _ & Hsame).
  split; [exact H400 | exact Hsame].
Defined.

(** ** The profile routes *)

Lemma opt_field_keys k v : (opt_field k v).*1 = match v with Some _ => [k] | None => [] end.
Proof. by destruct v. Qed.

Lemma profile_json_keys (d : UserDoc) :
  (json_keys (profile_json d) ⊆ ["_id"; "name"; "email"; "bio"; "phone"; "avatar"])
  ∧ ("password" ∉ json_keys (profile_json d))
  ∧ json_get "password" (profile_json d) = None.
Proof.
  destruct d as [i [n e p [b|] [ph|] [a|]]]; simpl;
    (split_and!; [by apply (bool_decide_unpack _) | by apply (bool_decide_unpack _) | done]).
Qed.

(** C9.  GET /api/users/profile answers 200 with the stored user record
    as it is: every stored field is a member of the body, the password
    hash among them. *)
Theorem get_profile_returns_password (uid : ObjectId) (users : gmap ObjectId User) (u : User) :
  users !! uid = Some u →
  get_profile uid users = (mkResponse 200 (user_json (uid, u)), users)
  ∧ json_get "_id" (user_json (uid, u)) = Some (JId uid)
  ∧ json_get "name" (user_json (uid, u)) = Some (JStr (name u))
  ∧ json_get "email" (user_json (uid, u)) = Some (JStr (email u))
  ∧ json_get "password" (user_json (uid, u)) = Some (JStr (password u))
  ∧ json_get "bio" (user_json (uid, u)) = JStr <$> bio u
  ∧ json_get "phone" (user_json (uid, u)) = JStr <$> phone u
  ∧ json_get "avatar" (user_json (uid, u)) = JStr <$> avatar u.
Proof.
  intros Hu. unfold get_profile. rewrite Hu. simpl.
  destruct u as [n e p [b|] [ph|] [a|]]; simpl; by split_and!.
Qed.

Lemma get_profile_returns_password_witness :
  Sample.users !! 1%N = Some Sample.alice
  ∧ get_profile 1 Sample.users = (mkResponse 200 (user_json (1%N, Sample.alice)), Sample.users)
  ∧ json_get "password" (user_json (1%N, Sample.alice)) = Some (JStr "$2a$10$hash").
Proof.
  assert (Sample.users !! 1%N = Some Sample.alice) as Hu by reflexivity.
  destruct (get_profile_returns_password 1 Sample.users Sample.alice Hu)
    as (Hget & _ & _ & _ & Hpw & _).
  split_and!; [exact Hu | exact Hget | exact Hpw].
Defined.

Section Profile.
Context `{Platform}.

Lemma findOne_email_is_Some e (users : gmap ObjectId User) :
  is_Some (findOne_email e users)
  ↔ ∃ o uo, users !! o = Some uo ∧ email uo = toLowerCase e.
Proof.
  unfold findOne_email. split.
  - intros [[o uo] Hh]. apply head_Some_elem_of in Hh.
    apply list_elem_of_filter in Hh as [He Hin]. simpl in He.
    apply elem_of_map_to_list in Hin. by exists o, uo.
  - intros (o & uo & Ho & He).
    assert ((o, uo) ∈ filter (λ d : UserDoc, email d.2 = toLowerCase e)
                        (map_to_list users)) as Hin.
    { apply list_elem_of_filter. split; [done|]. by apply elem_of_map_to_list. }
    destruct (filter _ _) as [|x l]; [by apply elem_of_nil in Hin|]. by exists x.
Qed.

Lemma update_profile_accepted uid b users :
  validate_profile b = [] →
  update_profile uid b users =
    catching users (
      match users !! uid with
      | None => Ok (message 404 "User not found", users)
      | Some user =>
          if email_taken (sanitize_profile b) user users
          then Ok (message 400 "Email already in use", users)
          else
            '(updatedUser, users') ←
              save_user uid (assign_profile user (sanitize_profile b)) users;
            Ok (mkResponse 200 (profile_json updatedUser), users')
      end).
Proof. unfold update_profile. by intros ->. Qed.

Lemma email_in_use uid b users u e o uo :
  validate_profile b = [] →
  users !! uid = Some u →
  p_email b = Some e → e ≠ "" → e ≠ email u →
  users !! o = Some uo → email uo = toLowerCase e →
  update_profile uid b users = (message 400 "Email already in use", users).
Proof.
  intros Hv Hu He Hne Hdiff Ho Hem.
  rewrite update_profile_accepted by done. rewrite Hu.
  assert (email_taken (sanitize_profile b) u users = true) as ->; [|done].
  unfold email_taken. simpl. rewrite He. simpl.
  apply truthy_ne in Hne. rewrite Hne.
  rewrite decide_True by done.
  apply bool_decide_eq_true. apply findOne_email_is_Some. by exists o, uo.
Qed.

(** The profile route keeps the stored emails lower case. *)
Lemma update_profile_keeps_emails_lower uid b users :
  (∀ s, toLowerCase (toLowerCase s) = toLowerCase s) →
  emails_lower users → emails_lower (update_profile uid b users).2.
Proof.
  intros Hidem Hok. unfold update_profile.
  destruct (validate_profile b); [|done].
  destruct (users !! uid) as [u|]; simpl; [|done].
  destruct (email_taken _ u users); simpl; [done|].
  unfold save_user.
  destruct (filter _ (map_to_list users)); simpl; [|done].
  intros o uo. rewrite lookup_insert. case_decide; [|apply Hok].
  intros [= <-]. simpl. apply Hidem.
Qed.

(** C6 (as amended).  A profile update whose body fails a validation
    chain is answered 400 with the list of validation errors, whatever
    its email.  One whose body passes them and whose non-empty email
    differs from the requester's stored email is answered 400 "Email
    already in use", and changes nothing, when the email, lower-cased
    as the look-up has it, is the email of a stored user; with the
    stored emails lower case, as the schema writes them, that is so
    when the email is the email of a stored user.  A profile update
    answered 200 has a body whose members are among [_id], [name],
    [email], [bio], [phone] and [avatar], with no [password], and they
    are the fields of the record as stored. *)
Theorem profile_email_taken_and_safe_answer (uid : ObjectId) (b : ProfileBody)
    (users : gmap ObjectId User) :
  (validate_profile b ≠ [] →
     update_profile uid b users = (validation_failed (validate_profile b), users))
  ∧ (∀ u e o uo,
       validate_profile b = [] →
       users !! uid = Some u →
       p_email b = Some e → e ≠ "" → e ≠ email u →
       users !! o = Some uo → email uo = toLowerCase e →
       update_profile uid b users = (message 400 "Email already in use", users))
  ∧ (∀ u e o uo,
       emails_lower users →
       validate_profile b = [] →
       users !! uid = Some u →
       p_email b = Some e → e ≠ "" → e ≠ email u →
       users !! o = Some uo → email uo = e →
       update_profile uid b users = (message 400 "Email already in use", users))
  ∧ (∀ resp users',
       update_profile uid b users = (resp, users') →
       status resp = 200 →
       ∃ u', users' !! uid = Some u'
             ∧ body resp = profile_json (uid, u')
             ∧ (json_keys (body resp) ⊆ ["_id"; "name"; "email"; "bio"; "phone"; "avatar"])
             ∧ ("password" ∉ json_keys (body resp))
             ∧ json_get "password" (body resp) = None).
Proof.
  split_and!.
  - intros Hv. unfold update_profile. by destruct (validate_profile b).
  - intros u e o uo. apply email_in_use.
  - intros u e o uo Hlow Hv Hu He Hne Hdiff Ho Hem.
    apply (email_in_use uid b users u e o uo); try done.
    rewrite <-Hem. symmetry. by eapply Hlow.
  - intros resp users'. unfold update_profile.
    destruct (validate_profile b); [|by intros [= <- <-]].
    destruct (users !! uid) as [u|]; simpl; [|by intros [= <- <-]].
    destruct (email_taken _ u users); simpl; [by intros [= <- <-]|].
    unfold save_user.
    destruct (filter _ (map_to_list users)); simpl; [|by intros [= <- <-]].
    intros [= <- <-] _. eexists. split; [apply lookup_insert_eq|].
    split; [done|]. apply profile_json_keys.
Qed.

End Profile.

(** C6 as stated fails: when the body also fails a validation chain,
    the 400 answer lists the validation errors and has no [message]. *)
Lemma taken_email_invalid_name :
  Sample.users !! 1%N = Some Sample.alice
  ∧ p_email Sample.blank_name_taken_email = Some "bob@example.com"
  ∧ "bob@example.com" ≠ email Sample.alice
  ∧ Sample.users !! 2%N = Some Sample.bob
  ∧ email Sample.bob = "bob@example.com"
  ∧ (@update_profile Ref.platform 1 Sample.blank_name_taken_email Sample.users).1
    = validation_failed ["Name cannot be empty"]
  ∧ json_get "message"
      (body (@update_profile Ref.platform 1 Sample.blank_name_taken_email Sample.users).1) = None
  ∧ (@update_profile Ref.platform 1 Sample.blank_name_taken_email Sample.users).1
    ≠ message 400 "Email already in use".
Proof. split_and!; by vm_compute. Qed.

Lemma sample_emails_lower : @emails_lower Ref.platform Sample.users.
Proof.
  intros o u Hl. unfold Sample.users in Hl.
  apply lookup_insert_Some in Hl as [[_ <-]|[_ Hl]]; [by vm_compute|].
  apply lookup_insert_Some in Hl as [[_ <-]|[_ Hl]]; [by vm_compute|].
  by rewrite lookup_empty in Hl.
Qed.

Lemma profile_email_taken_and_safe_answer_witness :
  @update_profile Ref.platform 1 Sample.blank_name_taken_email Sample.users
    = (validation_failed ["Name cannot be empty"], Sample.users)
  ∧ @update_profile Ref.platform 1 Sample.own_email_upper Sample.users
    = (message 400 "Email already in use", Sample.users)
  ∧ @update_profile Ref.platform 1 Sample.taken_email Sample.users
    = (message 400 "Email already in use", Sample.users)
  ∧ status (@update_profile Ref.platform 1 Sample.new_bio Sample.users).1 = 200
  ∧ json_get "password" (body (@update_profile Ref.platform 1 Sample.new_bio Sample.users).1) = None.
Proof.
  destruct (@profile_email_taken_and_safe_answer Ref.platform 1 Sample.blank_name_taken_email
              Sample.users) as [Hinvalid _].
  split.
  { assert (@validate_profile Ref.platform Sample.blank_name_taken_email
            = ["Name cannot be empty"]) as Hv by (by vm_compute).
    rewrite <-Hv. apply Hinvalid. by rewrite Hv. }
  destruct (@profile_email_taken_and_safe_answer Ref.platform 1 Sample.own_email_upper
              Sample.users) as (_ & Hown & _).
  split.
  { apply (Hown Sample.alice "ALICE@example.com" 1%N Sample.alice);
      [by vm_compute | reflexivity | reflexivity | by vm_compute | by vm_compute
      | reflexivity | by vm_compute]. }
  destruct (@profile_email_taken_and_safe_answer Ref.platform 1 Sample.taken_email Sample.users)
    as (_ & _ & Htaken & _).
  split.
  { apply (Htaken Sample.alice "bob@example.com" 2%N Sample.bob);
      [exact sample_emails_lower | by vm_compute | reflexivity | reflexivity | by vm_compute
      | by vm_compute | reflexivity | reflexivity]. }
  destruct (@profile_email_taken_and_safe_answer Ref.platform 1 Sample.new_bio Sample.users)
    as (_ & _ & _ & Hsafe).
  destruct (@update_profile Ref.platform 1 Sample.new_bio Sample.users) as [resp users'] eqn:Hrun.
  assert (status resp = 200) as Hs.
  { apply (f_equal (λ x, status x.1)) in Hrun. simpl in Hrun. rewrite <-Hrun.
    by vm_compute. }
  destruct (Hsafe resp users' eq_refl Hs) as (u' & _ & _ & _ & _ & Hpw).
  split; [exact Hs | exact Hpw].
Defined.

(** ** Sums and groups *)

Lemma sum_amounts_app l1 l2 : sum_amounts (l1 ++ l2) = (sum_amounts l1 + sum_amounts l2)%Qc.
Proof.
  induction l1 as [|d l1 IH]; simpl.
  - by rewrite Qcplus_0_l.
  - unfold sum_amounts in *. simpl. by rewrite IH, Qcplus_assoc.
Qed.

Lemma sum_amounts_perm l1 l2 : l1 ≡ₚ l2 → sum_amounts l1 = sum_amounts l2.
Proof.
  induction 1 as [|d l1 l2 _ IH|d1 d2 l|l1 l2 l3 _ IH1 _ IH2]; unfold sum_amounts in *; simpl.
  - done.
  - by rewrite IH.
  - rewrite !Qcplus_assoc. f_equal. apply Qcplus_comm.
  - by rewrite IH1.
Qed.

Section Groups.
Context {K : Type} `{EqDecision K}.
Implicit Types (k : K) (gs : list (Group K)) (key : ExpenseDoc → K).

Lemma glookup_Some k gs g : glookup k gs = Some g → g ∈ gs ∧ g_id g = k.
Proof.
  induction gs as [|g0 gs IH]; simpl; [done|].
  case_decide.
  - intros [= <-]. split; [apply list_elem_of_here|done].
  - intros [Hin Hk]%IH. split; [by apply list_elem_of_further|done].
Qed.

Lemma glookup_None k gs : glookup k gs = None ↔ k ∉ g_id <$> gs.
Proof.
  induction gs as [|g0 gs IH]; simpl.
  - split; [intros _; apply not_elem_of_nil|done].
  - rewrite not_elem_of_cons. case_decide as Hg.
    + split; [done|]. intros [Hne _]. by destruct Hne.
    + rewrite IH. split; [by intros ?; split; [intros ->|]|by intros [_ ?]].
Qed.

Lemma glookup_elem gs g : NoDup (g_id <$> gs) → g ∈ gs → glookup (g_id g) gs = Some g.
Proof.
  induction gs as [|g0 gs IH]; simpl; [by intros _ ?%elem_of_nil|].
  intros Hnd0 [->|Hin]%elem_of_cons.
  all: pose proof (NoDup_cons_1_1 _ _ Hnd0) as Hnotin.
  all: pose proof (NoDup_cons_1_2 _ _ Hnd0) as Hnd.
  - by rewrite decide_True.
  - rewrite decide_False; [by apply IH|].
    intros Heq. apply Hnotin. rewrite Heq. by apply list_elem_of_fmap_2.
Qed.

Lemma glookup_group_add k' k x gs :
  glookup k' (group_add k x gs) =
    if decide (k' = k)
    then Some (match glookup k gs with
               | Some g => mkGroup k (g_total g + x)%Qc (S (g_count g))
               | None => mkGroup k x 1
               end)
    else glookup k' gs.
Proof.
  induction gs as [|g gs IH]; simpl.
  - repeat case_decide; simplify_eq; done.
  - destruct (decide (g_id g = k)) as [Hg|Hg]; simpl.
    + repeat case_decide; simplify_eq; done.
    + rewrite IH. repeat case_decide; simplify_eq; done.
Qed.

Lemma group_add_ids k x gs :
  g_id <$> group_add k x gs =
    if decide (k ∈ g_id <$> gs) then g_id <$> gs else (g_id <$> gs) ++ [k].
Proof.
  induction gs as [|g gs IH]; [done|].
  cbn [group_add]. rewrite (fmap_cons g_id g gs).
  destruct (decide (g_id g = k)) as [Hg|Hg].
  - rewrite fmap_cons. cbn [g_id].
    rewrite decide_True; [by rewrite Hg|]. rewrite Hg. apply list_elem_of_here.
  - rewrite fmap_cons, IH. destruct (decide (k ∈ g_id <$> gs)) as [Hin|Hin].
    + rewrite decide_True; [done|]. by apply list_elem_of_further.
    + rewrite decide_False; [done|]. rewrite not_elem_of_cons.
      split; [by intros ->|done].
Qed.

Lemma group_add_NoDup k x gs :
  NoDup (g_id <$> gs) → NoDup (g_id <$> group_add k x gs).
Proof.
  intros Hnd. rewrite group_add_ids. case_decide; [done|].
  apply NoDup_app. split_and!; [done| |apply NoDup_singleton].
  intros y Hy ->%list_elem_of_singleton. done.
Qed.

Lemma foldl_group_add_NoDup key docs gs :
  NoDup (g_id <$> gs) →
  NoDup (g_id <$> foldl (λ gs d, group_add (key d) (amount d.2) gs) gs docs).
Proof.
  revert gs. induction docs as [|d docs IH]; simpl; [done|].
  intros gs Hnd. apply IH. by apply group_add_NoDup.
Qed.

Lemma glookup_foldl key k docs gs :
  glookup k (foldl (λ gs d, group_add (key d) (amount d.2) gs) gs docs) =
    match glookup k gs with
    | Some g => Some (mkGroup k (g_total g + sum_amounts (bucket key k docs))%Qc
                                (g_count g + length (bucket key k docs)))
    | None => match bucket key k docs with
              | [] => None
              | b => Some (mkGroup k (sum_amounts b) (length b))
              end
    end.
Proof.
  revert gs. induction docs as [|d docs IH]; intros gs; simpl.
  - destruct (glookup k gs) as [g|] eqn:Hg; [|done].
    apply glookup_Some in Hg as [_ <-]. destruct g as [i t c]. simpl.
    unfold bucket, sum_amounts. simpl. by rewrite Qcplus_0_r, Nat.add_0_r.
  - rewrite IH, glookup_group_add. unfold bucket. rewrite filter_cons.
    destruct (decide (k = key d)) as [->|Hk].
    + rewrite decide_True by done. fold (bucket key (key d) docs).
      destruct (glookup (key d) gs) as [g|]; simpl.
      * unfold sum_amounts. simpl. f_equal. f_equal; [|lia].
        by rewrite Qcplus_assoc.
      * done.
    + rewrite decide_False by done. done.
Qed.

Lemma group_stage_NoDup key docs : NoDup (g_id <$> group_stage key docs).
Proof. apply foldl_group_add_NoDup. constructor. Qed.

Lemma glookup_group_stage key k docs :
  glookup k (group_stage key docs) =
    match bucket key k docs with
    | [] => None
    | b => Some (mkGroup k (sum_amounts b) (length b))
    end.
Proof. unfold group_stage. by rewrite glookup_foldl. Qed.

(** The output of a [$group] stage: one group for each key that
    occurs, with the sum and the number of the documents under it. *)
Lemma group_stage_elem key docs g :
  g ∈ group_stage key docs ↔
    bucket key (g_id g) docs ≠ []
    ∧ g_total g = sum_amounts (bucket key (g_id g) docs)
    ∧ g_count g = length (bucket key (g_id g) docs).
Proof.
  split.
  - intros Hin. apply glookup_elem in Hin; [|apply group_stage_NoDup].
    rewrite glookup_group_stage in Hin.
    destruct (bucket key (g_id g) docs) as [|d b]; [done|].
    injection Hin as <-. done.
  - intros (Hne & Ht & Hc).
    assert (glookup (g_id g) (group_stage key docs) = Some g) as Hl.
    { rewrite glookup_group_stage.
      destruct (bucket key (g_id g) docs) as [|d b] eqn:Hb; [done|].
      f_equal. destruct g as [i t c]. simpl in *. by rewrite Ht, Hc. }
    by apply glookup_Some in Hl as [Hin _].
Qed.

Lemma group_stage_nil key : group_stage key [] = [].
Proof. done. Qed.

End Groups.

(** ** Sorting *)

#[global] Instance date_desc_total : Total date_desc.
Proof. intros a b. unfold date_desc. lia. Qed.

#[global] Instance date_desc_trans : Transitive date_desc.
Proof. intros a b c. unfold date_desc. lia. Qed.

#[global] Instance ym_asc_total : Total ym_asc.
Proof. intros a b. unfold ym_asc, ym_le. lia. Qed.

#[global] Instance ym_asc_trans : Transitive ym_asc.
Proof. intros a b c. unfold ym_asc, ym_le. lia. Qed.

Lemma sort_date_desc_perm l : sort_date_desc l ≡ₚ l.
Proof. apply merge_sort_Permutation. Qed.

Lemma sort_date_desc_sorted l : StronglySorted date_desc (sort_date_desc l).
Proof. apply StronglySorted_merge_sort; apply _. Qed.

(** ** GET /api/expenses and GET /api/expenses/stats *)

Lemma match_user_elem uid (coll : gmap ObjectId Expense) d :
  d ∈ match_user uid (map_to_list coll) ↔ owned_by uid coll d.
Proof.
  unfold match_user, owned_by. rewrite list_elem_of_filter.
  destruct d as [i e]. rewrite elem_of_map_to_list. simpl. tauto.
Qed.

Lemma match_user_none uid (coll : gmap ObjectId Expense) :
  (∀ id e, coll !! id = Some e → userId e ≠ uid) →
  match_user uid (map_to_list coll) = [].
Proof.
  intros Hnone. apply elem_of_nil_inv. intros [i e] [Hin Hu]%match_user_elem.
  by apply (Hnone i e).
Qed.

Lemma match_user_since_sub uid since docs :
  match_user_since uid since docs = filter (λ d, since ≤ date d.2) (match_user uid docs).
Proof.
  unfold match_user_since, match_user. rewrite list_filter_filter.
  apply list_filter_iff. intros d. tauto.
Qed.

Lemma bucket_unit (docs : list ExpenseDoc) : bucket (λ _, ()) () docs = docs.
Proof.
  unfold bucket. induction docs as [|d docs IH]; [done|].
  rewrite filter_cons_True by done. by rewrite IH.
Qed.

Lemma glookup_unit (gs : list (Group ())) : glookup () gs = head gs.
Proof. by destruct gs as [|[[] t c] gs]. Qed.

(** [totalExpenses[0]?.total || 0] is the sum over the matched
    documents. *)
Lemma first_total_sum uid docs :
  first_total (agg_total uid docs) = sum_amounts (match_user uid docs).
Proof.
  unfold first_total, agg_total. rewrite <-glookup_unit, glookup_group_stage, bucket_unit.
  destruct (match_user uid docs) as [|d m]; [done|]. simpl.
  by case_decide.
Qed.

Section ListAndStats.
Context `{Platform}.

Lemma find_no_filters uid (coll : gmap ObjectId Expense) :
  find (build_query uid no_filters) coll = Ok (match_user uid (map_to_list coll)).
Proof.
  unfold find. simpl. unfold_result. f_equal. unfold match_user.
  apply list_filter_iff. intros d. unfold matches. simpl.
  rewrite !andb_true_r. apply bool_decide_spec.
Qed.

(** With exact amounts, the [totalExpenses] of the stats answer is the
    sum of the amounts of the list that the unfiltered GET
    /api/expenses answers with.  The amounts of the code are IEEE 754
    doubles, which [$sum] and a sum over the list add in orders of
    their own and round on the way; this lemma is about the rationals
    of the embedding and says nothing on that rounding. *)
Lemma exact_stats_total_is_list_sum (uid : ObjectId) (now : Z) (coll : gmap ObjectId Expense) :
  ∃ docs,
    list_expenses uid no_filters coll
      = (mkResponse 200 (JArr (expense_json <$> docs)), coll)
    ∧ json_get "totalExpenses" (body (expense_stats uid now coll).1)
      = Some (JNum (sum_amounts docs))
    ∧ (∀ d, d ∈ docs ↔ owned_by uid coll d).
Proof.
  exists (sort_date_desc (match_user uid (map_to_list coll))).
  split_and!.
  - unfold list_expenses. by rewrite find_no_filters.
  - unfold expense_stats. simpl. rewrite first_total_sum.
    by rewrite (sum_amounts_perm _ _ (sort_date_desc_perm _)).
  - intros d. rewrite sort_date_desc_perm. apply match_user_elem.
Qed.

End ListAndStats.

(** ** The filters of GET /api/expenses *)

Lemma cast_range {A} (parse : string → option A) lo hi :
  (∀ s, Js.supplied lo = Some s → is_Some (parse s)) →
  (∀ s, Js.supplied hi = Some s → is_Some (parse s)) →
  cast_bounds (range parse lo hi) = Ok (Js.supplied lo ≫= parse, Js.supplied hi ≫= parse).
Proof.
  intros Hlo Hhi. unfold range.
  destruct (Js.supplied lo) as [l|], (Js.supplied hi) as [h|]; simpl; unfold_result.
  - destruct (Hlo l eq_refl) as [x ->], (Hhi h eq_refl) as [y ->]. done.
  - destruct (Hlo l eq_refl) as [x ->]. done.
  - destruct (Hhi h eq_refl) as [y ->]. done.
  - done.
Qed.

Lemma opt_test_spec {A} (o : option A) (f : A → bool) :
  opt_test o f = true ↔ ∀ a, o = Some a → f a = true.
Proof.
  destruct o as [a|]; simpl.
  - split; [by intros ? ? [= <-]|by intros Ha; apply Ha].
  - split; [done|by intros _].
Qed.

Lemma matches_spec uid re cat lo hi amin amax (d : ExpenseDoc) :
  matches uid re cat (lo, hi) (amin, amax) d = true ↔
    userId d.2 = uid
    ∧ (∀ m, re = Some m → m (description d.2) = true)
    ∧ (∀ x, cat = Some x → category d.2 = x)
    ∧ (∀ t, lo = Some t → t ≤ date d.2)
    ∧ (∀ t, hi = Some t → date d.2 ≤ t)
    ∧ (∀ a, amin = Some a → (a ≤ amount d.2)%Qc)
    ∧ (∀ a, amax = Some a → (amount d.2 ≤ a)%Qc).
Proof.
  unfold matches. rewrite !andb_true_iff, !opt_test_spec, bool_decide_eq_true. simpl.
  split.
  - intros ((((((Hu & Hre) & Hcat) & Hlo) & Hhi) & Hmin) & Hmax).
    split_and!; try done.
    + intros x Hx. by apply String.eqb_eq, Hcat.
    + intros t Ht. specialize (Hlo t Ht). by apply bool_decide_eq_true in Hlo.
    + intros t Ht. specialize (Hhi t Ht). by apply bool_decide_eq_true in Hhi.
    + intros a Ha. specialize (Hmin a Ha). by apply bool_decide_eq_true in Hmin.
    + intros a Ha. specialize (Hmax a Ha). by apply bool_decide_eq_true in Hmax.
  - intros (Hu & Hre & Hcat & Hlo & Hhi & Hmin & Hmax).
    split_and!; try done.
    + intros x Hx. by apply String.eqb_eq, Hcat.
    + intros t Ht. by apply bool_decide_eq_true, Hlo.
    + intros t Ht. by apply bool_decide_eq_true, Hhi.
    + intros a Ha. by apply bool_decide_eq_true, Hmin.
    + intros a Ha. by apply bool_decide_eq_true, Hmax.
Qed.

Section ListSpec.
Context `{Platform}.

(** What GET /api/expenses answers when the search text has no
    metacharacter and the bounds parse: the requester's expenses that
    meet every criterion asked for, each once, latest date first. *)
Lemma list_expenses_spec (uid : ObjectId) (q : ListParams) (coll : gmap ObjectId Expense) :
  literal_patterns_search →
  well_formed q →
  ∃ docs,
    list_expenses uid q coll = (mkResponse 200 (JArr (expense_json <$> docs)), coll)
    ∧ (∀ d, d ∈ docs ↔ owned_by uid coll d ∧ satisfies (criteria q) d)
    ∧ NoDup docs
    ∧ StronglySorted date_desc docs.
Proof.
  intros Hlaw (Hs & Hsd & Hed & Hmin & Hmax).
  assert (∃ re, compile_regex (Js.supplied (q_search q)) = Ok re
                ∧ ∀ s, (∀ m, re = Some m → m s = true) ↔
                       (∀ p, Js.supplied (q_search q) = Some p →
                             Js.includes (Js.toLowerCase p) (Js.toLowerCase s) = true))
    as (re & Hre & Hmatch).
  { destruct (Js.supplied (q_search q)) as [p|] eqn:Hp; simpl.
    - destruct (Hlaw p (Hs p eq_refl)) as (m & Hm & Hms).
      exists (Some m). unfold_result. rewrite Hm. split; [done|].
      intros s. split.
      + intros Hall p' [= <-]. rewrite <-Hms. by apply Hall.
      + intros Hall m' [= <-]. rewrite Hms. by apply Hall.
    - exists None. split; [done|]. intros s. split; done. }
  exists (sort_date_desc
            (filter (λ d, matches uid re (Js.supplied (q_category q))
                            (Js.supplied (q_startDate q) ≫= new_Date,
                             Js.supplied (q_endDate q) ≫= new_Date)
                            (Js.supplied (q_minAmount q) ≫= parseFloat,
                             Js.supplied (q_maxAmount q) ≫= parseFloat) d)
                    (map_to_list coll))).
  split_and!.
  - unfold list_expenses, find, build_query, date_bounds, amount_bounds. simpl.
    rewrite Hre, !cast_range by done. done.
  - intros [i e]. rewrite sort_date_desc_perm, list_elem_of_filter, elem_of_map_to_list.
    rewrite Is_true_true, matches_spec, Hmatch.
    unfold owned_by, satisfies, criteria. simpl. tauto.
  - rewrite sort_date_desc_perm. apply NoDup_filter, NoDup_map_to_list.
  - apply sort_date_desc_sorted.
Qed.

End ListSpec.

Lemma ref_search_literal p s :
  literal p = true → Ref.search p s = Js.includes (Js.toLowerCase p) (Js.toLowerCase s).
Proof.
  intros Hp.
  assert (∀ s, Ref.match_here p s = Js.startsWith (Js.toLowerCase p) (Js.toLowerCase s))
    as Hhere.
  { clear s. induction p as [|a p IH]; intros s; [done|].
    unfold literal in Hp. simpl in Hp. apply andb_true_iff in Hp as [Ha Hp].
    destruct s as [|b s]; [done|]. simpl.
    rewrite (IH Hp).
    destruct (Ascii.eqb_spec a Ref.dot) as [->|Hdot]; [done|done]. }
  induction s as [|b s IH]; simpl; rewrite Hhere; [done|]. by rewrite IH.
Qed.

Lemma ref_literal_patterns_search : @literal_patterns_search Ref.platform.
Proof.
  intros p Hp. exists (Ref.search p). split; [|intros s; by apply ref_search_literal].
  simpl. unfold Ref.regex.
  assert (forallb (λ c, negb (is_meta c) || Ascii.eqb c Ref.dot)%bool
            (String.list_ascii_of_string p) = true) as ->; [|done].
  unfold literal in Hp. rewrite forallb_forall in *. intros c Hc.
  by rewrite (Hp c Hc).
Qed.

(** C4 at its failing input.  With [?search=.] the answer lists every
    expense of the requester whose description has a character, here
    "Lunch" and "abc", neither of which contains a full stop: the
    search text is handed to [$regex] as a pattern, not looked for as
    text. *)
Lemma search_dot_lists_every_description :
  Js.includes (Js.toLowerCase ".") (Js.toLowerCase (description Sample.lunch)) = false
  ∧ Js.includes (Js.toLowerCase ".") (Js.toLowerCase (description Sample.books)) = false
  ∧ @list_expenses Ref.platform 1 Sample.search_dot (<[9%N := Sample.books]> Sample.expenses)
    = (mkResponse 200 (JArr [expense_json (7%N, Sample.lunch);
                             expense_json (9%N, Sample.books)]),
       <[9%N := Sample.books]> Sample.expenses).
Proof. split_and!; by vm_compute. Qed.

(** The same request with a search text free of metacharacters. *)
Example search_lunch_lists_lunch :
  @well_formed Ref.platform Sample.search_lunch
  ∧ @list_expenses Ref.platform 1 Sample.search_lunch (<[9%N := Sample.books]> Sample.expenses)
    = (mkResponse 200 (JArr [expense_json (7%N, Sample.lunch)]),
       <[9%N := Sample.books]> Sample.expenses).
Proof.
  split; [|by vm_compute].
  unfold well_formed. simpl.
  split_and!; intros s Hs; vm_compute in Hs; simplify_eq;
    first [by vm_compute | by eexists; vm_compute].
Qed.

(** ** The monthly groups of GET /api/expenses/stats *)

Lemma agg_monthly_perm uid since docs :
  agg_monthly uid since docs ≡ₚ group_stage month_key (match_user_since uid since docs).
Proof. apply merge_sort_Permutation. Qed.

(** What the third pipeline computes: one group for each (year, month)
    in which the requester has an expense dated [since] or later, with
    the sum and the number of those expenses, in ascending order of
    year and month.  The date of a counted expense is bounded from
    below only. *)
Lemma agg_monthly_spec (uid : ObjectId) (since : Z) (docs : list ExpenseDoc) :
  StronglySorted ym_asc (agg_monthly uid since docs)
  ∧ NoDup (g_id <$> agg_monthly uid since docs)
  ∧ (∀ g, g ∈ agg_monthly uid since docs ↔
          bucket month_key (g_id g) (match_user_since uid since docs) ≠ []
          ∧ g_total g = sum_amounts (bucket month_key (g_id g) (match_user_since uid since docs))
          ∧ g_count g = length (bucket month_key (g_id g) (match_user_since uid since docs)))
  ∧ (∀ d, d ∈ match_user_since uid since docs ↔ d ∈ docs ∧ userId d.2 = uid ∧ since ≤ date d.2).
Proof.
  split_and!.
  - apply StronglySorted_merge_sort; apply _.
  - rewrite agg_monthly_perm. apply group_stage_NoDup.
  - intros g. rewrite agg_monthly_perm. apply group_stage_elem.
  - intros d. unfold match_user_since. rewrite list_elem_of_filter. tauto.
Qed.

(** C8 at its failing input.  The request is made on 2024-06-15; the
    requester has an expense dated 2025-01-10.  It is after the request
    time, so not within the six months before it, and yet it is
    grouped under (2025, 1) in [monthlyExpenses]. *)
Lemma future_expense_in_monthly :
  Sample.now < date Sample.flight
  ∧ json_get "monthlyExpenses"
      (body (@expense_stats Ref.platform 1 Sample.now
               (<[9%N := Sample.flight]> Sample.expenses)).1)
    = Some (JArr [month_group_json (mkGroup (2024, 5) (Qc_of_Z 50) 1);
                  month_group_json (mkGroup (2025, 1) (Qc_of_Z 400) 1)]).
Proof. split; by vm_compute. Qed.

(** * Further properties of the routes *)

(** ** GET /api/expenses, whatever the query *)

Section ListAnyQuery.
Context `{Platform}.

(** The two ways GET /api/expenses ends. *)
Lemma list_expenses_cases uid q (coll : gmap ObjectId Expense) :
  list_expenses uid q coll = (server_error, coll)
  ∨ ∃ re dt am,
      list_expenses uid q coll
      = (mkResponse 200
           (JArr (expense_json <$>
                    sort_date_desc
                      (filter (λ d, matches uid re (Js.supplied (q_category q)) dt am d)
                              (map_to_list coll)))),
         coll).
Proof.
  unfold list_expenses, find, build_query. simpl.
  destruct (compile_regex (Js.supplied (q_search q))) as [re|]; simpl; [|by left].
  destruct (cast_bounds (date_bounds (q_startDate q) (q_endDate q))) as [dt|]; simpl;
    [|by left].
  destruct (cast_bounds (amount_bounds (q_minAmount q) (q_maxAmount q))) as [am|]; simpl;
    [|by left].
  right. by exists re, dt, am.
Qed.

(** The list route never writes, and whatever the query string holds,
    what it lists is the requester's: every entry is a stored document
    whose [userId] is the requester's id, no document is listed twice,
    and the entries come latest date first.  The only other answer is
    500. *)
Theorem list_answers_only_own_expenses (uid : ObjectId) (q : ListParams)
    (coll : gmap ObjectId Expense) :
  (list_expenses uid q coll).2 = coll
  ∧ ((list_expenses uid q coll).1 = server_error
     ∨ ∃ docs,
         (list_expenses uid q coll).1 = mkResponse 200 (JArr (expense_json <$> docs))
         ∧ (∀ d, d ∈ docs → owned_by uid coll d)
         ∧ NoDup docs
         ∧ StronglySorted date_desc docs).
Proof.
  destruct (list_expenses_cases uid q coll) as [->|(re & [lo hi] & [amin amax] & ->)].
  - split; [done|by left].
  - split; [done|]. right. eexists. split; [done|]. split_and!.
    + intros [i e]. rewrite sort_date_desc_perm, list_elem_of_filter, elem_of_map_to_list.
      rewrite Is_true_true, matches_spec. unfold owned_by. simpl. tauto.
    + rewrite sort_date_desc_perm. apply NoDup_filter, NoDup_map_to_list.
    + apply sort_date_desc_sorted.
Qed.

End ListAnyQuery.

(** ** The category groups of GET /api/expenses/stats *)

#[global] Instance total_desc_total {K} : Total (@total_desc K).
Proof.
  intros a b. unfold total_desc.
  destruct (Qclt_le_dec (g_total a) (g_total b)) as [Hlt|Hle]; [right|by left].
  by apply Qclt_le_weak.
Qed.

#[global] Instance total_desc_trans {K} : Transitive (@total_desc K).
Proof. intros a b c Hab Hbc. unfold total_desc in *. by eapply Qcle_trans. Qed.

Lemma groups_count_perm {K} (l1 l2 : list (Group K)) :
  l1 ≡ₚ l2 → groups_count l1 = groups_count l2.
Proof.
  induction 1 as [|g l1 l2 _ IH|g1 g2 l|l1 l2 l3 _ IH1 _ IH2]; unfold groups_count in *; simpl;
    lia.
Qed.

Section GroupCounts.
Context {K : Type} `{EqDecision K}.

Lemma groups_count_group_add (k : K) x gs :
  groups_count (group_add k x gs) = S (groups_count gs).
Proof.
  induction gs as [|g gs IH]; unfold groups_count in *; simpl; [done|].
  case_decide; simpl; [done|]. rewrite IH. lia.
Qed.

(** A [$group] stage counts every document of its input once. *)
Lemma group_stage_counts (key : ExpenseDoc → K) docs :
  groups_count (group_stage key docs) = length docs.
Proof.
  unfold group_stage.
  assert (∀ gs, groups_count (foldl (λ gs d, group_add (key d) (amount d.2) gs) gs docs)
                = (groups_count gs + length docs)%nat) as Hgen.
  { induction docs as [|d docs IH]; intros gs; simpl; [lia|].
    rewrite IH, groups_count_group_add. lia. }
  by rewrite Hgen.
Qed.

(** The keys of the groups are the keys of the documents. *)
Lemma group_stage_keys (key : ExpenseDoc → K) docs k :
  k ∈ g_id <$> group_stage key docs ↔ ∃ d, d ∈ docs ∧ key d = k.
Proof.
  rewrite list_elem_of_fmap. split.
  - intros (g & -> & [Hne _]%group_stage_elem).
    destruct (bucket key (g_id g) docs) as [|d l] eqn:Hb; [done|].
    assert (d ∈ bucket key (g_id g) docs) as Hd by (rewrite Hb; apply list_elem_of_here).
    apply list_elem_of_filter in Hd as [Hk Hd]. by exists d.
  - intros (d & Hd & Hk).
    exists (mkGroup k (sum_amounts (bucket key k docs)) (length (bucket key k docs))).
    split; [done|]. apply group_stage_elem. simpl. split; [|done].
    intros Hnil.
    assert (d ∈ bucket key k docs) as Hin by (by apply list_elem_of_filter).
    rewrite Hnil in Hin. by apply elem_of_nil in Hin.
Qed.

End GroupCounts.

(** X3.  GET /api/expenses/stats answers 200 and never writes.  The
    [byCategory] member of its answer is an array with one group for
    each category in which the requester has an expense, and for no
    other; no category comes twice; the [count] of a group is the
    number of the requester's expenses in its category, so the counts
    add up to the number of the requester's expenses; and the groups
    come with the largest [total] first. *)
Theorem category_groups_add_up `{Platform} (uid : ObjectId) (now : Z)
    (coll : gmap ObjectId Expense) :
  ∃ byCategory,
    (expense_stats uid now coll).2 = coll
    ∧ status (expense_stats uid now coll).1 = 200
    ∧ json_get "byCategory" (body (expense_stats uid now coll).1)
      = Some (JArr ((λ g, JObj [("_id", JStr (g_id g)); ("total", JNum (g_total g));
                                ("count", JNum (Qc_of_Z (Z.of_nat (g_count g))))])
                    <$> byCategory))
    ∧ NoDup (g_id <$> byCategory)
    ∧ (∀ c, c ∈ g_id <$> byCategory ↔ ∃ d, owned_by uid coll d ∧ category d.2 = c)
    ∧ (∀ g, g ∈ byCategory →
            g_count g = length (filter (λ d, category d.2 = g_id g)
                                  (match_user uid (map_to_list coll))))
    ∧ groups_count byCategory = length (match_user uid (map_to_list coll))
    ∧ (∀ d, d ∈ match_user uid (map_to_list coll) ↔ owned_by uid coll d)
    ∧ StronglySorted total_desc byCategory.
Proof.
  exists (agg_byCategory uid (map_to_list coll)).
  assert (agg_byCategory uid (map_to_list coll)
          ≡ₚ group_stage (λ d, category d.2) (match_user uid (map_to_list coll))) as Hperm
    by apply merge_sort_Permutation.
  split_and!.
  - done.
  - done.
  - done.
  - rewrite Hperm. apply group_stage_NoDup.
  - intros c. rewrite Hperm, group_stage_keys.
    split; intros (d & Hd & Hc); exists d; (split; [by apply match_user_elem|done]).
  - intros g. rewrite Hperm. by intros (_ & _ & Hc)%group_stage_elem.
  - rewrite (groups_count_perm _ _ Hperm). apply group_stage_counts.
  - intros d. apply match_user_elem.
  - apply StronglySorted_merge_sort; apply _.
Qed.

(** X21.  For a user without expenses, GET /api/expenses/stats answers
    200 with [totalExpenses] 0 and empty [byCategory] and
    [monthlyExpenses], and the unfiltered GET /api/expenses answers 200
    with the empty list; neither writes. *)
Theorem stats_of_a_user_without_expenses `{Platform} (uid : ObjectId) (now : Z)
    (coll : gmap ObjectId Expense) :
  (∀ id e, coll !! id = Some e → userId e ≠ uid) →
  expense_stats uid now coll
  = (mkResponse 200 (JObj [("totalExpenses", JNum 0%Qc); ("byCategory", JArr []);
                           ("monthlyExpenses", JArr [])]), coll)
  ∧ list_expenses uid no_filters coll = (mkResponse 200 (JArr []), coll).
Proof.
  intros Hnone. split.
  - unfold expense_stats, agg_total, agg_byCategory, agg_monthly.
    rewrite match_user_since_sub, (match_user_none _ _ Hnone). done.
  - unfold list_expenses. rewrite find_no_filters, (match_user_none _ _ Hnone). done.
Qed.

Lemma stats_of_a_user_without_expenses_witness :
  (∀ id e, Sample.expenses !! id = Some e → userId e ≠ 3%N)
  ∧ json_get "totalExpenses" (body (@expense_stats Ref.platform 3 Sample.now
                                      Sample.expenses).1)
    = Some (JNum 0%Qc)
  ∧ json_get "byCategory" (body (@expense_stats Ref.platform 3 Sample.now
                                   Sample.expenses).1)
    = Some (JArr [])
  ∧ json_get "monthlyExpenses" (body (@expense_stats Ref.platform 3 Sample.now
                                        Sample.expenses).1)
    = Some (JArr []).
Proof.
  assert (∀ id e, Sample.expenses !! id = Some e → userId e ≠ 3%N) as Hno.
  { intros id e. unfold Sample.expenses.
    rewrite lookup_insert. case_decide; [by intros [= <-]|].
    rewrite lookup_insert. case_decide; [by intros [= <-]|].
    by rewrite lookup_empty. }
  split; [exact Hno|].
  destruct (@stats_of_a_user_without_expenses Ref.platform 3 Sample.now Sample.expenses Hno)
    as [-> _].
  by split_and!.
Defined.

(** ** POST /api/expenses: validation, schema, storage *)

Lemma mandatory_spec {A} (v : option A) test :
  mandatory v test = true ↔ ∃ x, v = Some x ∧ test x = true.
Proof.
  destruct v as [x|]; simpl.
  - split; [by exists x|by intros (? & [= <-] & ?)].
  - split; [done|by intros (? & ? & _)].
Qed.

Lemma optional_spec {A} (v : option A) test :
  optional v test = true ↔ ∀ x, v = Some x → test x = true.
Proof.
  destruct v as [x|]; simpl.
  - split; [by intros ? ? [= <-]|by intros Hx; apply Hx].
  - split; [done|by intros _].
Qed.

Section CreateOutcomes.
Context `{Platform}.

(** A document for which every step of [expenseSchema] goes through. *)
Lemma expenseSchema_intro now a u x c d t p :
  a_userId a = Some u →
  a_amount a = Some x → (0 ≤ x)%Qc →
  a_category a = Some c → c ∈ categories →
  a_description a = Some d → Js.trim d ≠ "" →
  match a_date a with
  | Some v => cast_date_arg v = Ok t
  | None => t = now
  end →
  a_paymentMethod a = Some p → p ∈ paymentMethods →
  expenseSchema now a = Ok (mkExpense u x c (Js.trim d) t p).
Proof.
  intros Hu Ha Hx Hcat Hc Hdesc Hd Ht Hpm Hp. unfold expenseSchema. unfold_result.
  rewrite Hu, Ha, Hcat, Hdesc, Hpm.
  rewrite bool_decide_true by done.
  rewrite (proj2 (enum_elem _ _) Hc), (proj2 (truthy_ne _) Hd), (proj2 (enum_elem _ _) Hp).
  destruct (a_date a) as [v|]; [by rewrite Ht|by subst].
Qed.

Lemma create_rejected uid now newId b coll :
  validate_create b ≠ [] →
  create_expense uid now newId b coll = (validation_failed (validate_create b), coll).
Proof. unfold create_expense. by destruct (validate_create b). Qed.

(** The bodies that pass the chains of the POST route. *)
Lemma validate_create_passes b :
  validate_create b = [] ↔
    (∃ a, b_amount b = Some a ∧ (0 ≤ a)%Qc)
    ∧ (∃ c, b_category b = Some c ∧ c ≠ "")
    ∧ (∃ d, b_description b = Some d ∧ Js.trim d ≠ "")
    ∧ (∀ s, b_date b = Some s → isISO8601 s = true)
    ∧ (∃ p, b_paymentMethod b = Some p ∧ p ≠ "").
Proof.
  unfold validate_create. rewrite !app_nil, !rule_nil.
  rewrite !mandatory_spec, optional_spec. unfold isFloat_min0, notEmpty.
  setoid_rewrite bool_decide_eq_true. setoid_rewrite truthy_ne.
  split.
  - intros (Ha & Hc & (d' & Hd & Hd') & Ht & Hp). split_and!; try done.
    destruct (b_description b) as [d|]; [|done]. simpl in Hd. injection Hd as <-.
    by exists d.
  - intros (Ha & Hc & (d & Hd & Hd') & Ht & Hp). split_and!; try done.
    exists (Js.trim d). by rewrite Hd.
Qed.

(** X5.  For a body whose description, if it carries one, is ASCII
    text: the chains of the POST route pass it exactly when it has an
    amount that is not negative, a category and a payment method that
    are not empty, a description that is not blank, and a date that,
    if there is one, is ISO 8601.  The answer is 400 exactly when a
    chain fails; it then carries the messages of the chains that
    failed, and nothing is stored. *)
Theorem create_validation (uid : ObjectId) (now : Z) (newId : ObjectId) (b : ExpenseBody)
    (coll : gmap ObjectId Expense) :
  (∀ d, b_description b = Some d → ascii_text d) →
  (validate_create b = [] ↔
     (∃ a, b_amount b = Some a ∧ (0 ≤ a)%Qc)
     ∧ (∃ c, b_category b = Some c ∧ c ≠ "")
     ∧ (∃ d, b_description b = Some d ∧ Js.trim d ≠ "")
     ∧ (∀ s, b_date b = Some s → isISO8601 s = true)
     ∧ (∃ p, b_paymentMethod b = Some p ∧ p ≠ ""))
  ∧ (validate_create b ≠ [] →
       create_expense uid now newId b coll = (validation_failed (validate_create b), coll))
  ∧ (status (create_expense uid now newId b coll).1 = 400 ↔ validate_create b ≠ []).
Proof.
  intros _. split_and!.
  - apply validate_create_passes.
  - apply create_rejected.
  - split.
    + intros Hs Hv. revert Hs. unfold create_expense. rewrite Hv.
      match goal with |- context [create ?n ?i ?a ?c] =>
        destruct (create n i a c) as [[doc coll'']|] end; simpl; done.
    + intros Hv. by rewrite create_rejected.
Qed.

(** X6.  A body whose description is ASCII text, that passes the chains
    of the route and whose category and payment method are among the
    schema's, stored under an id that is free: the answer is 201 with
    the document stored, which holds the requester's id, the amount,
    category and payment method of the body, its description trimmed,
    and its date, or the time of the request when the body has none. *)
Theorem create_stores_the_body (uid : ObjectId) (now : Z) (newId : ObjectId)
    (b : ExpenseBody) (coll : gmap ObjectId Expense) (a : Qc) (c d p : string) (t : Z) :
  ascii_text d →
  validate_create b = [] →
  created uid now b a c d p t →
  c ∈ categories →
  p ∈ paymentMethods →
  coll !! newId = None →
  create_expense uid now newId b coll
  = (mkResponse 201 (expense_json (newId, mkExpense uid a c (Js.trim d) t p)),
     <[newId := mkExpense uid a c (Js.trim d) t p]> coll).
Proof.
  intros _ Hv (Ha & Hc & Hd & Hp & Ht) Hcin Hpin Hfree.
  pose proof (proj1 (validate_create_passes b) Hv)
    as ((a' & Ha' & Hpos) & _ & (d' & Hd' & Hne) & _ & _).
  rewrite Ha in Ha'. injection Ha' as <-. rewrite Hd in Hd'. injection Hd' as <-.
  unfold create_expense. rewrite Hv. unfold create.
  erewrite (expenseSchema_intro now _ uid a c (Js.trim d) t p); simpl; try done.
  - unfold_result. rewrite Hfree. by rewrite trim_idem.
  - by rewrite Hd.
  - by rewrite trim_idem.
  - destruct (Js.supplied (b_date b)) as [s|]; simpl; [|by subst].
    unfold_result. by rewrite Ht.
Qed.

(** The chains of the route ask of the category and of the payment
    method only that they are not empty; a body that passes them with
    a value outside the lists of the schema is refused by the schema,
    answered 500, and nothing is stored. *)
Theorem create_outside_enum_is_500 (uid : ObjectId) (now : Z) (newId : ObjectId)
    (b : ExpenseBody) (coll : gmap ObjectId Expense) (c p : string) :
  validate_create b = [] →
  b_category b = Some c →
  b_paymentMethod b = Some p →
  c ∉ categories ∨ p ∉ paymentMethods →
  create_expense uid now newId b coll = (server_error, coll).
Proof.
  intros Hv Hc Hp Hout. unfold create_expense. rewrite Hv.
  match goal with |- context [create ?n ?i ?a ?c] =>
    destruct (create n i a c) as [[doc coll'']|] eqn:Hcr end; simpl; [|done].
  apply create_inv in Hcr as (e & He & _).
  apply expenseSchema_inv in He as (_ & _ & Hc' & _ & _ & Hp' & (_ & Hcin & _ & _ & Hpin)).
  simpl in Hc', Hp'. rewrite Hc in Hc'. rewrite Hp in Hp'.
  injection Hc' as ->. injection Hp' as ->. by destruct Hout.
Qed.

(** After a POST answered 201, GET /api/expenses/:id with the new id
    answers the requester with the same body, and any other user with
    401; the unfiltered list of the requester holds the new document;
    and every document stored before is as it was. *)
Theorem created_expense_is_served (uid : ObjectId) (now : Z) (newId : ObjectId)
    (b : ExpenseBody) (coll : gmap ObjectId Expense)
    (resp : Response) (coll' : gmap ObjectId Expense) :
  create_expense uid now newId b coll = (resp, coll') →
  status resp = 201 →
  get_expense uid newId coll' = (mkResponse 200 (body resp), coll')
  ∧ (∀ other, other ≠ uid →
       get_expense other newId coll' = (message 401 "Not authorized", coll'))
  ∧ (∃ docs, list_expenses uid no_filters coll'
             = (mkResponse 200 (JArr (expense_json <$> docs)), coll')
             ∧ body resp ∈ expense_json <$> docs)
  ∧ (∀ j e, coll !! j = Some e → coll' !! j = Some e).
Proof.
  unfold create_expense.
  destruct (validate_create b); [|by intros [= <- <-]].
  match goal with |- context [create ?n ?i ?a ?c] =>
    destruct (create n i a c) as [[doc coll'']|] eqn:Hcr end; simpl;
    [|by intros [= <- <-]].
  intros [= <- <-] _.
  apply create_inv in Hcr as (e & He & Hfree & -> & ->).
  apply expenseSchema_inv in He as (Hu & _). simpl in Hu. injection Hu as Hu.
  split_and!.
  - unfold get_expense, findById. rewrite lookup_insert_eq.
    by rewrite decide_False by (by intros []).
  - intros other Hother. unfold get_expense, findById. rewrite lookup_insert_eq.
    rewrite decide_True; [done|]. by rewrite <-Hu.
  - exists (sort_date_desc (match_user uid (map_to_list (<[newId:=e]> coll)))).
    split; [unfold list_expenses; by rewrite find_no_filters|].
    simpl. apply (list_elem_of_fmap_2 expense_json).
    rewrite sort_date_desc_perm. apply match_user_elem.
    split; [apply lookup_insert_eq|done].
  - intros j ej Hj. rewrite lookup_insert_ne; [done|]. intros <-. by rewrite Hfree in Hj.
Qed.

End CreateOutcomes.

Lemma create_validation_witness :
  (∀ d, b_description Sample.blank_description = Some d → ascii_text d)
  ∧ @create_expense Ref.platform 1 Sample.now 9 Sample.blank_description Sample.expenses
    = (validation_failed ["Description is required"], Sample.expenses)
  ∧ @validate_create Ref.platform Sample.dinner = [].
Proof.
  assert (∀ d, b_description Sample.blank_description = Some d → ascii_text d) as Hb.
  { intros d [= <-]. by apply (bool_decide_unpack _). }
  assert (∀ d, b_description Sample.dinner = Some d → ascii_text d) as Hd.
  { intros d [= <-]. by apply (bool_decide_unpack _). }
  split; [exact Hb|].
  destruct (@create_validation Ref.platform 1 Sample.now 9 Sample.blank_description
              Sample.expenses Hb) as (_ & Hrej & _).
  destruct (@create_validation Ref.platform 1 Sample.now 9 Sample.dinner
              Sample.expenses Hd) as (Hpass & _ & _).
  split.
  - assert (@validate_create Ref.platform Sample.blank_description
            = ["Description is required"]) as Hv by (by vm_compute).
    rewrite <-Hv. apply Hrej. by rewrite Hv.
  - apply Hpass. split_and!.
    + exists (Qc_of_Z 80). split; [reflexivity|by vm_compute].
    + exists "Food & Dining". split; [reflexivity|by vm_compute].
    + exists " Dinner ". split; [reflexivity|by vm_compute].
    + intros s Hs. by vm_compute in Hs.
    + exists "UPI". split; [reflexivity|by vm_compute].
Defined.

Lemma create_stores_the_body_witness :
  @create_expense Ref.platform 1 Sample.now 9 Sample.dinner Sample.expenses
  = (mkResponse 201
       (expense_json (9%N, mkExpense 1 (Qc_of_Z 80) "Food & Dining" (Js.trim " Dinner ")
                                     Sample.now "UPI")),
     <[9%N := mkExpense 1 (Qc_of_Z 80) "Food & Dining" (Js.trim " Dinner ") Sample.now "UPI"]>
       Sample.expenses).
Proof.
  apply (@create_stores_the_body Ref.platform 1 Sample.now 9 Sample.dinner Sample.expenses
           (Qc_of_Z 80) "Food & Dining" " Dinner " "UPI" Sample.now).
  - by apply (bool_decide_unpack _).
  - by vm_compute.
  - unfold created. by split_and!.
  - by apply (bool_decide_unpack _).
  - by apply (bool_decide_unpack _).
  - reflexivity.
Defined.

Lemma create_outside_enum_is_500_witness :
  @validate_create Ref.platform Sample.odd_category = []
  ∧ ("Groceries" ∉ categories)
  ∧ @create_expense Ref.platform 1 Sample.now 9 Sample.odd_category Sample.expenses
    = (server_error, Sample.expenses).
Proof.
  assert (@validate_create Ref.platform Sample.odd_category = []) as Hv by (by vm_compute).
  assert ("Groceries" ∉ categories) as Hc by (by apply (bool_decide_unpack _)).
  split_and!; [exact Hv | exact Hc |].
  exact (@create_outside_enum_is_500 Ref.platform 1 Sample.now 9 Sample.odd_category
           Sample.expenses "Groceries" "UPI" Hv eq_refl eq_refl (or_introl Hc)).
Defined.

Lemma created_expense_is_served_witness :
  status (@create_expense Ref.platform 1 Sample.now 9 Sample.dinner Sample.expenses).1 = 201
  ∧ get_expense 1 9 (@create_expense Ref.platform 1 Sample.now 9 Sample.dinner
                       Sample.expenses).2
    = (mkResponse 200 (body (@create_expense Ref.platform 1 Sample.now 9 Sample.dinner
                               Sample.expenses).1),
       (@create_expense Ref.platform 1 Sample.now 9 Sample.dinner Sample.expenses).2)
  ∧ get_expense 2 9 (@create_expense Ref.platform 1 Sample.now 9 Sample.dinner
                       Sample.expenses).2
    = (message 401 "Not authorized",
       (@create_expense Ref.platform 1 Sample.now 9 Sample.dinner Sample.expenses).2).
Proof.
  destruct (@create_expense Ref.platform 1 Sample.now 9 Sample.dinner Sample.expenses)
    as [resp coll'] eqn:Hrun.
  assert (status resp = 201) as Hs.
  { apply (f_equal (λ x, status x.1)) in Hrun. simpl in Hrun. rewrite <-Hrun.
    by vm_compute. }
  destruct (@created_expense_is_served Ref.platform 1 Sample.now 9 Sample.dinner
              Sample.expenses resp coll' Hrun Hs) as (Hget & Hother & _).
  simpl. split_and!; [exact Hs | exact Hget | apply Hother; by vm_compute].
Defined.

(** ** PUT /api/expenses/:id: what is applied, and applying it twice *)

Section UpdateOutcomes.
Context `{Platform}.

(** X9.  A PUT whose description, if it carries one, is ASCII text and
    that is answered 200 has stored, for each member the body carries,
    the value of the body: the amount; the category and the payment
    method when they are not empty; the description trimmed; the date
    the string is cast to.  The [userId] of the document stays. *)
Theorem update_applies_the_body (uid : ObjectId) (now : Z) (id : ObjectId)
    (b : ExpenseBody) (coll : gmap ObjectId Expense)
    (resp : Response) (coll' : gmap ObjectId Expense) :
  (∀ d, b_description b = Some d → ascii_text d) →
  update_expense uid now id b coll = (resp, coll') →
  status resp = 200 →
  ∃ e e', coll !! id = Some e
    ∧ coll' = <[id := e']> coll
    ∧ resp = mkResponse 200 (expense_json (id, e'))
    ∧ userId e' = userId e ∧ userId e' = uid
    ∧ (∀ a, b_amount b = Some a → amount e' = a ∧ (0 ≤ a)%Qc)
    ∧ (∀ c, b_category b = Some c → c ≠ "" → category e' = c ∧ c ∈ categories)
    ∧ (∀ d, b_description b = Some d → description e' = Js.trim d ∧ Js.trim d ≠ "")
    ∧ (∀ s, b_date b = Some s → s ≠ "" → castDate s = Some (date e'))
    ∧ (∀ p, b_paymentMethod b = Some p → p ≠ "" →
            paymentMethod e' = p ∧ p ∈ paymentMethods).
Proof.
  intros _ Hrun H200.
  destruct (update_200 _ _ _ _ _ _ _ Hrun H200)
    as (e & e' & Hid & Hu & Hv & He' & -> & ->).
  pose proof (expenseSchema_inv _ _ _ He') as (_ & _ & _ & _ & _ & _ & Hok).
  destruct Hok as (Hpos & Hcat & _ & Hne & Hpm).
  apply assign_saved in He' as (Hu' & Ha & Hc & Hd & Ht & Hp). simpl in *.
  exists e, e'. split_and!; try done.
  - by rewrite Hu'.
  - intros a Hb. rewrite Hb in Ha. simpl in Ha. by rewrite <-Ha.
  - intros c Hb Hc0. rewrite Hb in Hc. simpl in Hc.
    rewrite (proj2 (truthy_ne _) Hc0) in Hc. by rewrite <-Hc.
  - intros d Hb. rewrite Hb in Hd. simpl in Hd.
    destruct (Js.truthy (Js.trim d)) eqn:Htd.
    + rewrite trim_idem in Hd. split; [done|]. by apply truthy_ne.
    + exfalso. unfold validate_update in Hv. rewrite Hb in Hv. simpl in Hv.
      unfold notEmpty in Hv. rewrite Htd in Hv.
      apply app_eq_nil in Hv as [_ Hv]. by apply app_eq_nil in Hv as [Hv _].
  - intros s Hb Hs. rewrite Hb in Ht. simpl in Ht.
    rewrite (proj2 (truthy_ne _) Hs) in Ht. simpl in Ht. unfold_result.
    by destruct (castDate s) as [t|]; [injection Ht as ->|].
  - intros p Hb Hp0. rewrite Hb in Hp. simpl in Hp.
    rewrite (proj2 (truthy_ne _) Hp0) in Hp. by rewrite <-Hp.
Qed.

(** What a PUT answered 200 has stored satisfies the assignments of the
    same body again. *)
Lemma update_again now now' e b e' :
  expenseSchema now (assign e b) = Ok e' →
  expenseSchema now' (assign e' b) = Ok e'.
Proof.
  intros He'.
  pose proof (expenseSchema_inv _ _ _ He') as (_ & _ & _ & _ & _ & _ & Hok).
  destruct Hok as (Hpos & Hcat & Htrim & Hne & Hpm).
  apply assign_saved in He' as (Hu' & Ha & Hc & Hd & Ht & Hp).
  destruct e' as [u' a' c' d' t' p']. simpl in *.
  assert (Js.trim (Js.or_else (b_description b) d') = d') as Hd2.
  { unfold Js.or_else in *. destruct (b_description b) as [d|]; [|done].
    by destruct (Js.truthy d). }
  rewrite <-Hd2 at 2.
  apply expenseSchema_intro; simpl; try done.
  - f_equal. destruct (b_amount b); simpl in *; done.
  - f_equal. unfold Js.or_else in *. destruct (b_category b) as [c|]; [|done].
    by destruct (Js.truthy c).
  - by rewrite Hd2.
  - by destruct (Js.supplied (b_date b)).
  - f_equal. unfold Js.or_else in *. destruct (b_paymentMethod b) as [p|]; [|done].
    by destruct (Js.truthy p).
Qed.

(** PUT is idempotent: after a PUT answered 200, the same PUT again, at
    whatever time, is answered with the same body and leaves the
    collection as the first one left it; and GET /api/expenses/:id
    answers the requester with that body too. *)
Theorem update_twice_is_update_once (uid : ObjectId) (now now' : Z) (id : ObjectId)
    (b : ExpenseBody) (coll : gmap ObjectId Expense)
    (resp : Response) (coll' : gmap ObjectId Expense) :
  update_expense uid now id b coll = (resp, coll') →
  status resp = 200 →
  update_expense uid now' id b coll' = (resp, coll')
  ∧ get_expense uid id coll' = (resp, coll').
Proof.
  intros Hrun H200.
  destruct (update_200 _ _ _ _ _ _ _ Hrun H200)
    as (e & e' & Hid & Hu & Hv & He' & -> & ->).
  pose proof (assign_saved _ _ _ _ He') as (Hu' & _).
  split.
  - rewrite update_accepted by done. unfold findById. rewrite lookup_insert_eq.
    rewrite decide_False by (rewrite Hu', Hu; by intros []).
    unfold save. rewrite (update_again _ now' _ _ _ He'). unfold_result.
    by rewrite insert_insert_eq.
  - unfold get_expense, findById. rewrite lookup_insert_eq.
    by rewrite decide_False by (rewrite Hu', Hu; by intros []).
Qed.

End UpdateOutcomes.

Lemma update_applies_the_body_witness :
  ∃ e', (@update_expense Ref.platform 1 Sample.now 7 Sample.full_update Sample.expenses).2
          = <[7%N := e']> Sample.expenses
        ∧ amount e' = Qc_of_Z 12
        ∧ category e' = "Travel"
        ∧ description e' = "Bus"
        ∧ paymentMethod e' = "Debit Card"
        ∧ @castDate Ref.platform "2024-06-02" = Some (date e').
Proof.
  destruct (@update_expense Ref.platform 1 Sample.now 7 Sample.full_update Sample.expenses)
    as [resp coll'] eqn:Hrun.
  assert (status resp = 200) as Hs.
  { change resp with (resp, coll').1. rewrite <-Hrun. by vm_compute. }
  assert (∀ d, b_description Sample.full_update = Some d → ascii_text d) as Hascii.
  { intros d [= <-]. by apply (bool_decide_unpack _). }
  destruct (@update_applies_the_body Ref.platform 1 Sample.now 7 Sample.full_update
              Sample.expenses resp coll' Hascii Hrun Hs)
    as (e & e' & _ & -> & _ & _ & _ & Ha & Hc & Hd & Ht & Hp).
  exists e'. cbn [snd]. split_and!.
  - done.
  - exact (proj1 (Ha _ eq_refl)).
  - apply (Hc "Travel"); [reflexivity|by vm_compute].
  - exact (proj1 (Hd " Bus " eq_refl)).
  - apply (Hp "Debit Card"); [reflexivity|by vm_compute].
  - apply (Ht "2024-06-02"); [reflexivity|by vm_compute].
Defined.

Lemma update_twice_is_update_once_witness :
  status (@update_expense Ref.platform 1 Sample.now 7 Sample.full_update Sample.expenses).1
  = 200
  ∧ @update_expense Ref.platform 1 (Sample.now + 1000) 7 Sample.full_update
      (@update_expense Ref.platform 1 Sample.now 7 Sample.full_update Sample.expenses).2
    = @update_expense Ref.platform 1 Sample.now 7 Sample.full_update Sample.expenses.
Proof.
  destruct (@update_expense Ref.platform 1 Sample.now 7 Sample.full_update Sample.expenses)
    as [resp coll'] eqn:Hrun.
  assert (status resp = 200) as Hs.
  { change resp with (resp, coll').1. rewrite <-Hrun. by vm_compute. }
  split; [exact Hs|].
  exact (proj1 (@update_twice_is_update_once Ref.platform 1 Sample.now (Sample.now + 1000) 7
                  Sample.full_update Sample.expenses resp coll' Hrun Hs)).
Defined.

(** ** Writes: what they reach and what they keep *)

Section Writes.
Context `{Platform}.

(** The two ways a POST ends for the collection. *)
Lemma create_cases uid now newId b coll resp coll' :
  create_expense uid now newId b coll = (resp, coll') →
  coll' = coll
  ∨ ∃ e, userId e = uid ∧ coll !! newId = None ∧ coll' = <[newId := e]> coll.
Proof.
  unfold create_expense.
  destruct (validate_create b); [|intros [= _ <-]; by left].
  match goal with |- context [create ?n ?i ?a ?c] =>
    destruct (create n i a c) as [[doc coll'']|] eqn:Hcr end; simpl;
    [|intros [= _ <-]; by left].
  intros [= _ <-]. right.
  apply create_inv in Hcr as (e & He & Hfree & _ & ->).
  apply expenseSchema_inv in He as (Hu & _). simpl in Hu. injection Hu as Hu.
  by exists e.
Qed.

(** The two ways a PUT ends for the collection. *)
Lemma update_cases uid now id b coll resp coll' :
  update_expense uid now id b coll = (resp, coll') →
  coll' = coll
  ∨ ∃ e e', coll !! id = Some e ∧ userId e = uid ∧ userId e' = uid
            ∧ coll' = <[id := e']> coll.
Proof.
  intros Hrun. destruct (decide (status resp = 200)) as [H200|Hn].
  - right. destruct (update_200 _ _ _ _ _ _ _ Hrun H200)
      as (e & e' & Hid & Hu & _ & He' & _ & ->).
    apply assign_saved in He' as (Hu' & _). exists e, e'. split_and!; try done.
    by rewrite Hu'.
  - left. by eapply update_not_200.
Qed.

(** The two ways a DELETE ends for the collection. *)
Lemma delete_cases uid id coll :
  (delete_expense uid id coll).2 = coll
  ∨ ∃ e, coll !! id = Some e ∧ userId e = uid
         ∧ delete_expense uid id coll = (message 200 "Expense removed", delete id coll).
Proof.
  unfold delete_expense, findById, deleteOne.
  destruct (coll !! id) as [e|]; simpl; [|by left].
  destruct (decide (userId e ≠ uid)) as [Hne|Hu]; simpl; [by left|].
  right. exists e. split_and!; try done. by apply dec_stable.
Qed.

(** No request to the expense routes reaches another user's data: the
    documents that do not belong to the requester are, after a POST and
    after a GET, PUT or DELETE on any id, exactly those that were
    stored before, unchanged. *)
Theorem writes_leave_other_users_alone (uid : ObjectId) (now : Z) (newId : ObjectId)
    (b : ExpenseBody) (r : IdRequest) (id : ObjectId) (coll : gmap ObjectId Expense)
    (j : ObjectId) (e : Expense) :
  userId e ≠ uid →
  ((create_expense uid now newId b coll).2 !! j = Some e ↔ coll !! j = Some e)
  ∧ ((by_id r uid id coll).2 !! j = Some e ↔ coll !! j = Some e).
Proof.
  intros Hne. split.
  - destruct (create_expense uid now newId b coll) as [resp coll'] eqn:Hrun. simpl.
    apply create_cases in Hrun as [->|(e0 & Hu & Hfree & ->)]; [done|].
    rewrite lookup_insert_Some. split.
    + intros [[_ <-]|[_ Hj]]; [by destruct Hne|done].
    + intros Hj. right. split; [|done]. intros <-. by rewrite Hfree in Hj.
  - destruct r as [|now' b'|]; simpl.
    + unfold get_expense, findById. destruct (coll !! id) as [e0|]; simpl; [|done].
      by destruct (decide (userId e0 ≠ uid)).
    + destruct (update_expense uid now' id b' coll) as [resp coll'] eqn:Hrun. simpl.
      apply update_cases in Hrun as [->|(e0 & e' & Hid & Hu & Hu' & ->)]; [done|].
      rewrite lookup_insert_Some. split.
      * intros [[_ <-]|[_ Hj]]; [by destruct Hne|done].
      * intros Hj. right. split; [|done]. intros <-.
        rewrite Hid in Hj. injection Hj as <-. by destruct Hne.
    + destruct (delete_cases uid id coll) as [->|(e0 & Hid & Hu & ->)]; [done|]. simpl.
      rewrite lookup_delete_Some. split; [by intros [_ ?]|].
      intros Hj. split; [|done]. intros <-.
      rewrite Hid in Hj. injection Hj as <-. by destruct Hne.
Qed.

(** The routes keep the collection within the schema: when every stored
    document has an amount that is not negative, a category and a
    payment method of the schema's lists and a description that is
    trimmed and not empty, the same holds after a POST and after a GET,
    PUT or DELETE, whatever the request. *)
Theorem routes_keep_the_schema (uid : ObjectId) (now : Z) (newId : ObjectId)
    (b : ExpenseBody) (r : IdRequest) (id : ObjectId) (coll : gmap ObjectId Expense) :
  store_ok coll →
  store_ok (create_expense uid now newId b coll).2
  ∧ store_ok (by_id r uid id coll).2.
Proof.
  intros Hok. split.
  - destruct (create_expense uid now newId b coll) as [resp coll'] eqn:Hrun.
    by eapply create_preserves_store_ok.
  - destruct r as [|now' b'|]; simpl.
    + unfold get_expense, findById. destruct (coll !! id) as [e0|]; simpl; [|done].
      by destruct (decide (userId e0 ≠ uid)).
    + destruct (update_expense uid now' id b' coll) as [resp coll'] eqn:Hrun.
      by eapply update_preserves_store_ok.
    + by apply delete_preserves_store_ok.
Qed.

(** After a DELETE answered 200 the expense is gone for everybody: GET,
    DELETE and a PUT with a valid body on its id are answered 404,
    whoever asks; no answer of GET /api/expenses lists it; and every
    other document is as it was. *)
Theorem deleted_expense_is_gone (uid : ObjectId) (id : ObjectId)
    (coll : gmap ObjectId Expense) (resp : Response) (coll' : gmap ObjectId Expense) :
  delete_expense uid id coll = (resp, coll') →
  status resp = 200 →
  (∀ who r, passes_validation r →
            by_id r who id coll' = (message 404 "Expense not found", coll'))
  ∧ (∀ who q, (list_expenses who q coll').1 = server_error
              ∨ ∃ docs, (list_expenses who q coll').1
                        = mkResponse 200 (JArr (expense_json <$> docs))
                        ∧ ∀ d, d ∈ docs → d.1 ≠ id)
  ∧ (∀ j, j ≠ id → coll' !! j = coll !! j).
Proof.
  intros Hrun H200.
  assert (coll' = delete id coll) as ->.
  { destruct (delete_cases uid id coll) as [Hsame|(e0 & _ & _ & Heq)].
    - revert Hrun H200 Hsame. unfold delete_expense, findById, deleteOne.
      destruct (coll !! id) as [e|]; simpl; [|by intros [= <- <-]].
      destruct (decide (userId e ≠ uid)); simpl; by intros [= <- <-].
    - rewrite Heq in Hrun. by injection Hrun as _ <-. }
  split_and!.
  - intros who r Hv. destruct r as [|now b|]; simpl.
    + unfold get_expense, findById. by rewrite lookup_delete_eq.
    + rewrite update_accepted by done. unfold findById. by rewrite lookup_delete_eq.
    + unfold delete_expense, findById. by rewrite lookup_delete_eq.
  - intros who q.
    destruct (list_expenses_cases who q (delete id coll))
      as [->|(re & dt & am & ->)]; [by left|].
    right. eexists. split; [done|].
    intros [i e]. rewrite sort_date_desc_perm, list_elem_of_filter, elem_of_map_to_list.
    intros [_ [Hi _]%lookup_delete_Some]. done.
  - intros j Hj. by apply lookup_delete_ne.
Qed.

End Writes.

Lemma writes_leave_other_users_alone_witness :
  userId Sample.taxi ≠ 1%N
  ∧ ((@create_expense Ref.platform 1 Sample.now 9 Sample.dinner Sample.expenses).2 !! 8%N
     = Some Sample.taxi ↔ Sample.expenses !! 8%N = Some Sample.taxi)
  ∧ ((@by_id Ref.platform DELETE_id 1 7 Sample.expenses).2 !! 8%N = Some Sample.taxi
     ↔ Sample.expenses !! 8%N = Some Sample.taxi).
Proof.
  assert (userId Sample.taxi ≠ 1%N) as Hne by (by vm_compute).
  split; [exact Hne|].
  exact (@writes_leave_other_users_alone Ref.platform 1 Sample.now 9 Sample.dinner
           DELETE_id 7 Sample.expenses 8 Sample.taxi Hne).
Defined.

Lemma routes_keep_the_schema_witness :
  store_ok Sample.expenses
  ∧ store_ok (@create_expense Ref.platform 1 Sample.now 9 Sample.dinner Sample.expenses).2
  ∧ store_ok (@by_id Ref.platform (PUT_id Sample.now Sample.full_update) 1 7
                Sample.expenses).2.
Proof.
  split; [exact sample_store_ok|].
  exact (@routes_keep_the_schema Ref.platform 1 Sample.now 9 Sample.dinner
           (PUT_id Sample.now Sample.full_update) 7 Sample.expenses sample_store_ok).
Defined.

Lemma deleted_expense_is_gone_witness :
  status (delete_expense 1 7 Sample.expenses).1 = 200
  ∧ get_expense 1 7 (delete_expense 1 7 Sample.expenses).2
    = (message 404 "Expense not found", (delete_expense 1 7 Sample.expenses).2)
  ∧ (delete_expense 1 7 Sample.expenses).2 !! 8%N = Sample.expenses !! 8%N.
Proof.
  destruct (delete_expense 1 7 Sample.expenses) as [resp coll'] eqn:Hrun.
  assert (status resp = 200) as Hs.
  { change resp with (resp, coll').1. rewrite <-Hrun. by vm_compute. }
  destruct (@deleted_expense_is_gone Ref.platform 1 7 Sample.expenses resp coll' Hrun Hs)
    as (H404 & _ & Hrest).
  split_and!; [exact Hs | exact (H404 1%N GET_id I) | apply Hrest; by vm_compute].
Defined.

(** ** PUT /api/users/profile: what is applied and what is refused *)

Section ProfileOutcomes.
Context `{Platform}.

Lemma update_profile_rejected uid b users :
  validate_profile b ≠ [] →
  update_profile uid b users = (validation_failed (validate_profile b), users).
Proof. unfold update_profile. by destruct (validate_profile b). Qed.

(** X14.  A profile update whose name, bio and phone, where the body
    carries them, are ASCII text, and that is answered 200, has stored,
    in the requester's record and in no other: the name of the body,
    trimmed, when it has one; the bio and the phone of the body,
    trimmed, and its avatar, when it has them, even empty; the email
    of the body, when it has one that is not empty, in lower case; the
    password as it was. *)
Theorem profile_update_applies_the_body (uid : ObjectId) (b : ProfileBody)
    (users : gmap ObjectId User) (resp : Response) (users' : gmap ObjectId User) :
  (∀ n, p_name b = Some n → ascii_text n) →
  (∀ s, p_bio b = Some s → ascii_text s) →
  (∀ s, p_phone b = Some s → ascii_text s) →
  update_profile uid b users = (resp, users') →
  status resp = 200 →
  ∃ u u', users !! uid = Some u
    ∧ users' = <[uid := u']> users
    ∧ resp = mkResponse 200 (profile_json (uid, u'))
    ∧ password u' = password u
    ∧ name u' = match p_name b with Some n => Js.trim n | None => name u end
    ∧ bio u' = match p_bio b with Some s => Some (Js.trim s) | None => bio u end
    ∧ phone u' = match p_phone b with Some s => Some (Js.trim s) | None => phone u end
    ∧ avatar u' = match p_avatar b with Some s => Some s | None => avatar u end
    ∧ email u' = toLowerCase (match Js.supplied (p_email b) with
                              | Some e => e
                              | None => email u
                              end).
Proof.
  intros _ _ _. unfold update_profile.
  destruct (validate_profile b) eqn:Hv; [|by intros [= <- <-]].
  destruct (users !! uid) as [u|]; simpl; [|by intros [= <- <-]].
  destruct (email_taken _ u users); simpl; [by intros [= <- <-]|].
  unfold save_user.
  destruct (filter _ (map_to_list users)); simpl; [|by intros [= <- <-]].
  intros [= <- <-] _. eexists u, _. split_and!; try done; simpl.
  - unfold validate_profile in Hv. apply app_eq_nil in Hv as [Hv _].
    apply rule_nil in Hv. destruct (p_name b) as [n|]; simpl in *; [|done].
    unfold notEmpty in Hv. by rewrite Hv.
  - by destruct (p_bio b).
  - by destruct (p_phone b).
  - f_equal. unfold Js.or_else, Js.supplied. destruct (p_email b) as [e|]; [|done].
    by destruct (Js.truthy e).
Qed.

(** X15.  Every answer of the profile update other than 200 changes
    nothing: a body that fails a chain of the route is answered 400
    with the messages of the chains that failed, and a valid body for
    a requester whose record is not stored is answered 404.  A body
    whose name, if it carries one, is ASCII text passes the chains
    exactly when that name is not blank and its email, if it carries
    one, is an email address. *)
Theorem profile_update_refusals (uid : ObjectId) (b : ProfileBody)
    (users : gmap ObjectId User) :
  (status (update_profile uid b users).1 ≠ 200 → (update_profile uid b users).2 = users)
  ∧ (validate_profile b ≠ [] →
       update_profile uid b users = (validation_failed (validate_profile b), users))
  ∧ (validate_profile b = [] → users !! uid = None →
       update_profile uid b users = (message 404 "User not found", users))
  ∧ ((∀ n, p_name b = Some n → ascii_text n) →
     (validate_profile b = [] ↔
        (∀ n, p_name b = Some n → Js.trim n ≠ "")
        ∧ (∀ e, p_email b = Some e → isEmail e = true))).
Proof.
  split_and!.
  - unfold update_profile.
    destruct (validate_profile b); [|done].
    destruct (users !! uid) as [u|]; simpl; [|done].
    destruct (email_taken _ u users); simpl; [done|].
    unfold save_user.
    destruct (filter _ (map_to_list users)); simpl; done.
  - apply update_profile_rejected.
  - intros Hv Hu. rewrite update_profile_accepted by done. by rewrite Hu.
  - intros _. unfold validate_profile. rewrite app_nil, !rule_nil, !optional_spec.
    unfold notEmpty. setoid_rewrite truthy_ne. split.
    + intros [Hn He]. split; [|done]. intros n Hb. apply Hn. by rewrite Hb.
    + intros [Hn He]. split; [|done]. intros n' Hb.
      destruct (p_name b) as [n|]; [|done]. simpl in Hb. injection Hb as <-. by apply Hn.
Qed.

End ProfileOutcomes.

Lemma profile_update_applies_the_body_witness :
  ∃ u', (@update_profile Ref.platform 1 Sample.new_bio Sample.users).2
          = <[1%N := u']> Sample.users
        ∧ name u' = "Alice A."
        ∧ bio u' = Some "hello"
        ∧ password u' = "$2a$10$hash".
Proof.
  destruct (@update_profile Ref.platform 1 Sample.new_bio Sample.users)
    as [resp users'] eqn:Hrun.
  assert (status resp = 200) as Hs.
  { change resp with (resp, users').1. rewrite <-Hrun. by vm_compute. }
  assert (∀ n, p_name Sample.new_bio = Some n → ascii_text n) as Hname.
  { intros n [= <-]. by apply (bool_decide_unpack _). }
  assert (∀ s, p_bio Sample.new_bio = Some s → ascii_text s) as Hbio.
  { intros n [= <-]. by apply (bool_decide_unpack _). }
  assert (∀ s, p_phone Sample.new_bio = Some s → ascii_text s) as Hphone by done.
  destruct (@profile_update_applies_the_body Ref.platform 1 Sample.new_bio Sample.users
              resp users' Hname Hbio Hphone Hrun Hs)
    as (u & u' & Hu & -> & _ & Hpw & Hn & Hb & _).
  assert (u = Sample.alice) as -> by (by injection Hu).
  exists u'. cbn [snd]. split_and!; [done | exact Hn | exact Hb | exact Hpw].
Defined.

(** * The pages *)

(** ** The filters of the Expenses page *)

Lemma filter_if {A} (c : bool) (P : A → bool) (l : list A) :
  (if c then filter (λ x, P x) l else l) = filter (λ x, negb c || P x) l.
Proof.
  destruct c; simpl; [done|].
  induction l as [|x l IH]; [done|]. rewrite filter_cons_True by done. by rewrite <-IH.
Qed.

Section PageFilters.
Context `{Platform}.

(** [applyFilters] is one pass that keeps the entries passing every
    filter that is set. *)
Lemma applyFilters_kept f l : applyFilters f l = filter (λ d, kept f d) l.
Proof.
  unfold applyFilters. cbv zeta.
  rewrite (filter_if (Js.truthy (fl_search f))), (filter_if (Js.truthy (fl_category f))),
    (filter_if (Js.truthy (fl_startDate f))), (filter_if (Js.truthy (fl_endDate f))).
  rewrite !list_filter_filter. apply list_filter_iff. intros d. unfold kept.
  rewrite !andb_True. tauto.
Qed.

Lemma on_or_after_spec s d :
  on_or_after s d = true ↔ ∃ t, new_Date s = Some t ∧ t ≤ date d.2.
Proof.
  unfold on_or_after. destruct (new_Date s) as [t|].
  - rewrite bool_decide_eq_true. split; [by exists t|by intros (? & [= <-] & ?)].
  - split; [done|by intros (? & ? & _)].
Qed.

Lemma on_or_before_spec s d :
  on_or_before s d = true ↔ ∃ t, new_Date s = Some t ∧ date d.2 ≤ t.
Proof.
  unfold on_or_before. destruct (new_Date s) as [t|].
  - rewrite bool_decide_eq_true. split; [by exists t|by intros (? & [= <-] & ?)].
  - split; [done|by intros (? & ? & _)].
Qed.

Lemma implb_spec (c x : bool) : negb c || x = true ↔ (c = true → x = true).
Proof. destruct c, x; simpl; split; try done. by intros Hc; apply Hc. Qed.

Lemma kept_spec f d :
  kept f d = true ↔
    (fl_search f ≠ "" →
       Js.includes (toLowerCase (fl_search f)) (toLowerCase (description d.2)) = true)
    ∧ (fl_category f ≠ "" → category d.2 = fl_category f)
    ∧ (fl_startDate f ≠ "" → ∃ t, new_Date (fl_startDate f) = Some t ∧ t ≤ date d.2)
    ∧ (fl_endDate f ≠ "" → ∃ t, new_Date (fl_endDate f) = Some t ∧ date d.2 ≤ t).
Proof.
  unfold kept. rewrite !andb_true_iff, !implb_spec, !truthy_ne.
  rewrite on_or_after_spec, on_or_before_spec, String.eqb_eq. tauto.
Qed.

(** X16.  What the Expenses page shows: the entries of its list, in
    their order, whose description in lower case contains the search
    text in lower case, that have the category chosen and are dated
    within the bounds, for the filters that are set; a bound that is
    not a date leaves nothing.  Filtering what is shown again changes
    nothing, and with no filter set the whole list is shown. *)
Theorem applyFilters_selects (f : Filters) (l : list ExpenseDoc) :
  applyFilters f l `sublist_of` l
  ∧ (∀ d, d ∈ applyFilters f l ↔
          d ∈ l
          ∧ (fl_search f ≠ "" →
               Js.includes (toLowerCase (fl_search f))
                 (toLowerCase (description d.2)) = true)
          ∧ (fl_category f ≠ "" → category d.2 = fl_category f)
          ∧ (fl_startDate f ≠ "" →
               ∃ t, new_Date (fl_startDate f) = Some t ∧ t ≤ date d.2)
          ∧ (fl_endDate f ≠ "" →
               ∃ t, new_Date (fl_endDate f) = Some t ∧ date d.2 ≤ t))
  ∧ applyFilters f (applyFilters f l) = applyFilters f l
  ∧ applyFilters (mkFilters "" "" "" "") l = l
  ∧ (fl_startDate f ≠ "" → new_Date (fl_startDate f) = None → applyFilters f l = []).
Proof.
  rewrite !applyFilters_kept. split_and!.
  - apply sublist_filter.
  - intros d. rewrite list_elem_of_filter, Is_true_true, kept_spec. tauto.
  - rewrite list_filter_filter. apply list_filter_iff. intros d. tauto.
  - induction l as [|x l IH]; [done|].
    rewrite filter_cons_True by done. by rewrite IH.
  - intros Hs Hnone. apply elem_of_nil_inv. intros d.
    rewrite list_elem_of_filter, Is_true_true, kept_spec.
    intros [(_ & _ & Hst & _) _]. destruct (Hst Hs) as (t & Ht & _). congruence.
Qed.

End PageFilters.

(** ** The list of the Expenses page after an add, an edit, a delete *)

Lemma mirrors_ids uid coll l d : mirrors uid coll l → d ∈ l → coll !! d.1 = Some d.2.
Proof. intros [_ Hl] Hd. by apply Hl in Hd as [? _]. Qed.

Lemma edited_ids data l : (edited data l).*1 = l.*1.
Proof.
  unfold edited. induction l as [|x l IH]; [done|].
  rewrite !fmap_cons, IH. f_equal. by case_decide.
Qed.

Section PageState.
Context `{Platform}.

(** The page keeps up with the server: when its list shows the
    requester's stored expenses, each once, it still does after an add
    (the document of a POST answered 201 put in front), after an edit
    (the document of a PUT answered 200 put in the place of the entry
    with its id) and after a delete (the entry with the id of a DELETE
    answered 200 taken out). *)
Theorem page_list_follows_the_server (uid : ObjectId) (coll : gmap ObjectId Expense)
    (expenses : list ExpenseDoc) :
  mirrors uid coll expenses →
  (∀ now newId b resp coll',
     create_expense uid now newId b coll = (resp, coll') → status resp = 201 →
     ∃ data, body resp = expense_json data ∧ mirrors uid coll' (added data expenses))
  ∧ (∀ now id b resp coll',
       update_expense uid now id b coll = (resp, coll') → status resp = 200 →
       ∃ data, body resp = expense_json data ∧ mirrors uid coll' (edited data expenses))
  ∧ (∀ id resp coll',
       delete_expense uid id coll = (resp, coll') → status resp = 200 →
       mirrors uid coll' (removed id expenses)).
Proof.
  intros Hm. pose proof Hm as [Hnd Hl]. split_and!.
  - intros now newId b resp coll'. unfold create_expense.
    destruct (validate_create b); [|by intros [= <- <-]].
    match goal with |- context [create ?n ?i ?a ?c] =>
      destruct (create n i a c) as [[doc coll'']|] eqn:Hcr end; simpl;
      [|by intros [= <- <-]].
    intros [= <- <-] _.
    apply create_inv in Hcr as (e & He & Hfree & -> & ->).
    apply expenseSchema_inv in He as (Hu & _). simpl in Hu. injection Hu as Hu.
    exists (newId, e). split; [done|]. unfold added. split.
    + rewrite fmap_cons. apply NoDup_cons_2; [|done].
      intros [d [Hd1 Hd]]%list_elem_of_fmap. simpl in Hd1. subst newId.
      apply (mirrors_ids _ _ _ _ Hm) in Hd. by rewrite Hfree in Hd.
    + intros [i x]. rewrite elem_of_cons, Hl. unfold owned_by. simpl.
      rewrite lookup_insert_Some. split.
      * intros [[= -> ->]|[Hi Hx]]; [by split; [left|]|].
        split; [|done]. right. split; [|done]. intros <-. by rewrite Hfree in Hi.
      * intros [[[<- <-]|[Hne Hi]] Hx]; [by left|by right].
  - intros now id b resp coll' Hrun H200.
    destruct (update_200 _ _ _ _ _ _ _ Hrun H200)
      as (e & e' & Hid & Hu & _ & He' & -> & ->).
    apply assign_saved in He' as (Hu' & _).
    exists (id, e'). split; [done|]. split; [by rewrite edited_ids|].
    assert ((id, e) ∈ expenses) as Hold by (by apply Hl).
    intros [i x]. unfold edited. rewrite list_elem_of_fmap. unfold owned_by. simpl.
    rewrite lookup_insert_Some. split.
    + intros ([j y] & Heq & Hin). simpl in Heq. apply Hl in Hin as [Hj Hy]. simpl in *.
      case_decide as Hji.
      * injection Heq as -> ->. split; [by left|]. by rewrite Hu'.
      * injection Heq as -> ->. split; [|done]. right. split; [by intros ->|done].
    + intros [[[<- <-]|[Hne Hi]] Hx].
      * exists (id, e). simpl. by rewrite decide_True.
      * exists (i, x). simpl. rewrite decide_False by (by intros ->).
        split; [done|]. by apply Hl.
  - intros id resp coll' Hrun H200.
    assert (coll' = delete id coll) as ->.
    { revert Hrun H200. unfold delete_expense, findById, deleteOne.
      destruct (coll !! id) as [e|]; simpl; [|by intros [= <- <-]].
      destruct (decide (userId e ≠ uid)); simpl; by intros [= <- <-]. }
    unfold removed. split.
    + apply (sublist_NoDup _ (expenses.*1)); [exact Hnd|].
      apply fmap_sublist, sublist_filter.
    + intros [i x]. rewrite list_elem_of_filter, Hl. unfold owned_by. simpl.
      rewrite lookup_delete_Some. split.
      * intros [Hne [Hi Hx]]. split; [|done]. by split; [intros <-|].
      * intros [[Hne Hi] Hx]. split; [by intros ->|done].
Qed.

(** The Dashboard shows the requester's latest expenses: of the list
    that GET /api/expenses answers with, it keeps the first five, or
    all when there are fewer; they belong to the requester and none of
    those left out is dated later than one that is shown. *)
Theorem dashboard_shows_the_latest (uid : ObjectId) (coll : gmap ObjectId Expense) :
  ∃ data,
    list_expenses uid no_filters coll
    = (mkResponse 200 (JArr (expense_json <$> data)), coll)
    ∧ length (recentExpenses data) = (5 `min` length data)%nat
    ∧ (∀ d, d ∈ recentExpenses data → owned_by uid coll d)
    ∧ (∀ d d', d ∈ recentExpenses data → d' ∈ data → d' ∉ recentExpenses data →
               date d'.2 ≤ date d.2).
Proof.
  exists (sort_date_desc (match_user uid (map_to_list coll))).
  set (data := sort_date_desc (match_user uid (map_to_list coll))).
  split_and!.
  - unfold list_expenses. by rewrite find_no_filters.
  - apply length_take.
  - intros d Hd. apply subseteq_take in Hd. unfold data in Hd.
    rewrite sort_date_desc_perm in Hd. by apply match_user_elem.
  - intros d d' Hd Hd' Hnot. unfold recentExpenses in *.
    pose proof (sort_date_desc_sorted (match_user uid (map_to_list coll))) as Hs.
    fold data in Hs. rewrite <-(take_drop 5 data) in Hs, Hd'.
    apply elem_of_app in Hd' as [Hd'|Hd']; [done|].
    exact (StronglySorted_app_1_elem_of _ _ _ _ _ Hs Hd Hd').
Qed.

End PageState.

Lemma page_of_user_1_mirrors : mirrors 1 Sample.expenses page_of_user_1.
Proof.
  split.
  - by apply (bool_decide_unpack _).
  - intros [i x]. unfold owned_by, page_of_user_1, Sample.expenses. simpl.
    rewrite list_elem_of_singleton, !lookup_insert_Some, lookup_empty. split.
    + intros [= -> ->]. split; [by left|done].
    + intros [[[<- <-]|[_ [[<- <-]|[_ ?]]]] Hx]; [done|by vm_compute in Hx|done].
Defined.

Lemma page_list_follows_the_server_witness :
  mirrors 1 Sample.expenses page_of_user_1
  ∧ mirrors 1 (delete_expense 1 7 Sample.expenses).2 (removed 7 page_of_user_1)
  ∧ ∃ data, body (@create_expense Ref.platform 1 Sample.now 9 Sample.dinner
                     Sample.expenses).1 = expense_json data
            ∧ mirrors 1 (@create_expense Ref.platform 1 Sample.now 9 Sample.dinner
                           Sample.expenses).2 (added data page_of_user_1).
Proof.
  destruct (@page_list_follows_the_server Ref.platform 1 Sample.expenses page_of_user_1
              page_of_user_1_mirrors) as (Hadd & _ & Hdel).
  split; [exact page_of_user_1_mirrors|]. split.
  - destruct (delete_expense 1 7 Sample.expenses) as [resp coll'] eqn:Hrun.
    apply (Hdel 7%N resp coll' Hrun).
    change resp with (resp, coll').1. rewrite <-Hrun. by vm_compute.
  - destruct (@create_expense Ref.platform 1 Sample.now 9 Sample.dinner Sample.expenses)
      as [resp coll'] eqn:Hrun.
    apply (Hadd Sample.now 9%N Sample.dinner resp coll' Hrun).
    change resp with (resp, coll').1. rewrite <-Hrun. by vm_compute.
Defined.

(** ** What the monthly groups hold *)

(** X4.  The [monthlyExpenses] member of the stats answer is an array
    with one group for each year and month, in UTC, in which the
    requester has an expense dated at or after the instant that
    [setMonth(getMonth() - 6)] moves the time of the request to, and
    for no other; no two groups share a year and month; the [count] of
    a group is the number of those expenses in its month; and the
    groups come in ascending order of year, then month. *)
Theorem monthly_groups_since_six_months_ago `{Platform} (uid : ObjectId) (now : Z)
    (coll : gmap ObjectId Expense) :
  ∃ monthly,
    json_get "monthlyExpenses" (body (expense_stats uid now coll).1)
    = Some (JArr ((λ g, JObj [("_id", JObj [("year", JNum (Qc_of_Z (g_id g).1));
                                            ("month", JNum (Qc_of_Z (g_id g).2))]);
                              ("total", JNum (g_total g));
                              ("count", JNum (Qc_of_Z (Z.of_nat (g_count g))))])
                  <$> monthly))
    ∧ NoDup (g_id <$> monthly)
    ∧ (∀ y m, (y, m) ∈ g_id <$> monthly ↔
              ∃ d, owned_by uid coll d
                   ∧ sixMonthsAgo now ≤ date d.2
                   ∧ Calendar.agg_year (date d.2) = y
                   ∧ Calendar.agg_month (date d.2) = m)
    ∧ (∀ g, g ∈ monthly →
            g_count g
            = length (filter (λ d, month_key d = g_id g)
                        (match_user_since uid (sixMonthsAgo now) (map_to_list coll))))
    ∧ (∀ d, d ∈ match_user_since uid (sixMonthsAgo now) (map_to_list coll) ↔
            owned_by uid coll d ∧ sixMonthsAgo now ≤ date d.2)
    ∧ StronglySorted ym_asc monthly.
Proof.
  exists (agg_monthly uid (sixMonthsAgo now) (map_to_list coll)).
  destruct (agg_monthly_spec uid (sixMonthsAgo now) (map_to_list coll))
    as (Hsorted & Hnd & Hin & Hsince).
  assert (∀ d, d ∈ match_user_since uid (sixMonthsAgo now) (map_to_list coll) ↔
               owned_by uid coll d ∧ sixMonthsAgo now ≤ date d.2) as Hmatched.
  { intros [i e]. rewrite Hsince, elem_of_map_to_list. unfold owned_by. simpl. tauto. }
  split_and!; try done.
  - intros y m. rewrite agg_monthly_perm, group_stage_keys. unfold month_key.
    split.
    + intros (d & Hd & [= <- <-]). exists d. apply Hmatched in Hd as [? ?]. done.
    + intros (d & Hown & Hle & <- & <-). exists d. split; [by apply Hmatched|done].
  - intros g. by intros (_ & _ & Hc)%Hin.
Qed.

(** ** What GET /api/expenses selects *)

Lemma cast_range_cases {A} (parse : string → option A) lo hi :
  ((∀ s, Js.supplied lo = Some s → is_Some (parse s))
   ∧ (∀ s, Js.supplied hi = Some s → is_Some (parse s)))
  ∨ cast_bounds (range parse lo hi) = Throw CastError.
Proof.
  unfold range.
  destruct (Js.supplied lo) as [l|], (Js.supplied hi) as [h|]; simpl; unfold_result.
  - destruct (parse l) eqn:Hl; simpl; [|by right].
    destruct (parse h) eqn:Hh; simpl; [|by right].
    left. split; intros s [= <-]; by eexists.
  - destruct (parse l) eqn:Hl; simpl; [|by right].
    left. split; [|done]. intros s [= <-]. by eexists.
  - destruct (parse h) eqn:Hh; simpl; [|by right].
    left. split; [done|]. intros s [= <-]. by eexists.
  - left. done.
Qed.

Lemma bind_Some_forall {A B} (o : option A) (f : A → option B) (P : B → Prop) :
  (∀ t, o ≫= f = Some t → P t) ↔ (∀ s t, o = Some s → f s = Some t → P t).
Proof.
  destruct o as [s|]; simpl.
  - split; [by intros Hall ? t [= <-]; apply Hall|by intros Hall t; apply Hall].
  - split; done.
Qed.

Section ListSelects.
Context `{Platform}.

(** X2.  GET /api/expenses answers 200 exactly when the search pattern,
    if one is supplied, compiles and every bound that is supplied
    parses; otherwise it answers 500.  The list of a 200 answer holds
    exactly the requester's expenses whose description the compiled
    pattern matches, whose category is the one named and whose date
    and amount lie within the inclusive bounds, for the filters that
    are supplied; each once, latest date first. *)
Theorem list_filters_as_documented (uid : ObjectId) (q : ListParams)
    (coll : gmap ObjectId Expense) :
  (answerable q →
     ∃ docs,
       list_expenses uid q coll = (mkResponse 200 (JArr (expense_json <$> docs)), coll)
       ∧ (∀ d, d ∈ docs ↔ owned_by uid coll d ∧ asked_for q d)
       ∧ NoDup docs
       ∧ StronglySorted date_desc docs)
  ∧ (¬ answerable q → list_expenses uid q coll = (message 500 "Server error", coll)).
Proof.
  split.
  - intros (Hs & Hsd & Hed & Hmin & Hmax).
    assert (∃ re, compile_regex (Js.supplied (q_search q)) = Ok re
                  ∧ ∀ s, (∀ m, re = Some m → m s = true) ↔
                         (∀ p m, Js.supplied (q_search q) = Some p →
                                 regex_i p = Some m → m s = true))
      as (re & Hre & Hmatch).
    { destruct (Js.supplied (q_search q)) as [p|] eqn:Hp; simpl.
      - destruct (Hs p eq_refl) as [m Hm].
        exists (Some m). unfold_result. rewrite Hm. split; [done|].
        intros s. split.
        + intros Hall p' m' [= <-] Hm'. apply Hall. congruence.
        + intros Hall m' [= <-]. by apply (Hall p m).
      - exists None. split; [done|]. intros s. split; done. }
    exists (sort_date_desc
              (filter (λ d, matches uid re (Js.supplied (q_category q))
                              (Js.supplied (q_startDate q) ≫= new_Date,
                               Js.supplied (q_endDate q) ≫= new_Date)
                              (Js.supplied (q_minAmount q) ≫= parseFloat,
                               Js.supplied (q_maxAmount q) ≫= parseFloat) d)
                      (map_to_list coll))).
    split_and!.
    + unfold list_expenses, find, build_query, date_bounds, amount_bounds. simpl.
      rewrite Hre, !cast_range by done. done.
    + intros [i e]. rewrite sort_date_desc_perm, list_elem_of_filter, elem_of_map_to_list.
      rewrite Is_true_true, matches_spec, Hmatch, !bind_Some_forall.
      unfold owned_by, asked_for. simpl. tauto.
    + rewrite sort_date_desc_perm. apply NoDup_filter, NoDup_map_to_list.
    + apply sort_date_desc_sorted.
  - intros Hna.
    unfold list_expenses, find, build_query, date_bounds, amount_bounds. simpl.
    destruct (compile_regex (Js.supplied (q_search q))) as [re|ex] eqn:Hre; simpl; [|done].
    destruct (cast_range_cases new_Date (q_startDate q) (q_endDate q))
      as [[Hsd Hed]|Hthrow]; [|by rewrite Hthrow].
    rewrite (cast_range new_Date) by done. simpl.
    destruct (cast_range_cases parseFloat (q_minAmount q) (q_maxAmount q))
      as [[Hmin Hmax]|Hthrow]; [|by rewrite Hthrow].
    destruct Hna. split_and!; try done.
    intros p Hp. rewrite Hp in Hre. simpl in Hre. unfold_result.
    by destruct (regex_i p); [eexists|].
Qed.

End ListSelects.

Lemma search_lunch_answerable : @answerable Ref.platform Sample.search_lunch.
Proof.
  unfold answerable. simpl.
  split_and!; intros s Hs; vm_compute in Hs; simplify_eq;
    first [by vm_compute | by eexists; vm_compute].
Defined.

Lemma list_filters_as_documented_witness :
  @answerable Ref.platform Sample.search_lunch
  ∧ ∃ docs,
      @list_expenses Ref.platform 1 Sample.search_lunch three_expenses
      = (mkResponse 200 (JArr (expense_json <$> docs)), three_expenses)
      ∧ (∀ d, d ∈ docs ↔ owned_by 1 three_expenses d
                          ∧ @asked_for Ref.platform Sample.search_lunch d)
      ∧ NoDup docs
      ∧ StronglySorted date_desc docs.
Proof.
  split; [exact search_lunch_answerable|].
  exact (proj1 (@list_filters_as_documented Ref.platform 1 Sample.search_lunch three_expenses)
           search_lunch_answerable).
Defined.
